(** * The DRAMSim2 memory controller with the SMART STT-MRAM variant

    A shallow embedding of [DRAMSim2/MemoryController.cpp]: the
    per-cycle [update()], [addTransaction], [receiveFromBus] and
    [resetStats], over the controller's own fields.

    Conventions.
    - [unsigned] values are integers in [0, 2^32) and [uint64_t] values
      integers in [0, 2^64); every C++ operation that can leave the range
      is wrapped with [u32] or [u64].
    - [vector]s are lists.  An index outside a vector is undefined
      behaviour in C++; the embedding stops with [OutOfBounds] there.
      The per-rank and per-bank tables are built by the constructor with
      [NUM_RANKS] rows of [NUM_BANKS] entries and never resized, so a
      loop that visits every rank or every bank of a table is written as
      a map over the table.
    - [exit] and [abort] end the run: the embedding returns [Abort].
    - Debug printing ([DEBUG_*], [PRINT]) has no effect on the state and is
      left out.
    - Transactions and bus packets are owned by exactly one queue at a
      time, so the pointers of the source are modelled by values;
      [delete] of an object is its removal from the queue that held it. *)

From Stdlib Require Import ZArith Lia.
From stdpp Require Import base list sorting gmap.

Local Open Scope Z_scope.

(** ** Machine integers *)

Definition u32 (z : Z) : Z := z mod 2 ^ 32.
Definition u64 (z : Z) : Z := z mod 2 ^ 64.

(** ** Value types *)

Inductive BusPacketType :=
  READ | READ_P | WRITE | WRITE_P | ACTIVATE | PRECHARGE | REFRESH | DATA.

Inductive CurrentBankState :=
  Idle | RowActive | Precharging | Refreshing | PowerDown.

Inductive TransactionType := DATA_READ | DATA_WRITE | RETURN_DATA.

#[global] Instance BusPacketType_eq_dec : EqDecision BusPacketType.
Proof. solve_decision. Defined.
#[global] Instance CurrentBankState_eq_dec : EqDecision CurrentBankState.
Proof. solve_decision. Defined.
#[global] Instance TransactionType_eq_dec : EqDecision TransactionType.
Proof. solve_decision. Defined.

Record BusPacket : Type := {
  busPacketType : BusPacketType;
  physicalAddress : Z;
  column : Z;
  row : Z;
  rank : nat;
  bank : nat;
  data : Z
}.

Record Transaction : Type := {
  transactionType : TransactionType;
  address : Z;
  transData : Z;
  timeAdded : Z;
  timeACTIssued : Z
}.

Definition set_timeAdded (v : Z) (t : Transaction) : Transaction :=
  Build_Transaction (transactionType t) (address t) (transData t) v
    (timeACTIssued t).
Definition set_timeACTIssued (v : Z) (t : Transaction) : Transaction :=
  Build_Transaction (transactionType t) (address t) (transData t)
    (timeAdded t) v.

(** [new Transaction(type, addr, data)].  The time stamps of a fresh
    transaction are written before they are read; they start at zero
    here. *)
Definition new_Transaction (ty : TransactionType) (addr dat : Z) : Transaction :=
  Build_Transaction ty addr dat 0 0.

(** The per-bank record of [BankState.h].  [stateChangeCountdown] only
    ever receives unsigned timing constants and is decremented only when
    positive. *)
Record BankState : Type := {
  currentBankState : CurrentBankState;
  openRowAddress : Z;
  nextRead : Z;
  nextWrite : Z;
  nextActivate : Z;
  nextPrecharge : Z;
  nextPowerUp : Z;
  lastCommand : BusPacketType;
  stateChangeCountdown : Z
}.

Definition set_currentBankState (v : CurrentBankState) (s : BankState) : BankState :=
  Build_BankState v (openRowAddress s) (nextRead s) (nextWrite s)
    (nextActivate s) (nextPrecharge s) (nextPowerUp s) (lastCommand s)
    (stateChangeCountdown s).
Definition set_openRowAddress (v : Z) (s : BankState) : BankState :=
  Build_BankState (currentBankState s) v (nextRead s) (nextWrite s)
    (nextActivate s) (nextPrecharge s) (nextPowerUp s) (lastCommand s)
    (stateChangeCountdown s).
Definition set_nextRead (v : Z) (s : BankState) : BankState :=
  Build_BankState (currentBankState s) (openRowAddress s) v (nextWrite s)
    (nextActivate s) (nextPrecharge s) (nextPowerUp s) (lastCommand s)
    (stateChangeCountdown s).
Definition set_nextWrite (v : Z) (s : BankState) : BankState :=
  Build_BankState (currentBankState s) (openRowAddress s) (nextRead s) v
    (nextActivate s) (nextPrecharge s) (nextPowerUp s) (lastCommand s)
    (stateChangeCountdown s).
Definition set_nextActivate (v : Z) (s : BankState) : BankState :=
  Build_BankState (currentBankState s) (openRowAddress s) (nextRead s)
    (nextWrite s) v (nextPrecharge s) (nextPowerUp s) (lastCommand s)
    (stateChangeCountdown s).
Definition set_nextPrecharge (v : Z) (s : BankState) : BankState :=
  Build_BankState (currentBankState s) (openRowAddress s) (nextRead s)
    (nextWrite s) (nextActivate s) v (nextPowerUp s) (lastCommand s)
    (stateChangeCountdown s).
Definition set_nextPowerUp (v : Z) (s : BankState) : BankState :=
  Build_BankState (currentBankState s) (openRowAddress s) (nextRead s)
    (nextWrite s) (nextActivate s) (nextPrecharge s) v (lastCommand s)
    (stateChangeCountdown s).
Definition set_lastCommand (v : BusPacketType) (s : BankState) : BankState :=
  Build_BankState (currentBankState s) (openRowAddress s) (nextRead s)
    (nextWrite s) (nextActivate s) (nextPrecharge s) (nextPowerUp s) v
    (stateChangeCountdown s).
Definition set_stateChangeCountdown (v : Z) (s : BankState) : BankState :=
  Build_BankState (currentBankState s) (openRowAddress s) (nextRead s)
    (nextWrite s) (nextActivate s) (nextPrecharge s) (nextPowerUp s)
    (lastCommand s) v.

(** A rank, seen from the controller: the [refreshWaiting] flag the
    controller writes, and whatever else the rank keeps. *)
Record Rank (Body : Type) : Type := {
  refreshWaiting : bool;
  rankBody : Body
}.
Arguments refreshWaiting {Body} _.
Arguments rankBody {Body} _.
Arguments Build_Rank {Body} _ _.

Definition set_refreshWaiting {Body} (v : bool) (r : Rank Body) : Rank Body :=
  Build_Rank v (rankBody r).

(** The result of [addressMapping]. *)
Record Address : Type := {
  addrChan : nat;
  addrRank : nat;
  addrBank : nat;
  addrRow : Z;
  addrColumn : Z
}.

(** The parent [MemorySystem]: its id and which callbacks are registered
    (a callback pointer may be NULL). *)
Record MemorySystem : Type := {
  systemID : Z;
  ReturnReadData : bool;
  WriteDataDone : bool
}.

(** A callback invocation, with its arguments. *)
Inductive Callback :=
  | ReturnReadDataCall (id addr cycle : Z)
  | WriteDataDoneCall (id addr cycle : Z).

(** ** Outcomes *)

Inductive Fatal :=
  | DataBusCollision        (* exit(-1), "Data Bus Collision" *)
  | CommandBusCollision     (* exit(-1), "Command Bus Collision" *)
  | BadPoppedCommand        (* exit(0), popped a command of a wrong type *)
  | NonDataPacket           (* exit(0), receiveFromBus on a non-DATA packet *)
  | NoMatchingTransaction   (* abort(), no pending read for returned data *)
  | BadTransactionType      (* exit in Transaction::getBusPacketType *)
  | OutOfBounds.            (* undefined behaviour: index outside a vector *)

Inductive Outcome (A : Type) : Type :=
  | Ok (a : A)
  | Abort (e : Fatal).
Arguments Ok {A} _.
Arguments Abort {A} _.

#[global] Instance Outcome_ret : MRet Outcome := fun _ a => Ok a.
#[global] Instance Outcome_bind : MBind Outcome := fun _ _ f m =>
  match m with
  | Ok a => f a
  | Abort e => Abort e
  end.

(** [v[i]] and [v[i] = f(v[i])] on a vector. *)
Definition at_index {A} (l : list A) (i : nat) : Outcome A :=
  match l !! i with
  | Some x => Ok x
  | None => Abort OutOfBounds
  end.

Definition update_at {A} (f : A -> A) (i : nat) (l : list A) : Outcome (list A) :=
  match l !! i with
  | Some x => Ok (<[i := f x]> l)
  | None => Abort OutOfBounds
  end.

(** [m[k]++] on a [std::map<unsigned,unsigned>]: a missing key starts at 0. *)
Definition map_incr (k : Z) (m : gmap Z Z) : gmap Z Z :=
  <[k := u32 (default 0 (m !! k) + 1)]> m.

(** ** Configuration

    The globals of the device and system profiles.  All are [unsigned]
    except [isSmartMRAM] and [USE_LOW_POWER].  The derived delays
    ([READ_TO_PRE_DELAY] and the like) are macros of a header that is not
    part of the controller and are taken as given values.
    [REFRESH_PERIOD_tCK] is the value of the expression
    [REFRESH_PERIOD/tCK] once stored in the [unsigned] counter, and
    [REFRESH_STAGGER] is [(int)((REFRESH_PERIOD/tCK)/NUM_RANKS)]. *)
Class Config : Type := {
  IDD0 : Z; IDD2P : Z; IDD2N : Z; IDD3N : Z; IDD4W : Z; IDD4R : Z; IDD5 : Z;
  isSmartMRAM : bool;
  USE_LOW_POWER : bool;
  NUM_RANKS : nat; NUM_BANKS : nat; NUM_DEVICES : Z;
  BL : Z; WL : Z; AL : Z;
  tRCD : Z; tRP : Z; tRAS : Z; tRC : Z; tRFC : Z; tRRD : Z; tCCD : Z;
  tRTRS : Z; tCMD : Z; tXP : Z; tCKE : Z;
  READ_TO_PRE_DELAY : Z; WRITE_TO_PRE_DELAY : Z;
  READ_AUTOPRE_DELAY : Z; WRITE_AUTOPRE_DELAY : Z;
  READ_TO_WRITE_DELAY : Z; WRITE_TO_READ_DELAY_B : Z; WRITE_TO_READ_DELAY_R : Z;
  REFRESH_PERIOD_tCK : Z;
  REFRESH_STAGGER : Z;
  TRANS_QUEUE_DEPTH : nat;
  HISTOGRAM_BIN_SIZE : Z
}.

(** ** Collaborators

    The command queue, the ranks, the address mapping and
    [Transaction::getBusPacketType] live in other files of the simulator.
    The controller only calls them; they are taken as given operations on
    states of their own.  [cq_pop] reads the bank-state table, which the
    queue shares with the controller by reference. *)
Class Collaborators : Type := {
  CommandQueue : Type;
  RankBody : Type;
  cq_pop : list (list BankState) -> CommandQueue -> option BusPacket * CommandQueue;
  cq_needRefresh : nat -> CommandQueue -> CommandQueue;
  cq_hasRoomFor : nat -> nat -> nat -> CommandQueue -> bool;
  cq_enqueue : BusPacket -> CommandQueue -> CommandQueue;
  cq_isEmpty : nat -> CommandQueue -> bool;
  cq_step : CommandQueue -> CommandQueue;
  cq_resetRowBufferStats : CommandQueue -> CommandQueue;
  rank_receiveFromBus : BusPacket -> Rank RankBody -> Rank RankBody;
  rank_powerDown : Rank RankBody -> Rank RankBody;
  rank_powerUp : Rank RankBody -> Rank RankBody;
  addressMapping : Z -> Address;
  getBusPacketType : Transaction -> Outcome BusPacketType;
  BankState_init : BankState
}.

Section Controller.

Context {cfg : Config} {env : Collaborators}.

(** ** The controller's fields *)

Record MemoryController : Type := {
  bankStates : list (list BankState);
  commandQueue : CommandQueue;
  totalTransactions : Z;
  refreshRank : nat;
  outgoingCmdPacket : option BusPacket;
  outgoingDataPacket : option BusPacket;
  dataCyclesLeft : Z;
  cmdCyclesLeft : Z;
  currentClockCycle : Z;
  transactionQueue : list Transaction;
  powerDown : list bool;
  grandTotalBankAccesses : list Z;
  totalReadsPerBank : list Z;
  totalWritesPerBank : list Z;
  totalReadsPerRank : list Z;
  totalWritesPerRank : list Z;
  writeDataCountdown : list Z;
  writeDataToSend : list BusPacket;
  refreshCountdown : list Z;
  backgroundEnergy : list Z;
  burstEnergy : list Z;
  actpreEnergy : list Z;
  refreshEnergy : list Z;
  totalEpochLatency : list Z;
  pendingReadTransactions : list Transaction;
  returnTransaction : list Transaction;
  latencies : gmap Z Z;
  accessLatencies : gmap Z Z;
  ranks : list (Rank RankBody);
  parentMemorySystem : MemorySystem;
  callbacks : list Callback
}.

Definition set_bankStates (v : list (list BankState)) (s : MemoryController) : MemoryController :=
  Build_MemoryController v (commandQueue s) (totalTransactions s)
    (refreshRank s) (outgoingCmdPacket s) (outgoingDataPacket s)
    (dataCyclesLeft s) (cmdCyclesLeft s) (currentClockCycle s)
    (transactionQueue s) (powerDown s) (grandTotalBankAccesses s)
    (totalReadsPerBank s) (totalWritesPerBank s) (totalReadsPerRank s)
    (totalWritesPerRank s) (writeDataCountdown s) (writeDataToSend s)
    (refreshCountdown s) (backgroundEnergy s) (burstEnergy s) (actpreEnergy s)
    (refreshEnergy s) (totalEpochLatency s) (pendingReadTransactions s)
    (returnTransaction s) (latencies s) (accessLatencies s) (ranks s)
    (parentMemorySystem s) (callbacks s).
Definition set_commandQueue (v : CommandQueue) (s : MemoryController) : MemoryController :=
  Build_MemoryController (bankStates s) v (totalTransactions s)
    (refreshRank s) (outgoingCmdPacket s) (outgoingDataPacket s)
    (dataCyclesLeft s) (cmdCyclesLeft s) (currentClockCycle s)
    (transactionQueue s) (powerDown s) (grandTotalBankAccesses s)
    (totalReadsPerBank s) (totalWritesPerBank s) (totalReadsPerRank s)
    (totalWritesPerRank s) (writeDataCountdown s) (writeDataToSend s)
    (refreshCountdown s) (backgroundEnergy s) (burstEnergy s) (actpreEnergy s)
    (refreshEnergy s) (totalEpochLatency s) (pendingReadTransactions s)
    (returnTransaction s) (latencies s) (accessLatencies s) (ranks s)
    (parentMemorySystem s) (callbacks s).
Definition set_totalTransactions (v : Z) (s : MemoryController) : MemoryController :=
  Build_MemoryController (bankStates s) (commandQueue s) v (refreshRank s)
    (outgoingCmdPacket s) (outgoingDataPacket s) (dataCyclesLeft s)
    (cmdCyclesLeft s) (currentClockCycle s) (transactionQueue s) (powerDown s)
    (grandTotalBankAccesses s) (totalReadsPerBank s) (totalWritesPerBank s)
    (totalReadsPerRank s) (totalWritesPerRank s) (writeDataCountdown s)
    (writeDataToSend s) (refreshCountdown s) (backgroundEnergy s)
    (burstEnergy s) (actpreEnergy s) (refreshEnergy s) (totalEpochLatency s)
    (pendingReadTransactions s) (returnTransaction s) (latencies s)
    (accessLatencies s) (ranks s) (parentMemorySystem s) (callbacks s).
Definition set_refreshRank (v : nat) (s : MemoryController) : MemoryController :=
  Build_MemoryController (bankStates s) (commandQueue s) (totalTransactions s)
    v (outgoingCmdPacket s) (outgoingDataPacket s) (dataCyclesLeft s)
    (cmdCyclesLeft s) (currentClockCycle s) (transactionQueue s) (powerDown s)
    (grandTotalBankAccesses s) (totalReadsPerBank s) (totalWritesPerBank s)
    (totalReadsPerRank s) (totalWritesPerRank s) (writeDataCountdown s)
    (writeDataToSend s) (refreshCountdown s) (backgroundEnergy s)
    (burstEnergy s) (actpreEnergy s) (refreshEnergy s) (totalEpochLatency s)
    (pendingReadTransactions s) (returnTransaction s) (latencies s)
    (accessLatencies s) (ranks s) (parentMemorySystem s) (callbacks s).
Definition set_outgoingCmdPacket (v : option BusPacket) (s : MemoryController) : MemoryController :=
  Build_MemoryController (bankStates s) (commandQueue s) (totalTransactions s)
    (refreshRank s) v (outgoingDataPacket s) (dataCyclesLeft s)
    (cmdCyclesLeft s) (currentClockCycle s) (transactionQueue s) (powerDown s)
    (grandTotalBankAccesses s) (totalReadsPerBank s) (totalWritesPerBank s)
    (totalReadsPerRank s) (totalWritesPerRank s) (writeDataCountdown s)
    (writeDataToSend s) (refreshCountdown s) (backgroundEnergy s)
    (burstEnergy s) (actpreEnergy s) (refreshEnergy s) (totalEpochLatency s)
    (pendingReadTransactions s) (returnTransaction s) (latencies s)
    (accessLatencies s) (ranks s) (parentMemorySystem s) (callbacks s).
Definition set_outgoingDataPacket (v : option BusPacket) (s : MemoryController) : MemoryController :=
  Build_MemoryController (bankStates s) (commandQueue s) (totalTransactions s)
    (refreshRank s) (outgoingCmdPacket s) v (dataCyclesLeft s)
    (cmdCyclesLeft s) (currentClockCycle s) (transactionQueue s) (powerDown s)
    (grandTotalBankAccesses s) (totalReadsPerBank s) (totalWritesPerBank s)
    (totalReadsPerRank s) (totalWritesPerRank s) (writeDataCountdown s)
    (writeDataToSend s) (refreshCountdown s) (backgroundEnergy s)
    (burstEnergy s) (actpreEnergy s) (refreshEnergy s) (totalEpochLatency s)
    (pendingReadTransactions s) (returnTransaction s) (latencies s)
    (accessLatencies s) (ranks s) (parentMemorySystem s) (callbacks s).
Definition set_dataCyclesLeft (v : Z) (s : MemoryController) : MemoryController :=
  Build_MemoryController (bankStates s) (commandQueue s) (totalTransactions s)
    (refreshRank s) (outgoingCmdPacket s) (outgoingDataPacket s) v
    (cmdCyclesLeft s) (currentClockCycle s) (transactionQueue s) (powerDown s)
    (grandTotalBankAccesses s) (totalReadsPerBank s) (totalWritesPerBank s)
    (totalReadsPerRank s) (totalWritesPerRank s) (writeDataCountdown s)
    (writeDataToSend s) (refreshCountdown s) (backgroundEnergy s)
    (burstEnergy s) (actpreEnergy s) (refreshEnergy s) (totalEpochLatency s)
    (pendingReadTransactions s) (returnTransaction s) (latencies s)
    (accessLatencies s) (ranks s) (parentMemorySystem s) (callbacks s).
Definition set_cmdCyclesLeft (v : Z) (s : MemoryController) : MemoryController :=
  Build_MemoryController (bankStates s) (commandQueue s) (totalTransactions s)
    (refreshRank s) (outgoingCmdPacket s) (outgoingDataPacket s)
    (dataCyclesLeft s) v (currentClockCycle s) (transactionQueue s)
    (powerDown s) (grandTotalBankAccesses s) (totalReadsPerBank s)
    (totalWritesPerBank s) (totalReadsPerRank s) (totalWritesPerRank s)
    (writeDataCountdown s) (writeDataToSend s) (refreshCountdown s)
    (backgroundEnergy s) (burstEnergy s) (actpreEnergy s) (refreshEnergy s)
    (totalEpochLatency s) (pendingReadTransactions s) (returnTransaction s)
    (latencies s) (accessLatencies s) (ranks s) (parentMemorySystem s)
    (callbacks s).
Definition set_currentClockCycle (v : Z) (s : MemoryController) : MemoryController :=
  Build_MemoryController (bankStates s) (commandQueue s) (totalTransactions s)
    (refreshRank s) (outgoingCmdPacket s) (outgoingDataPacket s)
    (dataCyclesLeft s) (cmdCyclesLeft s) v (transactionQueue s) (powerDown s)
    (grandTotalBankAccesses s) (totalReadsPerBank s) (totalWritesPerBank s)
    (totalReadsPerRank s) (totalWritesPerRank s) (writeDataCountdown s)
    (writeDataToSend s) (refreshCountdown s) (backgroundEnergy s)
    (burstEnergy s) (actpreEnergy s) (refreshEnergy s) (totalEpochLatency s)
    (pendingReadTransactions s) (returnTransaction s) (latencies s)
    (accessLatencies s) (ranks s) (parentMemorySystem s) (callbacks s).
Definition set_transactionQueue (v : list Transaction) (s : MemoryController) : MemoryController :=
  Build_MemoryController (bankStates s) (commandQueue s) (totalTransactions s)
    (refreshRank s) (outgoingCmdPacket s) (outgoingDataPacket s)
    (dataCyclesLeft s) (cmdCyclesLeft s) (currentClockCycle s) v (powerDown s)
    (grandTotalBankAccesses s) (totalReadsPerBank s) (totalWritesPerBank s)
    (totalReadsPerRank s) (totalWritesPerRank s) (writeDataCountdown s)
    (writeDataToSend s) (refreshCountdown s) (backgroundEnergy s)
    (burstEnergy s) (actpreEnergy s) (refreshEnergy s) (totalEpochLatency s)
    (pendingReadTransactions s) (returnTransaction s) (latencies s)
    (accessLatencies s) (ranks s) (parentMemorySystem s) (callbacks s).
Definition set_powerDown (v : list bool) (s : MemoryController) : MemoryController :=
  Build_MemoryController (bankStates s) (commandQueue s) (totalTransactions s)
    (refreshRank s) (outgoingCmdPacket s) (outgoingDataPacket s)
    (dataCyclesLeft s) (cmdCyclesLeft s) (currentClockCycle s)
    (transactionQueue s) v (grandTotalBankAccesses s) (totalReadsPerBank s)
    (totalWritesPerBank s) (totalReadsPerRank s) (totalWritesPerRank s)
    (writeDataCountdown s) (writeDataToSend s) (refreshCountdown s)
    (backgroundEnergy s) (burstEnergy s) (actpreEnergy s) (refreshEnergy s)
    (totalEpochLatency s) (pendingReadTransactions s) (returnTransaction s)
    (latencies s) (accessLatencies s) (ranks s) (parentMemorySystem s)
    (callbacks s).
Definition set_grandTotalBankAccesses (v : list Z) (s : MemoryController) : MemoryController :=
  Build_MemoryController (bankStates s) (commandQueue s) (totalTransactions s)
    (refreshRank s) (outgoingCmdPacket s) (outgoingDataPacket s)
    (dataCyclesLeft s) (cmdCyclesLeft s) (currentClockCycle s)
    (transactionQueue s) (powerDown s) v (totalReadsPerBank s)
    (totalWritesPerBank s) (totalReadsPerRank s) (totalWritesPerRank s)
    (writeDataCountdown s) (writeDataToSend s) (refreshCountdown s)
    (backgroundEnergy s) (burstEnergy s) (actpreEnergy s) (refreshEnergy s)
    (totalEpochLatency s) (pendingReadTransactions s) (returnTransaction s)
    (latencies s) (accessLatencies s) (ranks s) (parentMemorySystem s)
    (callbacks s).
Definition set_totalReadsPerBank (v : list Z) (s : MemoryController) : MemoryController :=
  Build_MemoryController (bankStates s) (commandQueue s) (totalTransactions s)
    (refreshRank s) (outgoingCmdPacket s) (outgoingDataPacket s)
    (dataCyclesLeft s) (cmdCyclesLeft s) (currentClockCycle s)
    (transactionQueue s) (powerDown s) (grandTotalBankAccesses s) v
    (totalWritesPerBank s) (totalReadsPerRank s) (totalWritesPerRank s)
    (writeDataCountdown s) (writeDataToSend s) (refreshCountdown s)
    (backgroundEnergy s) (burstEnergy s) (actpreEnergy s) (refreshEnergy s)
    (totalEpochLatency s) (pendingReadTransactions s) (returnTransaction s)
    (latencies s) (accessLatencies s) (ranks s) (parentMemorySystem s)
    (callbacks s).
Definition set_totalWritesPerBank (v : list Z) (s : MemoryController) : MemoryController :=
  Build_MemoryController (bankStates s) (commandQueue s) (totalTransactions s)
    (refreshRank s) (outgoingCmdPacket s) (outgoingDataPacket s)
    (dataCyclesLeft s) (cmdCyclesLeft s) (currentClockCycle s)
    (transactionQueue s) (powerDown s) (grandTotalBankAccesses s)
    (totalReadsPerBank s) v (totalReadsPerRank s) (totalWritesPerRank s)
    (writeDataCountdown s) (writeDataToSend s) (refreshCountdown s)
    (backgroundEnergy s) (burstEnergy s) (actpreEnergy s) (refreshEnergy s)
    (totalEpochLatency s) (pendingReadTransactions s) (returnTransaction s)
    (latencies s) (accessLatencies s) (ranks s) (parentMemorySystem s)
    (callbacks s).
Definition set_totalReadsPerRank (v : list Z) (s : MemoryController) : MemoryController :=
  Build_MemoryController (bankStates s) (commandQueue s) (totalTransactions s)
    (refreshRank s) (outgoingCmdPacket s) (outgoingDataPacket s)
    (dataCyclesLeft s) (cmdCyclesLeft s) (currentClockCycle s)
    (transactionQueue s) (powerDown s) (grandTotalBankAccesses s)
    (totalReadsPerBank s) (totalWritesPerBank s) v (totalWritesPerRank s)
    (writeDataCountdown s) (writeDataToSend s) (refreshCountdown s)
    (backgroundEnergy s) (burstEnergy s) (actpreEnergy s) (refreshEnergy s)
    (totalEpochLatency s) (pendingReadTransactions s) (returnTransaction s)
    (latencies s) (accessLatencies s) (ranks s) (parentMemorySystem s)
    (callbacks s).
Definition set_totalWritesPerRank (v : list Z) (s : MemoryController) : MemoryController :=
  Build_MemoryController (bankStates s) (commandQueue s) (totalTransactions s)
    (refreshRank s) (outgoingCmdPacket s) (outgoingDataPacket s)
    (dataCyclesLeft s) (cmdCyclesLeft s) (currentClockCycle s)
    (transactionQueue s) (powerDown s) (grandTotalBankAccesses s)
    (totalReadsPerBank s) (totalWritesPerBank s) (totalReadsPerRank s) v
    (writeDataCountdown s) (writeDataToSend s) (refreshCountdown s)
    (backgroundEnergy s) (burstEnergy s) (actpreEnergy s) (refreshEnergy s)
    (totalEpochLatency s) (pendingReadTransactions s) (returnTransaction s)
    (latencies s) (accessLatencies s) (ranks s) (parentMemorySystem s)
    (callbacks s).
Definition set_writeDataCountdown (v : list Z) (s : MemoryController) : MemoryController :=
  Build_MemoryController (bankStates s) (commandQueue s) (totalTransactions s)
    (refreshRank s) (outgoingCmdPacket s) (outgoingDataPacket s)
    (dataCyclesLeft s) (cmdCyclesLeft s) (currentClockCycle s)
    (transactionQueue s) (powerDown s) (grandTotalBankAccesses s)
    (totalReadsPerBank s) (totalWritesPerBank s) (totalReadsPerRank s)
    (totalWritesPerRank s) v (writeDataToSend s) (refreshCountdown s)
    (backgroundEnergy s) (burstEnergy s) (actpreEnergy s) (refreshEnergy s)
    (totalEpochLatency s) (pendingReadTransactions s) (returnTransaction s)
    (latencies s) (accessLatencies s) (ranks s) (parentMemorySystem s)
    (callbacks s).
Definition set_writeDataToSend (v : list BusPacket) (s : MemoryController) : MemoryController :=
  Build_MemoryController (bankStates s) (commandQueue s) (totalTransactions s)
    (refreshRank s) (outgoingCmdPacket s) (outgoingDataPacket s)
    (dataCyclesLeft s) (cmdCyclesLeft s) (currentClockCycle s)
    (transactionQueue s) (powerDown s) (grandTotalBankAccesses s)
    (totalReadsPerBank s) (totalWritesPerBank s) (totalReadsPerRank s)
    (totalWritesPerRank s) (writeDataCountdown s) v (refreshCountdown s)
    (backgroundEnergy s) (burstEnergy s) (actpreEnergy s) (refreshEnergy s)
    (totalEpochLatency s) (pendingReadTransactions s) (returnTransaction s)
    (latencies s) (accessLatencies s) (ranks s) (parentMemorySystem s)
    (callbacks s).
Definition set_refreshCountdown (v : list Z) (s : MemoryController) : MemoryController :=
  Build_MemoryController (bankStates s) (commandQueue s) (totalTransactions s)
    (refreshRank s) (outgoingCmdPacket s) (outgoingDataPacket s)
    (dataCyclesLeft s) (cmdCyclesLeft s) (currentClockCycle s)
    (transactionQueue s) (powerDown s) (grandTotalBankAccesses s)
    (totalReadsPerBank s) (totalWritesPerBank s) (totalReadsPerRank s)
    (totalWritesPerRank s) (writeDataCountdown s) (writeDataToSend s) v
    (backgroundEnergy s) (burstEnergy s) (actpreEnergy s) (refreshEnergy s)
    (totalEpochLatency s) (pendingReadTransactions s) (returnTransaction s)
    (latencies s) (accessLatencies s) (ranks s) (parentMemorySystem s)
    (callbacks s).
Definition set_backgroundEnergy (v : list Z) (s : MemoryController) : MemoryController :=
  Build_MemoryController (bankStates s) (commandQueue s) (totalTransactions s)
    (refreshRank s) (outgoingCmdPacket s) (outgoingDataPacket s)
    (dataCyclesLeft s) (cmdCyclesLeft s) (currentClockCycle s)
    (transactionQueue s) (powerDown s) (grandTotalBankAccesses s)
    (totalReadsPerBank s) (totalWritesPerBank s) (totalReadsPerRank s)
    (totalWritesPerRank s) (writeDataCountdown s) (writeDataToSend s)
    (refreshCountdown s) v (burstEnergy s) (actpreEnergy s) (refreshEnergy s)
    (totalEpochLatency s) (pendingReadTransactions s) (returnTransaction s)
    (latencies s) (accessLatencies s) (ranks s) (parentMemorySystem s)
    (callbacks s).
Definition set_burstEnergy (v : list Z) (s : MemoryController) : MemoryController :=
  Build_MemoryController (bankStates s) (commandQueue s) (totalTransactions s)
    (refreshRank s) (outgoingCmdPacket s) (outgoingDataPacket s)
    (dataCyclesLeft s) (cmdCyclesLeft s) (currentClockCycle s)
    (transactionQueue s) (powerDown s) (grandTotalBankAccesses s)
    (totalReadsPerBank s) (totalWritesPerBank s) (totalReadsPerRank s)
    (totalWritesPerRank s) (writeDataCountdown s) (writeDataToSend s)
    (refreshCountdown s) (backgroundEnergy s) v (actpreEnergy s)
    (refreshEnergy s) (totalEpochLatency s) (pendingReadTransactions s)
    (returnTransaction s) (latencies s) (accessLatencies s) (ranks s)
    (parentMemorySystem s) (callbacks s).
Definition set_actpreEnergy (v : list Z) (s : MemoryController) : MemoryController :=
  Build_MemoryController (bankStates s) (commandQueue s) (totalTransactions s)
    (refreshRank s) (outgoingCmdPacket s) (outgoingDataPacket s)
    (dataCyclesLeft s) (cmdCyclesLeft s) (currentClockCycle s)
    (transactionQueue s) (powerDown s) (grandTotalBankAccesses s)
    (totalReadsPerBank s) (totalWritesPerBank s) (totalReadsPerRank s)
    (totalWritesPerRank s) (writeDataCountdown s) (writeDataToSend s)
    (refreshCountdown s) (backgroundEnergy s) (burstEnergy s) v
    (refreshEnergy s) (totalEpochLatency s) (pendingReadTransactions s)
    (returnTransaction s) (latencies s) (accessLatencies s) (ranks s)
    (parentMemorySystem s) (callbacks s).
Definition set_refreshEnergy (v : list Z) (s : MemoryController) : MemoryController :=
  Build_MemoryController (bankStates s) (commandQueue s) (totalTransactions s)
    (refreshRank s) (outgoingCmdPacket s) (outgoingDataPacket s)
    (dataCyclesLeft s) (cmdCyclesLeft s) (currentClockCycle s)
    (transactionQueue s) (powerDown s) (grandTotalBankAccesses s)
    (totalReadsPerBank s) (totalWritesPerBank s) (totalReadsPerRank s)
    (totalWritesPerRank s) (writeDataCountdown s) (writeDataToSend s)
    (refreshCountdown s) (backgroundEnergy s) (burstEnergy s) (actpreEnergy s)
    v (totalEpochLatency s) (pendingReadTransactions s) (returnTransaction s)
    (latencies s) (accessLatencies s) (ranks s) (parentMemorySystem s)
    (callbacks s).
Definition set_totalEpochLatency (v : list Z) (s : MemoryController) : MemoryController :=
  Build_MemoryController (bankStates s) (commandQueue s) (totalTransactions s)
    (refreshRank s) (outgoingCmdPacket s) (outgoingDataPacket s)
    (dataCyclesLeft s) (cmdCyclesLeft s) (currentClockCycle s)
    (transactionQueue s) (powerDown s) (grandTotalBankAccesses s)
    (totalReadsPerBank s) (totalWritesPerBank s) (totalReadsPerRank s)
    (totalWritesPerRank s) (writeDataCountdown s) (writeDataToSend s)
    (refreshCountdown s) (backgroundEnergy s) (burstEnergy s) (actpreEnergy s)
    (refreshEnergy s) v (pendingReadTransactions s) (returnTransaction s)
    (latencies s) (accessLatencies s) (ranks s) (parentMemorySystem s)
    (callbacks s).
Definition set_pendingReadTransactions (v : list Transaction) (s : MemoryController) : MemoryController :=
  Build_MemoryController (bankStates s) (commandQueue s) (totalTransactions s)
    (refreshRank s) (outgoingCmdPacket s) (outgoingDataPacket s)
    (dataCyclesLeft s) (cmdCyclesLeft s) (currentClockCycle s)
    (transactionQueue s) (powerDown s) (grandTotalBankAccesses s)
    (totalReadsPerBank s) (totalWritesPerBank s) (totalReadsPerRank s)
    (totalWritesPerRank s) (writeDataCountdown s) (writeDataToSend s)
    (refreshCountdown s) (backgroundEnergy s) (burstEnergy s) (actpreEnergy s)
    (refreshEnergy s) (totalEpochLatency s) v (returnTransaction s)
    (latencies s) (accessLatencies s) (ranks s) (parentMemorySystem s)
    (callbacks s).
Definition set_returnTransaction (v : list Transaction) (s : MemoryController) : MemoryController :=
  Build_MemoryController (bankStates s) (commandQueue s) (totalTransactions s)
    (refreshRank s) (outgoingCmdPacket s) (outgoingDataPacket s)
    (dataCyclesLeft s) (cmdCyclesLeft s) (currentClockCycle s)
    (transactionQueue s) (powerDown s) (grandTotalBankAccesses s)
    (totalReadsPerBank s) (totalWritesPerBank s) (totalReadsPerRank s)
    (totalWritesPerRank s) (writeDataCountdown s) (writeDataToSend s)
    (refreshCountdown s) (backgroundEnergy s) (burstEnergy s) (actpreEnergy s)
    (refreshEnergy s) (totalEpochLatency s) (pendingReadTransactions s) v
    (latencies s) (accessLatencies s) (ranks s) (parentMemorySystem s)
    (callbacks s).
Definition set_latencies (v : gmap Z Z) (s : MemoryController) : MemoryController :=
  Build_MemoryController (bankStates s) (commandQueue s) (totalTransactions s)
    (refreshRank s) (outgoingCmdPacket s) (outgoingDataPacket s)
    (dataCyclesLeft s) (cmdCyclesLeft s) (currentClockCycle s)
    (transactionQueue s) (powerDown s) (grandTotalBankAccesses s)
    (totalReadsPerBank s) (totalWritesPerBank s) (totalReadsPerRank s)
    (totalWritesPerRank s) (writeDataCountdown s) (writeDataToSend s)
    (refreshCountdown s) (backgroundEnergy s) (burstEnergy s) (actpreEnergy s)
    (refreshEnergy s) (totalEpochLatency s) (pendingReadTransactions s)
    (returnTransaction s) v (accessLatencies s) (ranks s)
    (parentMemorySystem s) (callbacks s).
Definition set_accessLatencies (v : gmap Z Z) (s : MemoryController) : MemoryController :=
  Build_MemoryController (bankStates s) (commandQueue s) (totalTransactions s)
    (refreshRank s) (outgoingCmdPacket s) (outgoingDataPacket s)
    (dataCyclesLeft s) (cmdCyclesLeft s) (currentClockCycle s)
    (transactionQueue s) (powerDown s) (grandTotalBankAccesses s)
    (totalReadsPerBank s) (totalWritesPerBank s) (totalReadsPerRank s)
    (totalWritesPerRank s) (writeDataCountdown s) (writeDataToSend s)
    (refreshCountdown s) (backgroundEnergy s) (burstEnergy s) (actpreEnergy s)
    (refreshEnergy s) (totalEpochLatency s) (pendingReadTransactions s)
    (returnTransaction s) (latencies s) v (ranks s) (parentMemorySystem s)
    (callbacks s).
Definition set_ranks (v : list (Rank RankBody)) (s : MemoryController) : MemoryController :=
  Build_MemoryController (bankStates s) (commandQueue s) (totalTransactions s)
    (refreshRank s) (outgoingCmdPacket s) (outgoingDataPacket s)
    (dataCyclesLeft s) (cmdCyclesLeft s) (currentClockCycle s)
    (transactionQueue s) (powerDown s) (grandTotalBankAccesses s)
    (totalReadsPerBank s) (totalWritesPerBank s) (totalReadsPerRank s)
    (totalWritesPerRank s) (writeDataCountdown s) (writeDataToSend s)
    (refreshCountdown s) (backgroundEnergy s) (burstEnergy s) (actpreEnergy s)
    (refreshEnergy s) (totalEpochLatency s) (pendingReadTransactions s)
    (returnTransaction s) (latencies s) (accessLatencies s) v
    (parentMemorySystem s) (callbacks s).
Definition set_callbacks (v : list Callback) (s : MemoryController) : MemoryController :=
  Build_MemoryController (bankStates s) (commandQueue s) (totalTransactions s)
    (refreshRank s) (outgoingCmdPacket s) (outgoingDataPacket s)
    (dataCyclesLeft s) (cmdCyclesLeft s) (currentClockCycle s)
    (transactionQueue s) (powerDown s) (grandTotalBankAccesses s)
    (totalReadsPerBank s) (totalWritesPerBank s) (totalReadsPerRank s)
    (totalWritesPerRank s) (writeDataCountdown s) (writeDataToSend s)
    (refreshCountdown s) (backgroundEnergy s) (burstEnergy s) (actpreEnergy s)
    (refreshEnergy s) (totalEpochLatency s) (pendingReadTransactions s)
    (returnTransaction s) (latencies s) (accessLatencies s) (ranks s)
    (parentMemorySystem s) v.

(** [SEQUENTIAL(rank,bank)] *)
Definition SEQUENTIAL (r b : nat) : nat := (r * NUM_BANKS + b)%nat.

(** ** Energy increments, in [unsigned] arithmetic *)

(** [((IDD0 * tRC) - ((IDD3N * tRAS) + (IDD2N * (tRC - tRAS)))) * NUM_DEVICES] *)
Definition actEnergy : Z :=
  u32 (u32 (u32 (IDD0 * tRC)
            - u32 (u32 (IDD3N * tRAS) + u32 (IDD2N * u32 (tRC - tRAS))))
       * NUM_DEVICES).

(** [(IDD4R - IDD3N) * BL/2 * NUM_DEVICES] *)
Definition readEnergy : Z :=
  u32 (u32 (u32 (IDD4R - IDD3N) * BL) / 2 * NUM_DEVICES).

(** [(IDD4W - IDD3N) * BL/2 * NUM_DEVICES] *)
Definition writeEnergy : Z :=
  u32 (u32 (u32 (IDD4W - IDD3N) * BL) / 2 * NUM_DEVICES).

(** [(IDD5 - IDD3N) * tRFC * NUM_DEVICES] *)
Definition refEnergy : Z :=
  u32 (u32 (u32 (IDD5 - IDD3N) * tRFC) * NUM_DEVICES).

(** [e[r] += x] on a vector of [uint64_t] *)
Definition add_energy (x : Z) (r : nat) (e : list Z) : Outcome (list Z) :=
  update_at (fun v => u64 (v + x)) r e.

(** ** Bank table access *)

Definition lookup_bank (r b : nat) (bs : list (list BankState)) : option BankState :=
  rowv ← bs !! r; rowv !! b.

Definition bank_at (r b : nat) (bs : list (list BankState)) : Outcome BankState :=
  rowv ← at_index bs r; at_index rowv b.

Definition alter_bank (f : BankState -> BankState) (r b : nat)
    (bs : list (list BankState)) : list (list BankState) :=
  alter (alter f b) r bs.

(** [x = max(v, x)] on the four guards *)
Definition raise_nextRead (v : Z) (b : BankState) : BankState :=
  set_nextRead (Z.max v (nextRead b)) b.
Definition raise_nextWrite (v : Z) (b : BankState) : BankState :=
  set_nextWrite (Z.max v (nextWrite b)) b.
Definition raise_nextActivate (v : Z) (b : BankState) : BankState :=
  set_nextActivate (Z.max v (nextActivate b)) b.
Definition raise_nextPrecharge (v : Z) (b : BankState) : BankState :=
  set_nextPrecharge (Z.max v (nextPrecharge b)) b.

(** ** [update()], block by block *)

(** *** Bank state countdowns (the loop at the top of [update]) *)

Definition bankCountdown (b : BankState) : BankState :=
  if 0 <? stateChangeCountdown b then
    let b := set_stateChangeCountdown (stateChangeCountdown b - 1) b in
    if stateChangeCountdown b =? 0 then
      match lastCommand b with
      | WRITE_P | READ_P =>
          if isSmartMRAM then
            set_stateChangeCountdown 0
              (set_lastCommand PRECHARGE (set_currentBankState Idle b))
          else
            set_stateChangeCountdown tRP
              (set_lastCommand PRECHARGE (set_currentBankState Precharging b))
      | REFRESH | PRECHARGE => set_currentBankState Idle b
      | _ => b
      end
    else b
  else b.

Definition updateBankStates (s : MemoryController) : MemoryController :=
  set_bankStates (map (map bankCountdown) (bankStates s)) s.

(** *** Outgoing command packet *)

Definition advanceCmdPacket (s : MemoryController) : Outcome MemoryController :=
  match outgoingCmdPacket s with
  | None => Ok s
  | Some p =>
      let s := set_cmdCyclesLeft (u32 (cmdCyclesLeft s - 1)) s in
      if cmdCyclesLeft s =? 0 then
        rs ← update_at (rank_receiveFromBus p) (rank p) (ranks s);
        Ok (set_outgoingCmdPacket None (set_ranks rs s))
      else Ok s
  end.

(** *** Outgoing data packet *)

Definition writeDataDone (p : BusPacket) (s : MemoryController) : MemoryController :=
  if WriteDataDone (parentMemorySystem s) then
    set_callbacks
      (callbacks s ++
         [WriteDataDoneCall (systemID (parentMemorySystem s))
            (physicalAddress p) (currentClockCycle s)]) s
  else s.

Definition advanceDataPacket (s : MemoryController) : Outcome MemoryController :=
  match outgoingDataPacket s with
  | None => Ok s
  | Some p =>
      let s := set_dataCyclesLeft (u32 (dataCyclesLeft s - 1)) s in
      if dataCyclesLeft s =? 0 then
        let s := writeDataDone p s in
        rs ← update_at (rank_receiveFromBus p) (rank p) (ranks s);
        Ok (set_outgoingDataPacket None (set_ranks rs s))
      else Ok s
  end.

(** *** Write data FIFO *)

Definition drainWriteData (s : MemoryController) : Outcome MemoryController :=
  match writeDataCountdown s with
  | [] => Ok s
  | _ :: _ =>
      let s := set_writeDataCountdown
                 (map (fun c => u32 (c - 1)) (writeDataCountdown s)) s in
      match writeDataCountdown s with
      | 0 :: countdowns =>
          match outgoingDataPacket s with
          | Some _ => Abort DataBusCollision
          | None =>
              match writeDataToSend s with
              | [] => Abort OutOfBounds
              | p :: packets =>
                  let s := set_outgoingDataPacket (Some p) s in
                  let s := set_dataCyclesLeft (BL / 2) s in
                  let s := set_totalTransactions (u64 (totalTransactions s + 1)) s in
                  w ← update_at (fun n => u64 (n + 1))
                        (SEQUENTIAL (rank p) (bank p)) (totalWritesPerBank s);
                  let s := set_totalWritesPerBank w s in
                  let s := set_writeDataCountdown countdowns s in
                  Ok (set_writeDataToSend packets s)
              end
          end
      | _ => Ok s
      end
  end.

(** *** Refresh gate *)

Definition refreshGate (s : MemoryController) : Outcome MemoryController :=
  let r := refreshRank s in
  c ← at_index (refreshCountdown s) r;
  if c =? 0 then
    let s := set_commandQueue (cq_needRefresh r (commandQueue s)) s in
    rs ← update_at (set_refreshWaiting true) r (ranks s);
    let s := set_ranks rs s in
    let s := set_refreshCountdown (<[r := REFRESH_PERIOD_tCK]> (refreshCountdown s)) s in
    let s := set_refreshRank (S (refreshRank s)) s in
    Ok (if decide (refreshRank s = NUM_RANKS) then set_refreshRank 0%nat s else s)
  else
    pd ← at_index (powerDown s) r;
    if pd && (c <=? tXP) then
      rs ← update_at (set_refreshWaiting true) r (ranks s);
      Ok (set_ranks rs s)
    else Ok s.

(** *** Issuing the popped command *)

(** The loop that stamps [timeACTIssued] on a row-buffer hit: the first
    pending read with this address and no stamp yet. *)
Fixpoint stampFirstAccess (addr now : Z) (l : list Transaction) : list Transaction :=
  match l with
  | [] => []
  | t :: l' =>
      if (address t =? addr) && (timeACTIssued t =? 0)
      then set_timeACTIssued now t :: l'
      else t :: stampFirstAccess addr now l'
  end.

(** The loop of the ACTIVATE case: the first pending read with this
    address. *)
Fixpoint stampActivate (addr now : Z) (l : list Transaction) : list Transaction :=
  match l with
  | [] => []
  | t :: l' =>
      if address t =? addr
      then set_timeACTIssued now t :: l'
      else t :: stampActivate addr now l'
  end.

(** [case READ_P: case READ:] *)
Definition issueRead (p : BusPacket) (s : MemoryController) : Outcome MemoryController :=
  let now := currentClockCycle s in
  let s := set_pendingReadTransactions
             (stampFirstAccess (physicalAddress p) now (pendingReadTransactions s)) s in
  b ← bank_at (rank p) (bank p) (bankStates s);
  s ← (if isSmartMRAM && bool_decide (lastCommand b = ACTIVATE) then
         e ← add_energy actEnergy (rank p) (actpreEnergy s);
         Ok (set_actpreEnergy e s)
       else Ok s);
  e ← add_energy readEnergy (rank p) (burstEnergy s);
  let s := set_burstEnergy e s in
  let bs := bankStates s in
  let bs :=
    if decide (busPacketType p = READ_P) then
      alter_bank (fun b =>
          set_stateChangeCountdown READ_TO_PRE_DELAY
            (set_lastCommand READ_P
               (raise_nextActivate (u64 (now + READ_AUTOPRE_DELAY)) b)))
        (rank p) (bank p) bs
    else
      alter_bank (fun b =>
          set_lastCommand READ
            (raise_nextPrecharge (u64 (now + READ_TO_PRE_DELAY)) b))
        (rank p) (bank p) bs in
  let bs :=
    imap (fun i => imap (fun (j : nat) b =>
      if decide (i ≠ rank p) then
        if decide (currentBankState b = RowActive) then
          raise_nextWrite (u64 (now + READ_TO_WRITE_DELAY))
            (raise_nextRead (u64 (now + BL / 2 + tRTRS)) b)
        else b
      else
        raise_nextWrite (u64 (now + READ_TO_WRITE_DELAY))
          (raise_nextRead (u64 (now + Z.max tCCD (BL / 2))) b))) bs in
  let bs :=
    if decide (busPacketType p = READ_P) then
      alter_bank (fun b =>
          set_nextWrite (nextActivate b) (set_nextRead (nextActivate b) b))
        (rank p) (bank p) bs
    else bs in
  Ok (set_bankStates bs s).

(** [case WRITE_P: case WRITE:] *)
Definition issueWrite (p : BusPacket) (s : MemoryController) : Outcome MemoryController :=
  let now := currentClockCycle s in
  _ ← bank_at (rank p) (bank p) (bankStates s);
  let bs := bankStates s in
  let bs :=
    if decide (busPacketType p = WRITE_P) then
      alter_bank (fun b =>
          set_stateChangeCountdown WRITE_TO_PRE_DELAY
            (set_lastCommand WRITE_P
               (raise_nextActivate (u64 (now + WRITE_AUTOPRE_DELAY)) b)))
        (rank p) (bank p) bs
    else
      alter_bank (fun b =>
          set_lastCommand WRITE
            (raise_nextPrecharge (u64 (now + WRITE_TO_PRE_DELAY)) b))
        (rank p) (bank p) bs in
  e ← add_energy writeEnergy (rank p) (burstEnergy s);
  let s := set_burstEnergy e s in
  let bs :=
    imap (fun i => imap (fun (j : nat) b =>
      if decide (i ≠ rank p) then
        if decide (currentBankState b = RowActive) then
          raise_nextRead (u64 (now + WRITE_TO_READ_DELAY_R))
            (raise_nextWrite (u64 (now + BL / 2 + tRTRS)) b)
        else b
      else
        raise_nextRead (u64 (now + WRITE_TO_READ_DELAY_B))
          (raise_nextWrite (u64 (now + Z.max (BL / 2) tCCD)) b))) bs in
  let bs :=
    if decide (busPacketType p = WRITE_P) then
      alter_bank (fun b =>
          set_nextWrite (nextActivate b) (set_nextRead (nextActivate b) b))
        (rank p) (bank p) bs
    else bs in
  Ok (set_bankStates bs s).

(** The guards of the activated bank. *)
Definition activateTiming (now : Z) (b : BankState) : BankState :=
  if isSmartMRAM then
    raise_nextWrite now
      (raise_nextRead now
         (set_nextPrecharge now
            (raise_nextActivate (u64 (now + tRRD)) b)))
  else
    raise_nextWrite (u64 (now + u32 (tRCD - AL)))
      (raise_nextRead (u64 (now + u32 (tRCD - AL)))
         (raise_nextPrecharge (u64 (now + tRAS))
            (raise_nextActivate (u64 (now + tRC)) b))).

(** [case ACTIVATE:] *)
Definition issueActivate (p : BusPacket) (s : MemoryController) : Outcome MemoryController :=
  let now := currentClockCycle s in
  let s := set_pendingReadTransactions
             (stampActivate (physicalAddress p) now (pendingReadTransactions s)) s in
  s ← (if negb isSmartMRAM then
         e ← add_energy actEnergy (rank p) (actpreEnergy s);
         Ok (set_actpreEnergy e s)
       else Ok s);
  _ ← bank_at (rank p) (bank p) (bankStates s);
  let bs :=
    alter_bank (fun b =>
        activateTiming now
          (set_openRowAddress (row p)
             (set_lastCommand ACTIVATE (set_currentBankState RowActive b))))
      (rank p) (bank p) (bankStates s) in
  let bs :=
    alter (imap (fun i b =>
        if decide (i ≠ bank p)
        then raise_nextActivate (u64 (now + tRRD)) b
        else b)) (rank p) bs in
  Ok (set_bankStates bs s).

(** [case PRECHARGE:] *)
Definition issuePrecharge (p : BusPacket) (s : MemoryController) : Outcome MemoryController :=
  let now := currentClockCycle s in
  _ ← bank_at (rank p) (bank p) (bankStates s);
  let bs :=
    if isSmartMRAM then
      alter_bank (fun b =>
          set_nextActivate now
            (set_stateChangeCountdown 0
               (set_lastCommand PRECHARGE (set_currentBankState Idle b))))
        (rank p) (bank p) (bankStates s)
    else
      alter_bank (fun b =>
          raise_nextActivate (u64 (now + tRP))
            (set_stateChangeCountdown tRP
               (set_lastCommand PRECHARGE (set_currentBankState Precharging b))))
        (rank p) (bank p) (bankStates s) in
  Ok (set_bankStates bs s).

(** [case REFRESH:] *)
Definition issueRefresh (p : BusPacket) (s : MemoryController) : Outcome MemoryController :=
  let now := currentClockCycle s in
  e ← add_energy refEnergy (rank p) (refreshEnergy s);
  let s := set_refreshEnergy e s in
  bs ← update_at (map (fun b =>
          set_stateChangeCountdown tRFC
            (set_lastCommand REFRESH
               (set_currentBankState Refreshing
                  (set_nextActivate (u64 (now + tRFC)) b)))))
        (rank p) (bankStates s);
  Ok (set_bankStates bs s).

(** The [switch] on the type of the popped packet. *)
Definition applyCommand (p : BusPacket) (s : MemoryController) : Outcome MemoryController :=
  match busPacketType p with
  | READ_P | READ => issueRead p s
  | WRITE_P | WRITE => issueWrite p s
  | ACTIVATE => issueActivate p s
  | PRECHARGE => issuePrecharge p s
  | REFRESH => issueRefresh p s
  | DATA => Abort BadPoppedCommand
  end.

(** The DATA twin of a write command. *)
Definition dataPacket (p : BusPacket) : BusPacket :=
  Build_BusPacket DATA (physicalAddress p) (column p) (row p) (rank p) (bank p)
    (data p).

Definition pushWriteData (p : BusPacket) (s : MemoryController) : MemoryController :=
  if decide (busPacketType p = WRITE ∨ busPacketType p = WRITE_P) then
    set_writeDataCountdown (writeDataCountdown s ++ [WL])
      (set_writeDataToSend (writeDataToSend s ++ [dataPacket p]) s)
  else s.

(** What [update] does with a packet that [commandQueue.pop] returned. *)
Definition issue (p : BusPacket) (s : MemoryController) : Outcome MemoryController :=
  let s := pushWriteData p s in
  s ← applyCommand p s;
  match outgoingCmdPacket s with
  | Some _ => Abort CommandBusCollision
  | None => Ok (set_cmdCyclesLeft tCMD (set_outgoingCmdPacket (Some p) s))
  end.

Definition issueCommand (s : MemoryController) : Outcome MemoryController :=
  let '(popped, cq) := cq_pop (bankStates s) (commandQueue s) in
  let s := set_commandQueue cq s in
  match popped with
  | Some p => issue p s
  | None => Ok s
  end.

(** *** Scheduling one transaction *)

(** The scan of [transactionQueue]: the first transaction whose bank queue
    has room for two commands, and the queue without it. *)
Fixpoint firstAdmissible (cq : CommandQueue) (q : list Transaction)
    : option (Transaction * list Transaction) :=
  match q with
  | [] => None
  | t :: q' =>
      let a := addressMapping (address t) in
      if cq_hasRoomFor 2 (addrRank a) (addrBank a) cq then Some (t, q')
      else
        match firstAdmissible cq q' with
        | Some (t', q'') => Some (t', t :: q'')
        | None => None
        end
  end.

Definition scheduleTransaction (s : MemoryController) : Outcome MemoryController :=
  match firstAdmissible (commandQueue s) (transactionQueue s) with
  | None => Ok s
  | Some (t, q) =>
      let a := addressMapping (address t) in
      let s := set_transactionQueue q s in
      let ACTcommand :=
        Build_BusPacket ACTIVATE (address t) (addrColumn a) (addrRow a)
          (addrRank a) (addrBank a) 0 in
      bpType ← getBusPacketType t;
      let command :=
        Build_BusPacket bpType (address t) (addrColumn a) (addrRow a)
          (addrRank a) (addrBank a) (transData t) in
      let s :=
        if decide (transactionType t = DATA_READ)
        then set_pendingReadTransactions (pendingReadTransactions s ++ [t]) s
        else s in
      Ok (set_commandQueue
            (cq_enqueue command (cq_enqueue ACTcommand (commandQueue s))) s)
  end.

(** *** Power: one iteration of the loop over the ranks

    The entries of rank [i] that an iteration may read are looked up
    first. *)

Definition lowPower (i : nat) (s : MemoryController) : Outcome MemoryController :=
  let now := currentClockCycle s in
  rowv ← at_index (bankStates s) i;
  r ← at_index (ranks s) i;
  pd ← at_index (powerDown s) i;
  if cq_isEmpty i (commandQueue s) && negb (refreshWaiting r) then
    if forallb (fun b => bool_decide (currentBankState b = Idle)) rowv then
      let s := set_powerDown (<[i := true]> (powerDown s)) s in
      let s := set_ranks (<[i := rank_powerDown r]> (ranks s)) s in
      Ok (set_bankStates
            (<[i := map (fun b =>
                      set_nextPowerUp (u64 (now + tCKE))
                        (set_currentBankState PowerDown b)) rowv]>
               (bankStates s)) s)
    else Ok s
  else
    b0 ← at_index rowv 0%nat;
    if (nextPowerUp b0 <=? now) && pd then
      let s := set_powerDown (<[i := false]> (powerDown s)) s in
      let s := set_ranks (<[i := rank_powerUp r]> (ranks s)) s in
      Ok (set_bankStates
            (<[i := map (fun b =>
                      set_nextActivate (u64 (now + tXP))
                        (set_currentBankState Idle b)) rowv]>
               (bankStates s)) s)
    else Ok s.

Definition bankOpen (rowv : list BankState) : bool :=
  existsb (fun b =>
      bool_decide (currentBankState b = Refreshing)
      || bool_decide (currentBankState b = RowActive)) rowv.

Definition backgroundCurrent (open pd : bool) : Z :=
  if open then u32 (IDD3N * NUM_DEVICES)
  else if pd then u32 (IDD2P * NUM_DEVICES)
  else u32 (IDD2N * NUM_DEVICES).

Definition powerRank (s : Outcome MemoryController) (i : nat) : Outcome MemoryController :=
  s ← s;
  s ← (if USE_LOW_POWER then lowPower i s else Ok s);
  rowv ← at_index (bankStates s) i;
  pd ← at_index (powerDown s) i;
  e ← add_energy (backgroundCurrent (bankOpen rowv) pd) i (backgroundEnergy s);
  Ok (set_backgroundEnergy e s).

Definition calculatePower (s : MemoryController) : Outcome MemoryController :=
  foldl powerRank (Ok s) (seq 0 NUM_RANKS).

(** *** Return path *)

(** The first pending read with this address, and the list without it. *)
Fixpoint findPending (addr : Z) (l : list Transaction)
    : option (Transaction * list Transaction) :=
  match l with
  | [] => None
  | t :: l' =>
      if address t =? addr then Some (t, l')
      else
        match findPending addr l' with
        | Some (m, l'') => Some (m, t :: l'')
        | None => None
        end
  end.

(** The bin of a latency value: [(v/HISTOGRAM_BIN_SIZE)*HISTOGRAM_BIN_SIZE]. *)
Definition bin (v : Z) : Z := u32 (v / HISTOGRAM_BIN_SIZE * HISTOGRAM_BIN_SIZE).

Definition insertHistogram (latencyValue : Z) (r b : nat) (s : MemoryController)
    : Outcome MemoryController :=
  l ← update_at (fun v => u64 (v + latencyValue)) (SEQUENTIAL r b) (totalEpochLatency s);
  let s := set_totalEpochLatency l s in
  Ok (set_latencies (map_incr (bin latencyValue) (latencies s)) s).

Definition returnReadData (trans : Transaction) (s : MemoryController) : MemoryController :=
  if ReturnReadData (parentMemorySystem s) then
    set_callbacks
      (callbacks s ++
         [ReturnReadDataCall (systemID (parentMemorySystem s))
            (address trans) (currentClockCycle s)]) s
  else s.

Definition returnPath (s : MemoryController) : Outcome MemoryController :=
  match returnTransaction s with
  | [] => Ok s
  | rt :: rest =>
      let now := currentClockCycle s in
      let s := set_totalTransactions (u64 (totalTransactions s + 1)) s in
      match findPending (address rt) (pendingReadTransactions s) with
      | Some (t, others) =>
          let a := addressMapping (address rt) in
          let totalLatency := u32 (u64 (now - timeAdded t)) in
          s ← insertHistogram totalLatency (addrRank a) (addrBank a) s;
          let accessLatency := u32 (u64 (now - timeACTIssued t)) in
          let s := set_accessLatencies
                     (map_incr (bin accessLatency) (accessLatencies s)) s in
          let s := returnReadData t s in
          let s := set_pendingReadTransactions others s in
          Ok (set_returnTransaction rest s)
      | None => Abort NoMatchingTransaction
      end
  end.

(** *** Refresh counters and the queue's own step *)

Definition decrementRefresh (s : MemoryController) : MemoryController :=
  set_refreshCountdown (map (fun c => u32 (c - 1)) (refreshCountdown s)) s.

Definition stepCommandQueue (s : MemoryController) : MemoryController :=
  set_commandQueue (cq_step (commandQueue s)) s.

(** *** The whole of [update()] *)

(** Everything [update] does before it looks at [returnTransaction]. *)
Definition beforeReturn (s : MemoryController) : Outcome MemoryController :=
  s ← advanceCmdPacket (updateBankStates s);
  s ← advanceDataPacket s;
  s ← drainWriteData s;
  s ← refreshGate s;
  s ← issueCommand s;
  s ← scheduleTransaction s;
  calculatePower s.

Definition update (s : MemoryController) : Outcome MemoryController :=
  s ← beforeReturn s;
  s ← returnPath s;
  Ok (stepCommandQueue (decrementRefresh s)).

(** ** The other entry points *)

Definition WillAcceptTransaction (s : MemoryController) : bool :=
  bool_decide (length (transactionQueue s) < TRANS_QUEUE_DEPTH)%nat.

Definition addTransaction (trans : Transaction) (s : MemoryController)
    : bool * MemoryController :=
  if WillAcceptTransaction s then
    (true,
     set_transactionQueue
       (transactionQueue s ++ [set_timeAdded (currentClockCycle s) trans]) s)
  else (false, s).

Definition receiveFromBus (bpacket : BusPacket) (s : MemoryController)
    : Outcome MemoryController :=
  if decide (busPacketType bpacket ≠ DATA) then Abort NonDataPacket
  else
    let s := set_returnTransaction
               (returnTransaction s ++
                  [new_Transaction RETURN_DATA (physicalAddress bpacket) (data bpacket)])
               s in
    c ← update_at (fun n => u64 (n + 1))
          (SEQUENTIAL (rank bpacket) (bank bpacket)) (totalReadsPerBank s);
    Ok (set_totalReadsPerBank c s).

Definition zeroes (l : list Z) : list Z := map (fun _ => 0) l.

Definition resetStats (s : MemoryController) : MemoryController :=
  let s := set_grandTotalBankAccesses
             (zip_with (fun g rw => u64 (g + rw)) (grandTotalBankAccesses s)
                (zip_with (fun r w => u64 (r + w))
                   (totalReadsPerBank s) (totalWritesPerBank s))) s in
  let s := set_totalReadsPerBank (zeroes (totalReadsPerBank s)) s in
  let s := set_totalWritesPerBank (zeroes (totalWritesPerBank s)) s in
  let s := set_totalEpochLatency (zeroes (totalEpochLatency s)) s in
  let s := set_burstEnergy (zeroes (burstEnergy s)) s in
  let s := set_actpreEnergy (zeroes (actpreEnergy s)) s in
  let s := set_refreshEnergy (zeroes (refreshEnergy s)) s in
  let s := set_backgroundEnergy (zeroes (backgroundEnergy s)) s in
  let s := set_totalReadsPerRank (zeroes (totalReadsPerRank s)) s in
  let s := set_totalWritesPerRank (zeroes (totalWritesPerRank s)) s in
  set_commandQueue (cq_resetRowBufferStats (commandQueue s)) s.

(** [printStats]: the report is computed in floating point and written to
    the log, the CSV sink and the [ReportPower] callback; on the
    controller's fields it only adds to [totalReadsPerRank] and
    [totalWritesPerRank], which the closing [resetStats()] zeroes. *)
Definition printStats (s : MemoryController) : MemoryController :=
  resetStats s.

(** [SimulatorObject::step()], called by the memory system after
    [update()]. *)
Definition step (s : MemoryController) : MemoryController :=
  set_currentClockCycle (u64 (currentClockCycle s + 1)) s.

(** The constructor, followed by [attachRanks]. *)
Definition MemoryController_new (parent : MemorySystem) (cq : CommandQueue)
    (rks : list (Rank RankBody)) : MemoryController :=
  let perRank := replicate NUM_RANKS 0 in
  let perBank := replicate (NUM_RANKS * NUM_BANKS) 0 in
  {| bankStates := replicate NUM_RANKS (replicate NUM_BANKS BankState_init);
     commandQueue := cq;
     totalTransactions := 0;
     refreshRank := 0;
     outgoingCmdPacket := None;
     outgoingDataPacket := None;
     dataCyclesLeft := 0;
     cmdCyclesLeft := 0;
     currentClockCycle := 0;
     transactionQueue := [];
     powerDown := replicate NUM_RANKS false;
     grandTotalBankAccesses := perBank;
     totalReadsPerBank := perBank;
     totalWritesPerBank := perBank;
     totalReadsPerRank := perRank;
     totalWritesPerRank := perRank;
     writeDataCountdown := [];
     writeDataToSend := [];
     refreshCountdown :=
       map (fun i : nat => u32 (REFRESH_STAGGER * (Z.of_nat i + 1))) (seq 0 NUM_RANKS);
     backgroundEnergy := perRank;
     burstEnergy := perRank;
     actpreEnergy := perRank;
     refreshEnergy := perRank;
     totalEpochLatency := perBank;
     pendingReadTransactions := [];
     returnTransaction := [];
     latencies := ∅;
     accessLatencies := ∅;
     ranks := rks;
     parentMemorySystem := parent;
     callbacks := [] |}.

End Controller.

(** ** Runs

    The calls the memory system makes on the controller, in any order. *)
Inductive Call :=
  | CallAddTransaction (trans : Transaction)
  | CallUpdate
  | CallStep
  | CallReceiveFromBus (bpacket : BusPacket)
  | CallPrintStats.

Section Runs.

Context {cfg : Config} {env : Collaborators}.

Definition call (c : Call) (s : MemoryController) : Outcome MemoryController :=
  match c with
  | CallAddTransaction trans => Ok (snd (addTransaction trans s))
  | CallUpdate => update s
  | CallStep => Ok (step s)
  | CallReceiveFromBus bpacket => receiveFromBus bpacket s
  | CallPrintStats => Ok (printStats s)
  end.

Fixpoint run (cs : list Call) (s : MemoryController) : Outcome MemoryController :=
  match cs with
  | [] => Ok s
  | c :: cs' => s ← call c s; run cs' s
  end.

End Runs.

(** ** A small concrete system

    A configuration with DDR3-like timing, conventional or SMART (the
    SMART profile has no precharge time, so its auto-precharge delays are
    the conventional ones less [tRP]), and simple stand-ins for the
    collaborators, used to run the controller on concrete inputs. *)

Definition ddr3 (smart : bool) : Config :=
  {| IDD0 := 110; IDD2P := 12; IDD2N := 42; IDD3N := 45; IDD4W := 185;
     IDD4R := 146; IDD5 := 215;
     isSmartMRAM := smart; USE_LOW_POWER := false;
     NUM_RANKS := 2; NUM_BANKS := 4; NUM_DEVICES := 8;
     BL := 8; WL := 9; AL := 0;
     tRCD := 10; tRP := (if smart then 0 else 10); tRAS := 24; tRC := 34;
     tRFC := 107; tRRD := 4;
     tCCD := 4; tRTRS := 1; tCMD := 1; tXP := 4; tCKE := 4;
     READ_TO_PRE_DELAY := 5; WRITE_TO_PRE_DELAY := 23;
     READ_AUTOPRE_DELAY := (if smart then 5 else 15);
     WRITE_AUTOPRE_DELAY := (if smart then 23 else 33);
     READ_TO_WRITE_DELAY := 6; WRITE_TO_READ_DELAY_B := 18;
     WRITE_TO_READ_DELAY_R := 5;
     REFRESH_PERIOD_tCK := 5200; REFRESH_STAGGER := 2600;
     TRANS_QUEUE_DEPTH := 2; HISTOGRAM_BIN_SIZE := 10 |}.

(** A scripted command queue: a clock, advanced by [step], and packets
    tagged with the first cycle at which they may be popped; they are
    popped in order.  Enqueued packets may go at once.  Ranks log what
    they receive.  The address map has the bank in bits 10-11, the rank in
    bit 12 and the row above. *)
Definition scripted : Collaborators :=
  {| CommandQueue := nat * list (nat * BusPacket);
     RankBody := list BusPacket;
     cq_pop := fun _ q =>
       match snd q with
       | (t, p) :: q' =>
           if decide (t <= fst q)%nat then (Some p, (fst q, q')) else (None, q)
       | [] => (None, q)
       end;
     cq_needRefresh := fun r q =>
       (fst q, snd q ++ [(0%nat, Build_BusPacket REFRESH 0 0 0 r 0 0)]);
     cq_hasRoomFor := fun n _ _ q => bool_decide (length (snd q) + n <= 8)%nat;
     cq_enqueue := fun p q => (fst q, snd q ++ [(0%nat, p)]);
     cq_isEmpty := fun r q =>
       forallb (fun tp => bool_decide (rank (snd tp) ≠ r)) (snd q);
     cq_step := fun q => (S (fst q), snd q);
     cq_resetRowBufferStats := fun q => q;
     rank_receiveFromBus := fun p r =>
       Build_Rank
         (if decide (busPacketType p = REFRESH) then false else refreshWaiting r)
         (rankBody r ++ [p]);
     rank_powerDown := fun r => r;
     rank_powerUp := fun r => r;
     addressMapping := fun a =>
       Build_Address 0 (Z.to_nat ((a / 4096) mod 2)) (Z.to_nat ((a / 1024) mod 4))
         (a / 8192) (a mod 1024);
     getBusPacketType := fun t =>
       match transactionType t with
       | DATA_READ => Ok READ
       | DATA_WRITE => Ok WRITE
       | RETURN_DATA => Abort BadTransactionType
       end;
     BankState_init := Build_BankState Idle 0 0 0 0 0 0 READ 0 |}.

Definition noCallbacks : MemorySystem := Build_MemorySystem 0 false false.
Definition withCallbacks : MemorySystem := Build_MemorySystem 0 true true.

Definition idleRanks : list (@Rank (@RankBody scripted)) :=
  [Build_Rank false []; Build_Rank false []].

(** A fresh controller of the concrete system with the given script in
    its command queue. *)
Definition fresh (smart : bool) (parent : MemorySystem) (q : list (nat * BusPacket))
    : @MemoryController scripted :=
  @MemoryController_new (ddr3 smart) scripted parent (0%nat, q) idleRanks.

(** A command packet of the concrete system: type, rank, bank and row. *)
Definition cmd (ty : BusPacketType) (r b : nat) (rw : Z) : BusPacket :=
  Build_BusPacket ty (rw * 8192 + Z.of_nat r * 4096 + Z.of_nat b * 1024) 0 rw r b 0.

(** The fresh controller after bank 0 of rank 0 has been activated on
    row 7 (the ACTIVATE itself has left the command bus). *)
Definition opened (smart : bool) : @MemoryController scripted :=
  let s := fresh smart withCallbacks [] in
  set_bankStates
    (alter_bank (fun b =>
         set_openRowAddress 7
           (set_lastCommand ACTIVATE (set_currentBankState RowActive b)))
       0 0 (bankStates s)) s.

(** [update(); step();] [n] times. *)
Fixpoint cycles {cfg : Config} {env : Collaborators} (n : nat) (s : MemoryController)
    : Outcome MemoryController :=
  match n with
  | O => Ok s
  | S n' => s ← update s; cycles n' (step s)
  end.

(** What a run that did not abort shows of its final state. *)
Definition observe {A B} (o : Outcome A) (f : A -> B) : option B :=
  match o with
  | Ok a => Some (f a)
  | Abort _ => None
  end.

(** A property of the state a run ends in; a run that aborts has none. *)
Definition holds {A} (o : Outcome A) (P : A -> Prop) : Prop :=
  match o with
  | Ok a => P a
  | Abort _ => False
  end.

(** The fresh controller at cycle 40 with one pending read of address
    8192, added at cycle 3 and activated at cycle 5, whose data has come
    back. *)
Definition returning : @MemoryController scripted :=
  let s := fresh false withCallbacks [] in
  set_currentClockCycle 40
    (set_pendingReadTransactions [Build_Transaction DATA_READ 8192 0 3 5]
       (set_returnTransaction [new_Transaction RETURN_DATA 8192 0] s)).


(** The fresh controller with the data of two writes waiting, the first
    one cycle from being sent. *)
Definition draining : @MemoryController scripted :=
  set_writeDataCountdown [1; 5]
    (set_writeDataToSend [dataPacket (cmd WRITE 0 0 7); dataPacket (cmd WRITE 0 1 3)]
       (fresh false noCallbacks [])).


(** ** Notions used by the properties *)

Section Notions.

Context {cfg : Config} {env : Collaborators}.

(** The timing constants are [unsigned]. *)
Record unsigned_timing : Prop := {
  tRC_unsigned : 0 <= tRC < 2 ^ 32;
  tRAS_unsigned : 0 <= tRAS < 2 ^ 32;
  tRCD_unsigned : 0 <= tRCD < 2 ^ 32;
  tRRD_unsigned : 0 <= tRRD < 2 ^ 32;
  tRP_unsigned : 0 <= tRP < 2 ^ 32;
  AL_unsigned : 0 <= AL < 2 ^ 32
}.

(** The bank table after the ACTIVATE case. *)
Definition activated (p : BusPacket) (now : Z) (bs : list (list BankState))
    : list (list BankState) :=
  alter (imap (fun i b =>
      if decide (i ≠ bank p) then raise_nextActivate (u64 (now + tRRD)) b else b))
    (rank p)
    (alter_bank (fun b =>
        activateTiming now
          (set_openRowAddress (row p)
             (set_lastCommand ACTIVATE (set_currentBankState RowActive b))))
       (rank p) (bank p) bs).

(** The fields the properties below are about, grouped. *)
Definition returnView (s : MemoryController) :=
  (returnTransaction s, currentClockCycle s, parentMemorySystem s,
   latencies s, accessLatencies s, totalEpochLatency s).
Definition refreshView (s : MemoryController) :=
  (refreshRank s, refreshCountdown s).
Definition fifoView (s : MemoryController) :=
  (writeDataCountdown s, writeDataToSend s).
Definition energyView (s : MemoryController) :=
  (backgroundEnergy s, burstEnergy s, actpreEnergy s, refreshEnergy s).

(** One [+=] of an [unsigned] amount on at most one entry. *)
Definition bumped (old new : list Z) : Prop :=
  new = old
  \/ exists r v x,
       old !! r = Some v /\ 0 <= x < 2 ^ 32 /\ new = <[r := u64 (v + x)]> old.

Definition isReturnReadData (c : Callback) : bool :=
  match c with
  | ReturnReadDataCall _ _ _ => true
  | WriteDataDoneCall _ _ _ => false
  end.

(** An accumulator that is not within 2^32 of the end of [uint64_t]. *)
Definition headroom (l : list Z) : Prop :=
  Forall (fun v => 0 <= v /\ v + 2 ^ 32 <= 2 ^ 64) l.

(** The refresh gate and the closing decrement, on the two fields they
    work on. *)
Definition nextRefreshRank (r : nat) : nat :=
  if decide (S r = NUM_RANKS) then 0%nat else S r.

Definition gateView (v : nat * list Z) : nat * list Z :=
  match snd v !! fst v with
  | Some 0 => (nextRefreshRank (fst v), <[fst v := REFRESH_PERIOD_tCK]> (snd v))
  | _ => v
  end.

Definition tickView (v : nat * list Z) : nat * list Z :=
  (fst (gateView v), map (fun c => u32 (c - 1)) (snd (gateView v))).

(** *** The staggering of the countdowns

    Read from [refreshRank] on and around, the countdowns are at least
    [REFRESH_STAGGER] apart, within [0, REFRESH_PERIOD_tCK], and none is
    more than a period less a stagger above the first. *)
Definition rotated (r : nat) (l : list Z) : list Z := drop r l ++ take r l.

Definition apart (x y : Z) : Prop := x + REFRESH_STAGGER <= y.

Definition staggered (l : list Z) : Prop :=
  StronglySorted apart l
  /\ Forall (fun x => 0 <= x <= REFRESH_PERIOD_tCK) l
  /\ (forall x, head l = Some x ->
        Forall (fun y => y + REFRESH_STAGGER <= x + REFRESH_PERIOD_tCK) l).

Definition refresh_inv (v : nat * list Z) : Prop :=
  (fst v < length (snd v))%nat
  /\ length (snd v) = NUM_RANKS
  /\ staggered (rotated (fst v) (snd v)).

End Notions.

(** ** Further notions: what a command does to one bank *)

Section Effects.

Context {cfg : Config} {env : Collaborators}.

(** Bank (i, j) after a READ or READ_P to (rank p, bank p) at cycle [now]. *)
Definition readEffect (p : BusPacket) (now : Z) (i j : nat) (b : BankState)
    : BankState :=
  let own := bool_decide (i = rank p /\ j = bank p) in
  let b :=
    if own then
      if decide (busPacketType p = READ_P) then
        set_stateChangeCountdown READ_TO_PRE_DELAY
          (set_lastCommand READ_P
             (raise_nextActivate (u64 (now + READ_AUTOPRE_DELAY)) b))
      else
        set_lastCommand READ
          (raise_nextPrecharge (u64 (now + READ_TO_PRE_DELAY)) b)
    else b in
  let b :=
    if decide (i ≠ rank p) then
      if decide (currentBankState b = RowActive) then
        raise_nextWrite (u64 (now + READ_TO_WRITE_DELAY))
          (raise_nextRead (u64 (now + BL / 2 + tRTRS)) b)
      else b
    else
      raise_nextWrite (u64 (now + READ_TO_WRITE_DELAY))
        (raise_nextRead (u64 (now + Z.max tCCD (BL / 2))) b) in
  if own && bool_decide (busPacketType p = READ_P)
  then set_nextWrite (nextActivate b) (set_nextRead (nextActivate b) b)
  else b.

(** Bank (i, j) after a WRITE or WRITE_P to (rank p, bank p) at cycle
    [now]. *)
Definition writeEffect (p : BusPacket) (now : Z) (i j : nat) (b : BankState)
    : BankState :=
  let own := bool_decide (i = rank p /\ j = bank p) in
  let b :=
    if own then
      if decide (busPacketType p = WRITE_P) then
        set_stateChangeCountdown WRITE_TO_PRE_DELAY
          (set_lastCommand WRITE_P
             (raise_nextActivate (u64 (now + WRITE_AUTOPRE_DELAY)) b))
      else
        set_lastCommand WRITE
          (raise_nextPrecharge (u64 (now + WRITE_TO_PRE_DELAY)) b)
    else b in
  let b :=
    if decide (i ≠ rank p) then
      if decide (currentBankState b = RowActive) then
        raise_nextRead (u64 (now + WRITE_TO_READ_DELAY_R))
          (raise_nextWrite (u64 (now + BL / 2 + tRTRS)) b)
      else b
    else
      raise_nextRead (u64 (now + WRITE_TO_READ_DELAY_B))
        (raise_nextWrite (u64 (now + Z.max (BL / 2) tCCD)) b) in
  if own && bool_decide (busPacketType p = WRITE_P)
  then set_nextWrite (nextActivate b) (set_nextRead (nextActivate b) b)
  else b.

(** Bank (i, j) after an ACTIVATE of (rank p, bank p) at cycle [now]. *)
Definition activateEffect (p : BusPacket) (now : Z) (i j : nat) (b : BankState)
    : BankState :=
  if decide (i = rank p) then
    if decide (j = bank p) then
      activateTiming now
        (set_openRowAddress (row p)
           (set_lastCommand ACTIVATE (set_currentBankState RowActive b)))
    else raise_nextActivate (u64 (now + tRRD)) b
  else b.

(** Bank (i, j) after a PRECHARGE of (rank p, bank p) at cycle [now]. *)
Definition prechargeEffect (p : BusPacket) (now : Z) (i j : nat) (b : BankState)
    : BankState :=
  if bool_decide (i = rank p /\ j = bank p) then
    if isSmartMRAM then
      set_nextActivate now
        (set_stateChangeCountdown 0
           (set_lastCommand PRECHARGE (set_currentBankState Idle b)))
    else
      raise_nextActivate (u64 (now + tRP))
        (set_stateChangeCountdown tRP
           (set_lastCommand PRECHARGE (set_currentBankState Precharging b)))
  else b.

(** Bank (i, j) after a REFRESH of rank [rank p] at cycle [now]. *)
Definition refreshEffect (p : BusPacket) (now : Z) (i : nat) (b : BankState)
    : BankState :=
  if decide (i = rank p) then
    set_stateChangeCountdown tRFC
      (set_lastCommand REFRESH
         (set_currentBankState Refreshing
            (set_nextActivate (u64 (now + tRFC)) b)))
  else b.

(** Bank (i, j) after the command [p] issued at cycle [now]. *)
Definition commandEffect (p : BusPacket) (now : Z) (i j : nat) (b : BankState)
    : BankState :=
  match busPacketType p with
  | READ | READ_P => readEffect p now i j b
  | WRITE | WRITE_P => writeEffect p now i j b
  | ACTIVATE => activateEffect p now i j b
  | PRECHARGE => prechargeEffect p now i j b
  | REFRESH => refreshEffect p now i b
  | DATA => b
  end.

(** The countdown of an auto-precharging command and the delay it puts
    on the next ACTIVATE. *)
Definition toPreDelay (ty : BusPacketType) : Z :=
  match ty with READ_P => READ_TO_PRE_DELAY | _ => WRITE_TO_PRE_DELAY end.
Definition autopreDelay (ty : BusPacketType) : Z :=
  match ty with READ_P => READ_AUTOPRE_DELAY | _ => WRITE_AUTOPRE_DELAY end.

(** The part of a bank that is its state machine, as opposed to its
    guards. *)
Definition machine (b : BankState) :=
  (currentBankState b, openRowAddress b, lastCommand b, stateChangeCountdown b).

(** No guard of [b'] is earlier than the same guard of [b]. *)
Definition guards_le (b b' : BankState) : Prop :=
  nextRead b <= nextRead b'
  /\ nextWrite b <= nextWrite b'
  /\ nextActivate b <= nextActivate b'
  /\ nextPrecharge b <= nextPrecharge b'
  /\ nextPowerUp b = nextPowerUp b'.

(** ** Further notions: one [update], seen from the state it starts in *)

(** The bank table after the countdown loop. *)
Definition countedDown (s : MemoryController) : list (list BankState) :=
  map (map bankCountdown) (bankStates s).

(** Whether the refresh gate fires, and the command queue it leaves. *)
Definition refreshDue (s : MemoryController) : bool :=
  match refreshCountdown s !! refreshRank s with
  | Some c => c =? 0
  | None => false
  end.

Definition gateQueue (s : MemoryController) : CommandQueue :=
  if refreshDue s then cq_needRefresh (refreshRank s) (commandQueue s)
  else commandQueue s.

(** What [commandQueue.pop] returns in this [update]. *)
Definition popped (s : MemoryController) : option BusPacket * CommandQueue :=
  cq_pop (countedDown s) (gateQueue s).

(** Whether the packet on the command (data) bus reaches its rank in this
    [update]. *)
Definition cmdArrives (s : MemoryController) : bool :=
  match outgoingCmdPacket s with
  | Some _ => u32 (cmdCyclesLeft s - 1) =? 0
  | None => false
  end.

Definition dataArrives (s : MemoryController) : bool :=
  match outgoingDataPacket s with
  | Some _ => u32 (dataCyclesLeft s - 1) =? 0
  | None => false
  end.

(** The callbacks one [update] fires, in order. *)
Definition writeDoneCalls (s : MemoryController) : list Callback :=
  match outgoingDataPacket s with
  | Some p =>
      if dataArrives s && WriteDataDone (parentMemorySystem s) then
        [WriteDataDoneCall (systemID (parentMemorySystem s))
           (physicalAddress p) (currentClockCycle s)]
      else []
  | None => []
  end.

Definition returnCalls (s : MemoryController) : list Callback :=
  match returnTransaction s with
  | rt :: _ =>
      if ReturnReadData (parentMemorySystem s) then
        [ReturnReadDataCall (systemID (parentMemorySystem s))
           (address rt) (currentClockCycle s)]
      else []
  | [] => []
  end.

(** The fields that only the command path and the power loop write. *)
Definition bankView (s : MemoryController) :=
  (bankStates s, powerDown s, pendingReadTransactions s, commandQueue s).

(** The two buses. *)
Definition cmdBus (s : MemoryController) := (outgoingCmdPacket s, cmdCyclesLeft s).
Definition dataBus (s : MemoryController) := (outgoingDataPacket s, dataCyclesLeft s).

(** The access counters. *)
Definition countView (s : MemoryController) :=
  (totalReadsPerBank s, grandTotalBankAccesses s, totalReadsPerRank s,
   totalWritesPerRank s).

(** ** Further notions: scheduling and counting *)

(** Whether the command queue has room for the two commands of a
    transaction, and the two commands. *)
Definition roomFor (cq : CommandQueue) (t : Transaction) : bool :=
  let a := addressMapping (address t) in
  cq_hasRoomFor 2 (addrRank a) (addrBank a) cq.

Definition activateFor (t : Transaction) : BusPacket :=
  let a := addressMapping (address t) in
  Build_BusPacket ACTIVATE (address t) (addrColumn a) (addrRow a)
    (addrRank a) (addrBank a) 0.

Definition commandFor (ty : BusPacketType) (t : Transaction) : BusPacket :=
  let a := addressMapping (address t) in
  Build_BusPacket ty (address t) (addrColumn a) (addrRow a)
    (addrRank a) (addrBank a) (transData t).

(** The transaction that this [update] schedules, with the queue it
    leaves. *)
Definition scheduled (s : MemoryController)
    : option (Transaction * list Transaction) :=
  firstAdmissible (snd (popped s)) (transactionQueue s).


(** A pending read that a row-buffer hit may stamp, and one that an
    ACTIVATE may. *)
Definition unstamped (addr : Z) (t : Transaction) : Prop :=
  address t = addr /\ timeACTIssued t = 0.
Definition matching (addr : Z) (t : Transaction) : Prop := address t = addr.

(** [l'] is [l] with the first element that satisfies [P] stamped with
    [now], or [l] itself when there is none. *)
Definition stampedFirst (P : Transaction -> Prop) (now : Z)
    (l l' : list Transaction) : Prop :=
  (Forall (fun x => ~ P x) l /\ l' = l)
  \/ exists pre t post,
       l = pre ++ t :: post
       /\ Forall (fun x => ~ P x) pre
       /\ P t
       /\ l' = pre ++ set_timeACTIssued now t :: post.

(** ** Further notions: the low-power block

    The three outcomes of the block for rank [i]: the rank goes to sleep,
    wakes up, or is left alone. *)
Definition sleeps (i : nat) (rowv : list BankState) (r : Rank RankBody)
    (s : MemoryController) : bool :=
  cq_isEmpty i (commandQueue s) && negb (refreshWaiting r)
  && forallb (fun b => bool_decide (currentBankState b = Idle)) rowv.

Definition wakes (i : nat) (rowv : list BankState) (r : Rank RankBody)
    (pd : bool) (s : MemoryController) : bool :=
  negb (cq_isEmpty i (commandQueue s) && negb (refreshWaiting r))
  && match rowv with
     | b0 :: _ => (nextPowerUp b0 <=? currentClockCycle s) && pd
     | [] => false
     end.

Definition powerTransition (i : nat) (rowv : list BankState) (r : Rank RankBody)
    (pd : bool) (s : MemoryController) : MemoryController :=
  if sleeps i rowv r s then
    set_bankStates
      (<[i := map (fun b =>
                set_nextPowerUp (u64 (currentClockCycle s + tCKE))
                  (set_currentBankState PowerDown b)) rowv]> (bankStates s))
      (set_ranks (<[i := rank_powerDown r]> (ranks s))
         (set_powerDown (<[i := true]> (powerDown s)) s))
  else if wakes i rowv r pd s then
    set_bankStates
      (<[i := map (fun b =>
                set_nextActivate (u64 (currentClockCycle s + tXP))
                  (set_currentBankState Idle b)) rowv]> (bankStates s))
      (set_ranks (<[i := rank_powerUp r]> (ranks s))
         (set_powerDown (<[i := false]> (powerDown s)) s))
  else s.

End Effects.

(** ** Further notions: invariants *)

Section Invariants.

Context {cfg : Config} {env : Collaborators}.

(** The sizes of the tables. *)
Definition shape (s : MemoryController) :=
  (map length (bankStates s), length (powerDown s), length (ranks s),
   length (refreshCountdown s),
   (length (backgroundEnergy s), length (burstEnergy s),
    length (actpreEnergy s), length (refreshEnergy s)),
   (length (totalReadsPerBank s), length (totalWritesPerBank s),
    length (totalEpochLatency s), length (grandTotalBankAccesses s)),
   (length (totalReadsPerRank s), length (totalWritesPerRank s))).

(** The tables have the sizes the constructor gives them, and
    [refreshRank] is a rank. *)
Definition shaped (s : MemoryController) : Prop :=
  shape s
  = (replicate NUM_RANKS NUM_BANKS, NUM_RANKS, NUM_RANKS, NUM_RANKS,
     (NUM_RANKS, NUM_RANKS, NUM_RANKS, NUM_RANKS),
     ((NUM_RANKS * NUM_BANKS)%nat, (NUM_RANKS * NUM_BANKS)%nat,
      (NUM_RANKS * NUM_BANKS)%nat, (NUM_RANKS * NUM_BANKS)%nat),
     (NUM_RANKS, NUM_RANKS))
  /\ (refreshRank s < NUM_RANKS)%nat.

(** What travels where: DATA packets on the data bus and in the write
    FIFO, anything else on the command bus; the two halves of the write
    FIFO have the same length. *)
Definition disciplined (s : MemoryController) : Prop :=
  (forall p, outgoingCmdPacket s = Some p -> busPacketType p ≠ DATA)
  /\ (forall p, outgoingDataPacket s = Some p -> busPacketType p = DATA)
  /\ Forall (fun p => busPacketType p = DATA) (writeDataToSend s)
  /\ length (writeDataCountdown s) = length (writeDataToSend s).

(** A packet that names a bank of the system. *)
Definition inRange (p : BusPacket) : Prop :=
  (rank p < NUM_RANKS)%nat /\ (bank p < NUM_BANKS)%nat.

(** Every packet the controller holds names a bank of the system. *)
Definition wired (s : MemoryController) : Prop :=
  (forall p, outgoingCmdPacket s = Some p -> inRange p)
  /\ (forall p, outgoingDataPacket s = Some p -> inRange p)
  /\ Forall inRange (writeDataToSend s).

(** All of the above, for a command queue that keeps a contract [Q]. *)
Definition sound (Q : CommandQueue -> Prop) (s : MemoryController) : Prop :=
  shaped s /\ wired s /\ disciplined s /\ Q (commandQueue s).

(** An outcome that is not an access outside a table, and whose result,
    if any, satisfies [P]. *)
Definition within {A} (P : A -> Prop) (o : Outcome A) : Prop :=
  match o with
  | Ok a => P a
  | Abort e => e ≠ OutOfBounds
  end.

End Invariants.

(** ** Further notions: the guard of an auto-precharging bank *)

Section Guard.

Context {cfg : Config} {env : Collaborators}.



End Guard.

(** ** More concrete systems

    The DDR3-like system with the low-power mode switchable and the
    precharge time and the refresh period given, on the scripted
    collaborators. *)

Definition profile (smart lowPower : bool) (rp period : Z) : Config :=
  {| IDD0 := 110; IDD2P := 12; IDD2N := 42; IDD3N := 45; IDD4W := 185;
     IDD4R := 146; IDD5 := 215;
     isSmartMRAM := smart; USE_LOW_POWER := lowPower;
     NUM_RANKS := 2; NUM_BANKS := 4; NUM_DEVICES := 8;
     BL := 8; WL := 9; AL := 0;
     tRCD := 10; tRP := rp; tRAS := 24; tRC := 34;
     tRFC := 107; tRRD := 4;
     tCCD := 4; tRTRS := 1; tCMD := 1; tXP := 4; tCKE := 4;
     READ_TO_PRE_DELAY := 5; WRITE_TO_PRE_DELAY := 23;
     READ_AUTOPRE_DELAY := 5 + rp;
     WRITE_AUTOPRE_DELAY := 23 + rp;
     READ_TO_WRITE_DELAY := 6; WRITE_TO_READ_DELAY_B := 18;
     WRITE_TO_READ_DELAY_R := 5;
     REFRESH_PERIOD_tCK := period; REFRESH_STAGGER := period / 2;
     TRANS_QUEUE_DEPTH := 2; HISTOGRAM_BIN_SIZE := 10 |}.

(** A fresh controller of such a system. *)
Definition freshOn (cfg : Config) (parent : MemorySystem)
    (q : list (nat * BusPacket)) : @MemoryController scripted :=
  @MemoryController_new cfg scripted parent (0%nat, q) idleRanks.

(** The fresh controller with two transactions waiting. *)
Definition queued : @MemoryController scripted :=
  set_transactionQueue
    [Build_Transaction DATA_READ 8192 0 0 0;
     Build_Transaction DATA_WRITE 1024 5 0 0]
    (fresh false noCallbacks []).

(** What the scripted command queue may hold for the contract of the
    in-bounds property: packets that name a bank of the concrete
    system. *)
Definition scriptedRange (q : @CommandQueue scripted) : Prop :=
  Forall (fun tp => @inRange (ddr3 false) (snd tp)) (snd q).

(** The controller [returning] with a second read, of address 16384,
    pending behind the first, its data still to come. *)
Definition awaitingSecond : @MemoryController scripted :=
  set_pendingReadTransactions
    [Build_Transaction DATA_READ 8192 0 3 5;
     Build_Transaction DATA_READ 16384 0 4 6] returning.

(** The data of that second read as its rank sends it back: address
    16384, bank 0 of rank 0. *)
Definition readData : BusPacket := Build_BusPacket DATA 16384 0 2 0 0 0.


(** A write command with every field set: column 5 of row 7 in bank 0
    of rank 0, with data 99. *)
Definition burst : BusPacket := Build_BusPacket WRITE 57349 5 7 0 0 99.

(** * Properties *)

Section Facts.

Context {cfg : Config} {env : Collaborators}.

(** ** Machine integers *)

Lemma u32_range z : 0 <= u32 z < 2 ^ 32.
Proof. unfold u32. apply Z.mod_pos_bound. lia. Qed.

Lemma u64_range z : 0 <= u64 z < 2 ^ 64.
Proof. unfold u64. apply Z.mod_pos_bound. lia. Qed.

Lemma u32_small z : 0 <= z < 2 ^ 32 -> u32 z = z.
Proof. unfold u32. apply Z.mod_small. Qed.

Lemma u64_small z : 0 <= z < 2 ^ 64 -> u64 z = z.
Proof. unfold u64. apply Z.mod_small. Qed.

(** Adding an [unsigned] amount to a [uint64_t] that is not within 2^32
    of its maximum does not wrap. *)
Lemma u64_add_u32 v x :
  0 <= v -> v + 2 ^ 32 <= 2 ^ 64 -> 0 <= x < 2 ^ 32 -> u64 (v + x) = v + x.
Proof. intros. apply u64_small. lia. Qed.

(** ** Vectors and the bank table *)

Lemma at_index_Ok {A} (l : list A) i x : at_index l i = Ok x <-> l !! i = Some x.
Proof. unfold at_index. destruct (l !! i); split; congruence. Qed.

Lemma update_at_Ok {A} (f : A -> A) i (l l' : list A) :
  update_at f i l = Ok l' <-> exists x, l !! i = Some x /\ l' = <[i := f x]> l.
Proof.
  unfold update_at. destruct (l !! i) as [x|]; split.
  - intros [= <-]. eauto.
  - intros (y & [= <-] & ->). reflexivity.
  - discriminate.
  - intros (y & [=] & _).
Qed.

Lemma update_at_alter {A} (f : A -> A) i (l l' : list A) :
  update_at f i l = Ok l' -> l' = alter f i l.
Proof.
  intros (x & Hx & ->)%update_at_Ok.
  apply list_eq. intros j. destruct (decide (j = i)) as [->|Hne].
  - rewrite list_lookup_alter_eq, Hx, list_lookup_insert_eq; [done|].
    by eapply lookup_lt_Some.
  - by rewrite list_lookup_alter_ne, list_lookup_insert_ne.
Qed.

Lemma bank_at_Ok r b bs x : bank_at r b bs = Ok x <-> lookup_bank r b bs = Some x.
Proof.
  unfold bank_at, lookup_bank, at_index.
  destruct (bs !! r) as [rowv|]; simpl; [|split; discriminate].
  destruct (rowv !! b); split; congruence.
Qed.

Lemma lookup_bank_alter_row g r b bs :
  lookup_bank r b (alter g r bs) = rowv ← bs !! r; g rowv !! b.
Proof. unfold lookup_bank. rewrite list_lookup_alter_eq. by destruct (bs !! r). Qed.

Lemma lookup_bank_alter_row_ne g r r' b bs :
  r ≠ r' -> lookup_bank r' b (alter g r bs) = lookup_bank r' b bs.
Proof. intros. unfold lookup_bank. by rewrite list_lookup_alter_ne. Qed.

Lemma lookup_bank_alter_bank f r b bs :
  lookup_bank r b (alter_bank f r b bs) = f <$> lookup_bank r b bs.
Proof.
  unfold alter_bank. rewrite lookup_bank_alter_row. unfold lookup_bank.
  destruct (bs !! r); simpl; [|done]. apply list_lookup_alter_eq.
Qed.

Lemma lookup_bank_alter_bank_ne f r b r' b' bs :
  r ≠ r' \/ b ≠ b' ->
  lookup_bank r' b' (alter_bank f r b bs) = lookup_bank r' b' bs.
Proof.
  intros Hne. unfold alter_bank. destruct (decide (r = r')) as [<-|Hr].
  - rewrite lookup_bank_alter_row. unfold lookup_bank.
    destruct (bs !! r); simpl; [|done].
    apply list_lookup_alter_ne. intuition congruence.
  - by apply lookup_bank_alter_row_ne.
Qed.

Lemma lookup_bank_imap g r b bs :
  lookup_bank r b (imap (fun i => imap (g i)) bs) = g r b <$> lookup_bank r b bs.
Proof.
  unfold lookup_bank. rewrite list_lookup_imap.
  destruct (bs !! r); simpl; [|done]. apply list_lookup_imap.
Qed.

Lemma lookup_bank_map f r b bs :
  lookup_bank r b (map (map f) bs) = f <$> lookup_bank r b bs.
Proof.
  unfold lookup_bank. rewrite list_lookup_fmap.
  destruct (bs !! r); simpl; [|done]. apply list_lookup_fmap.
Qed.

End Facts.

Section Commands.

Context {cfg : Config} {env : Collaborators}.

Lemma issue_activate p s b :
  busPacketType p = ACTIVATE ->
  lookup_bank (rank p) (bank p) (bankStates s) = Some b ->
  outgoingCmdPacket s = None ->
  (isSmartMRAM = false -> is_Some (actpreEnergy s !! rank p)) ->
  exists s',
    issue p s = Ok s'
    /\ bankStates s' = activated p (currentClockCycle s) (bankStates s)
    /\ actpreEnergy s' =
         (if isSmartMRAM then actpreEnergy s
          else alter (fun v => u64 (v + actEnergy)) (rank p) (actpreEnergy s))
    /\ burstEnergy s' = burstEnergy s
    /\ currentClockCycle s' = currentClockCycle s.
Proof.
  intros Hty Hb Hout He.
  unfold issue, pushWriteData, applyCommand, issueActivate. rewrite Hty.
  rewrite decide_False by (intros [?|?]; discriminate).
  destruct isSmartMRAM eqn:Hsmart; simpl.
  - apply bank_at_Ok in Hb. rewrite Hb. simpl. rewrite Hout.
    eexists. split; [reflexivity|]. simpl. auto.
  - destruct He as [e He]; [done|].
    unfold add_energy, update_at. rewrite He. simpl.
    apply bank_at_Ok in Hb. rewrite Hb. simpl. rewrite Hout.
    eexists. split; [reflexivity|]. simpl. repeat split; try done.
    apply update_at_alter. unfold update_at. by rewrite He.
Qed.

Lemma lookup_activated_same p now bs :
  lookup_bank (rank p) (bank p) (activated p now bs)
  = (fun b => activateTiming now
        (set_openRowAddress (row p)
           (set_lastCommand ACTIVATE (set_currentBankState RowActive b))))
    <$> lookup_bank (rank p) (bank p) bs.
Proof.
  unfold activated. rewrite lookup_bank_alter_row.
  pose proof (lookup_bank_alter_bank
    (fun b => activateTiming now
        (set_openRowAddress (row p)
           (set_lastCommand ACTIVATE (set_currentBankState RowActive b))))
    (rank p) (bank p) bs) as H.
  unfold lookup_bank in *.
  destruct (alter_bank _ _ _ bs !! rank p) as [rowv|]; simpl in *.
  - rewrite list_lookup_imap, H.
    destruct (bs !! rank p ≫= _); simpl; [|done].
    by rewrite decide_False by tauto.
  - done.
Qed.

Lemma lookup_activated_other p now bs j :
  j ≠ bank p ->
  lookup_bank (rank p) j (activated p now bs)
  = raise_nextActivate (u64 (now + tRRD)) <$> lookup_bank (rank p) j bs.
Proof.
  intros Hj. unfold activated. rewrite lookup_bank_alter_row.
  pose proof (lookup_bank_alter_bank_ne
    (fun b => activateTiming now
        (set_openRowAddress (row p)
           (set_lastCommand ACTIVATE (set_currentBankState RowActive b))))
    (rank p) (bank p) (rank p) j bs) as H.
  unfold lookup_bank in *.
  destruct (alter_bank _ _ _ bs !! rank p) as [rowv|]; simpl in *.
  - rewrite list_lookup_imap, H by (right; congruence).
    destruct (bs !! rank p ≫= _); simpl; [|done].
    by rewrite decide_True by done.
  - by rewrite <- H by (right; congruence).
Qed.

End Commands.

Section Activate.

Context {cfg : Config} {env : Collaborators}.

(** C2 (amended): with [isSmartMRAM = true], issuing ACTIVATE to
    (rank, bank) at cycle [now] makes the bank RowActive on the packet's
    row, with [nextActivate >= now + tRRD] and [nextPrecharge = now];
    [nextRead] and [nextWrite] become the maximum of [now] and their
    previous value (no tRCD is added, but a later guard left by an earlier
    column command is kept), so they equal [now] when the previous guard
    has expired.  Every other bank of the rank gets
    [nextActivate >= now + tRRD]. *)
Theorem smart_activate_timing (p : BusPacket) (s : MemoryController) (b : BankState) :
  isSmartMRAM = true ->
  unsigned_timing ->
  busPacketType p = ACTIVATE ->
  lookup_bank (rank p) (bank p) (bankStates s) = Some b ->
  outgoingCmdPacket s = None ->
  0 <= currentClockCycle s ->
  currentClockCycle s + 2 ^ 32 <= 2 ^ 64 ->
  exists s' b',
    issue p s = Ok s'
    /\ lookup_bank (rank p) (bank p) (bankStates s') = Some b'
    /\ currentBankState b' = RowActive
    /\ openRowAddress b' = row p
    /\ nextActivate b' = Z.max (currentClockCycle s + tRRD) (nextActivate b)
    /\ currentClockCycle s + tRRD <= nextActivate b'
    /\ nextPrecharge b' = currentClockCycle s
    /\ nextRead b' = Z.max (currentClockCycle s) (nextRead b)
    /\ nextWrite b' = Z.max (currentClockCycle s) (nextWrite b)
    /\ (nextRead b <= currentClockCycle s -> nextRead b' = currentClockCycle s)
    /\ (nextWrite b <= currentClockCycle s -> nextWrite b' = currentClockCycle s)
    /\ actpreEnergy s' = actpreEnergy s
    /\ forall j bj,
         j ≠ bank p ->
         lookup_bank (rank p) j (bankStates s) = Some bj ->
         exists bj',
           lookup_bank (rank p) j (bankStates s') = Some bj'
           /\ currentClockCycle s + tRRD <= nextActivate bj'.
Proof.
  intros Hsmart Ht Hty Hb Hout Hnow Hmax.
  destruct (issue_activate p s b Hty Hb Hout) as (s' & Hs' & Hbs & He & _).
  { rewrite Hsmart. discriminate. }
  pose proof (tRRD_unsigned Ht) as HtRRD.
  assert (Hu : u64 (currentClockCycle s + tRRD) = currentClockCycle s + tRRD)
    by (apply u64_small; lia).
  exists s'. eexists. split; [exact Hs'|]. rewrite Hbs. split.
  { rewrite lookup_activated_same, Hb. reflexivity. }
  unfold activateTiming. rewrite Hsmart, Hu. simpl.
  repeat split; try lia.
  - rewrite He, Hsmart. reflexivity.
  - intros j bj Hj Hbj. rewrite lookup_activated_other, Hbj by done.
    eexists. split; [reflexivity|]. simpl. rewrite Hu. lia.
Qed.

(** C4 (amended): with [isSmartMRAM = false], issuing ACTIVATE to
    (rank, bank) at cycle [now] adds the activation energy to
    [actpreEnergy[rank]] and raises the guards of the bank:
    [nextActivate >= now + tRC], [nextPrecharge >= now + tRAS],
    [nextRead >= now + (tRCD - AL)] and [nextWrite >= now + (tRCD - AL)],
    each being the maximum of that bound and its previous value (so the
    two need not be equal). *)
Theorem conventional_activate_timing (p : BusPacket) (s : MemoryController)
    (b : BankState) (e : Z) :
  isSmartMRAM = false ->
  unsigned_timing ->
  AL <= tRCD ->
  busPacketType p = ACTIVATE ->
  lookup_bank (rank p) (bank p) (bankStates s) = Some b ->
  actpreEnergy s !! rank p = Some e ->
  outgoingCmdPacket s = None ->
  0 <= currentClockCycle s ->
  currentClockCycle s + 2 ^ 32 <= 2 ^ 64 ->
  exists s' b',
    issue p s = Ok s'
    /\ actpreEnergy s' !! rank p = Some (u64 (e + actEnergy))
    /\ lookup_bank (rank p) (bank p) (bankStates s') = Some b'
    /\ nextActivate b' = Z.max (currentClockCycle s + tRC) (nextActivate b)
    /\ currentClockCycle s + tRC <= nextActivate b'
    /\ nextPrecharge b' = Z.max (currentClockCycle s + tRAS) (nextPrecharge b)
    /\ currentClockCycle s + tRAS <= nextPrecharge b'
    /\ nextRead b' = Z.max (currentClockCycle s + (tRCD - AL)) (nextRead b)
    /\ currentClockCycle s + (tRCD - AL) <= nextRead b'
    /\ nextWrite b' = Z.max (currentClockCycle s + (tRCD - AL)) (nextWrite b)
    /\ currentClockCycle s + (tRCD - AL) <= nextWrite b'.
Proof.
  intros Hsmart Ht HAL Hty Hb He Hout Hnow Hmax.
  destruct (issue_activate p s b Hty Hb Hout) as (s' & Hs' & Hbs & Hen & _).
  { intros _. eauto. }
  destruct Ht as [HtRC HtRAS HtRCD _ _ HALr].
  assert (Hsub : u32 (tRCD - AL) = tRCD - AL) by (apply u32_small; lia).
  assert (H1 : u64 (currentClockCycle s + tRC) = currentClockCycle s + tRC)
    by (apply u64_small; lia).
  assert (H2 : u64 (currentClockCycle s + tRAS) = currentClockCycle s + tRAS)
    by (apply u64_small; lia).
  assert (H3 : u64 (currentClockCycle s + (tRCD - AL))
               = currentClockCycle s + (tRCD - AL))
    by (apply u64_small; lia).
  exists s'. eexists. split; [exact Hs'|]. split.
  { rewrite Hen, Hsmart, list_lookup_alter_eq, He. reflexivity. }
  rewrite Hbs. split.
  { rewrite lookup_activated_same, Hb. reflexivity. }
  unfold activateTiming. rewrite Hsmart, Hsub, H1, H2, H3. simpl.
  repeat split; lia.
Qed.

End Activate.

(** C2, as stated, fails: on the concrete SMART system an ACTIVATE to
    bank 0, a READ to bank 0 and an ACTIVATE to bank 1 of rank 0 are
    issued in cycles 0, 1 and 4.  The READ of cycle 1 leaves
    [nextRead = 5] and [nextWrite = 7] on every bank of the rank, and the
    ACTIVATE that [update] issues in cycle 4 keeps them: they are not 4. *)
Lemma smart_activate_keeps_later_guards :
  let start :=
    fresh true noCallbacks
      [(0, cmd ACTIVATE 0 0 7); (1, cmd READ 0 0 7); (4, cmd ACTIVATE 0 1 3)]%nat in
  exists b',
    observe (@cycles (ddr3 true) scripted 4 start)
      (fun s => (currentClockCycle s,
                 fst (@cq_pop scripted (bankStates s) (commandQueue s))))
    = Some (4, Some (cmd ACTIVATE 0 1 3))
    /\ observe (s ← @cycles (ddr3 true) scripted 4 start;
                @update (ddr3 true) scripted s)
         (fun s' => lookup_bank 0 1 (bankStates s'))
       = Some (Some b')
    /\ currentBankState b' = RowActive
    /\ lastCommand b' = ACTIVATE
    /\ nextRead b' = 5
    /\ nextWrite b' = 7
    /\ nextRead b' ≠ 4
    /\ nextWrite b' ≠ 4.
Proof.
  exists (Build_BankState RowActive 3 5 7 8 4 0 ACTIVATE 0).
  split; [vm_compute; reflexivity|].
  split; [vm_compute; reflexivity|].
  repeat split; discriminate.
Qed.

Section Precharge.

Context {cfg : Config} {env : Collaborators}.


(** A bank that is counting down after a PRECHARGE keeps its state until
    the countdown ends, and is Idle when it does. *)
Lemma countdown_running (k : nat) (b : BankState) :
  lastCommand b = PRECHARGE ->
  Z.of_nat k < stateChangeCountdown b ->
  Nat.iter k bankCountdown b
  = set_stateChangeCountdown (stateChangeCountdown b - Z.of_nat k) b.
Proof.
  intros Hlast. induction k as [|k IH]; intros Hk.
  - destruct b; unfold set_stateChangeCountdown; simpl. f_equal. lia.
  - rewrite Nat.iter_succ, IH by lia. unfold bankCountdown. simpl.
    destruct (0 <? _) eqn:Hpos; [|apply Z.ltb_ge in Hpos; lia].
    destruct (_ =? 0) eqn:Hz; [apply Z.eqb_eq in Hz; lia|].
    unfold set_stateChangeCountdown. simpl. f_equal. lia.
Qed.

Lemma countdown_finished (n : Z) (b : BankState) :
  lastCommand b = PRECHARGE ->
  stateChangeCountdown b = n ->
  0 < n ->
  currentBankState (Nat.iter (Z.to_nat n) bankCountdown b) = Idle.
Proof.
  intros Hlast <- Hpos.
  replace (Z.to_nat (stateChangeCountdown b))
    with (S (Z.to_nat (stateChangeCountdown b - 1))) by lia.
  rewrite Nat.iter_succ, countdown_running by (done || lia).
  unfold bankCountdown. simpl.
  destruct (0 <? _) eqn:Hp; [|apply Z.ltb_ge in Hp; lia].
  destruct (_ =? 0) eqn:Hz; [|apply Z.eqb_neq in Hz; lia].
  rewrite Hlast. reflexivity.
Qed.


End Precharge.

Section Sensing.

Context {cfg : Config} {env : Collaborators}.

(** The first READ or READ_P after an ACTIVATE pays the activation energy
    under SMART; any other READ pays none. *)
Lemma issue_read_actpreEnergy (p : BusPacket) (s : MemoryController)
    (b : BankState) (e eb : Z) :
  busPacketType p = READ \/ busPacketType p = READ_P ->
  lookup_bank (rank p) (bank p) (bankStates s) = Some b ->
  actpreEnergy s !! rank p = Some e ->
  burstEnergy s !! rank p = Some eb ->
  outgoingCmdPacket s = None ->
  exists s',
    issue p s = Ok s'
    /\ actpreEnergy s' =
         (if isSmartMRAM && bool_decide (lastCommand b = ACTIVATE)
          then <[rank p := u64 (e + actEnergy)]> (actpreEnergy s)
          else actpreEnergy s)
    /\ burstEnergy s' = <[rank p := u64 (eb + readEnergy)]> (burstEnergy s).
Proof.
  intros Hty Hb He Heb Hout.
  apply bank_at_Ok in Hb.
  unfold issue, pushWriteData, applyCommand.
  rewrite decide_False by (destruct Hty as [-> | ->]; intros [?|?]; discriminate).
  replace (match busPacketType p with
           | READ | READ_P => issueRead p s
           | WRITE | WRITE_P => issueWrite p s
           | ACTIVATE => issueActivate p s
           | PRECHARGE => issuePrecharge p s
           | REFRESH => issueRefresh p s
           | DATA => Abort BadPoppedCommand
           end) with (issueRead p s)
    by (destruct Hty as [-> | ->]; reflexivity).
  unfold issueRead. simpl. rewrite Hb. simpl.
  destruct (isSmartMRAM && bool_decide (lastCommand b = ACTIVATE)); simpl;
    unfold add_energy, update_at;
    repeat (simpl; first [rewrite He | rewrite Heb | rewrite Hout]);
    eexists; (split; [reflexivity|]); simpl; done.
Qed.

(** A WRITE or WRITE_P never touches [actpreEnergy], whatever the last
    command of its bank. *)
Lemma issue_write_actpreEnergy (p : BusPacket) (s : MemoryController)
    (b : BankState) (eb : Z) :
  busPacketType p = WRITE \/ busPacketType p = WRITE_P ->
  lookup_bank (rank p) (bank p) (bankStates s) = Some b ->
  burstEnergy s !! rank p = Some eb ->
  outgoingCmdPacket s = None ->
  exists s',
    issue p s = Ok s'
    /\ actpreEnergy s' = actpreEnergy s
    /\ burstEnergy s' = <[rank p := u64 (eb + writeEnergy)]> (burstEnergy s)
    /\ writeDataToSend s' = writeDataToSend s ++ [dataPacket p]
    /\ writeDataCountdown s' = writeDataCountdown s ++ [WL].
Proof.
  intros Hty Hb Heb Hout.
  apply bank_at_Ok in Hb.
  unfold issue, pushWriteData, applyCommand.
  rewrite decide_True by done.
  replace (match busPacketType p with
           | READ | READ_P => _
           | WRITE | WRITE_P => issueWrite p _
           | ACTIVATE => _
           | PRECHARGE => _
           | REFRESH => _
           | DATA => _
           end)
    with (issueWrite p
            (set_writeDataCountdown (writeDataCountdown s ++ [WL])
               (set_writeDataToSend (writeDataToSend s ++ [dataPacket p]) s)))
    by (destruct Hty as [-> | ->]; reflexivity).
  unfold issueWrite. simpl. rewrite Hb. simpl.
  unfold add_energy, update_at. simpl. rewrite Heb. simpl.
  rewrite Hout. eexists. split; [reflexivity|]. simpl. done.
Qed.

(** C1: with [isSmartMRAM = true] the ACTIVATE charges no activation
    energy and the first READ or READ_P after it does
    ([issue_read_actpreEnergy]); but a WRITE or WRITE_P issued to a bank
    whose last command is ACTIVATE leaves [actpreEnergy] unchanged, so
    the activation energy of a row that is first written is not charged
    at all, against the comments of the ACTIVATE case (moved to
    Read/Write) and of the READ case (first access after ACTIVATE). *)
Theorem smart_write_after_activate_pays_nothing (p : BusPacket)
    (s : MemoryController) (b : BankState) (eb : Z) :
  isSmartMRAM = true ->
  busPacketType p = WRITE \/ busPacketType p = WRITE_P ->
  lookup_bank (rank p) (bank p) (bankStates s) = Some b ->
  lastCommand b = ACTIVATE ->
  burstEnergy s !! rank p = Some eb ->
  outgoingCmdPacket s = None ->
  exists s', issue p s = Ok s' /\ actpreEnergy s' = actpreEnergy s.
Proof.
  intros _ Hty Hb _ Heb Hout.
  destruct (issue_write_actpreEnergy p s b eb Hty Hb Heb Hout)
    as (s' & Hs' & He & _).
  eauto.
Qed.

End Sensing.

(** The sibling path: on the concrete SMART system, ACTIVATE in cycle 0
    charges nothing and the READ of cycle 1 charges the activation energy. *)
Lemma smart_read_after_activate_pays :
  let start :=
    fresh true noCallbacks [(0, cmd ACTIVATE 0 0 7); (1, cmd READ 0 0 7)]%nat in
  observe (@cycles (ddr3 true) scripted 1 start) actpreEnergy = Some [0; 0]
  /\ observe (@cycles (ddr3 true) scripted 2 start) actpreEnergy
     = Some [@actEnergy (ddr3 true); 0]
  /\ @actEnergy (ddr3 true) = (110 * 34 - (45 * 24 + 42 * (34 - 24))) * 8.
Proof. repeat split; vm_compute; reflexivity. Qed.


(** C4, as stated, fails: on the concrete conventional system an ACTIVATE
    and a WRITE to bank 0 and an ACTIVATE to bank 1 of rank 0 are issued
    in cycles 0, 10 and 11.  The WRITE leaves [nextRead = 28] and
    [nextWrite = 14] on bank 1; the ACTIVATE of cycle 11 raises
    [nextWrite] to [11 + tRCD = 21] and keeps [nextRead = 28]: the two
    guards differ. *)
Lemma conventional_activate_guards_differ :
  let start :=
    fresh false noCallbacks
      [(0, cmd ACTIVATE 0 0 7); (10, cmd WRITE 0 0 7); (11, cmd ACTIVATE 0 1 3)]%nat in
  exists b',
    observe (@cycles (ddr3 false) scripted 11 start)
      (fun s => (currentClockCycle s,
                 fst (@cq_pop scripted (bankStates s) (commandQueue s))))
    = Some (11, Some (cmd ACTIVATE 0 1 3))
    /\ observe (s ← @cycles (ddr3 false) scripted 11 start;
                @update (ddr3 false) scripted s)
         (fun s' => lookup_bank 0 1 (bankStates s'))
       = Some (Some b')
    /\ lastCommand b' = ACTIVATE
    /\ nextRead b' = 28
    /\ nextWrite b' = 21
    /\ nextRead b' ≠ nextWrite b'.
Proof.
  exists (Build_BankState RowActive 3 28 21 45 35 0 ACTIVATE 0).
  split; [vm_compute; reflexivity|].
  split; [vm_compute; reflexivity|].
  repeat split; discriminate.
Qed.

(** ** What each block of [update] leaves alone *)

Section Frames.

Context {cfg : Config} {env : Collaborators}.

Lemma bind_Ok {A B} (m : Outcome A) (f : A -> Outcome B) (b : B) :
  m ≫= f = Ok b <-> exists a, m = Ok a /\ f a = Ok b.
Proof.
  destruct m as [a|e]; simpl; split.
  - eauto.
  - by intros (a' & [= <-] & ?).
  - discriminate.
  - by intros (a' & [=] & _).
Qed.

Ltac outcome_inv :=
  repeat match goal with
    | H : _ ≫= _ = Ok _ |- _ =>
        let a := fresh "s" in
        let Ha := fresh "H" in
        apply bind_Ok in H; destruct H as (a & Ha & H)
    | H : Ok _ = Ok _ |- _ => injection H as H; subst
    | H : Abort _ = Ok _ |- _ => discriminate H
    | H : at_index _ _ = Ok _ |- _ => apply at_index_Ok in H
    | H : update_at _ _ _ = Ok _ |- _ =>
        let x := fresh "x" in
        let Hx := fresh "H" in
        apply update_at_Ok in H; destruct H as (x & Hx & ->)
    | H : context [match ?x with _ => _ end] |- _ => destruct x eqn:?; simpl in H
    | |- context [match ?x with _ => _ end] => destruct x eqn:?; simpl
    end.

Lemma updateBankStates_frame s :
  returnView (updateBankStates s) = returnView s
  /\ refreshView (updateBankStates s) = refreshView s
  /\ fifoView (updateBankStates s) = fifoView s
  /\ energyView (updateBankStates s) = energyView s
  /\ transactionQueue (updateBankStates s) = transactionQueue s
  /\ callbacks (updateBankStates s) = callbacks s.
Proof. repeat split. Qed.

Lemma advanceCmdPacket_frame s s' :
  advanceCmdPacket s = Ok s' ->
  returnView s' = returnView s
  /\ refreshView s' = refreshView s
  /\ fifoView s' = fifoView s
  /\ energyView s' = energyView s
  /\ transactionQueue s' = transactionQueue s
  /\ callbacks s' = callbacks s.
Proof. unfold advanceCmdPacket. intros H. outcome_inv; repeat split. Qed.

Lemma advanceDataPacket_frame s s' :
  advanceDataPacket s = Ok s' ->
  returnView s' = returnView s
  /\ refreshView s' = refreshView s
  /\ fifoView s' = fifoView s
  /\ energyView s' = energyView s
  /\ transactionQueue s' = transactionQueue s
  /\ exists calls,
       callbacks s' = callbacks s ++ calls
       /\ Forall (fun c => exists i a t, c = WriteDataDoneCall i a t) calls.
Proof.
  unfold advanceDataPacket, writeDataDone. intros H.
  outcome_inv; simpl; repeat split;
    first [ by exists []; rewrite app_nil_r
          | eexists; split; [reflexivity|]; repeat constructor; eauto ].
Qed.

Lemma drainWriteData_frame s s' :
  drainWriteData s = Ok s' ->
  returnView s' = returnView s
  /\ refreshView s' = refreshView s
  /\ energyView s' = energyView s
  /\ transactionQueue s' = transactionQueue s
  /\ callbacks s' = callbacks s.
Proof. unfold drainWriteData. intros H. outcome_inv; repeat split. Qed.

Lemma refreshGate_frame s s' :
  refreshGate s = Ok s' ->
  returnView s' = returnView s
  /\ fifoView s' = fifoView s
  /\ energyView s' = energyView s
  /\ transactionQueue s' = transactionQueue s
  /\ callbacks s' = callbacks s.
Proof.
  unfold refreshGate. intros H. outcome_inv; simpl in *; repeat split.
Qed.

Lemma actEnergy_range : 0 <= actEnergy < 2 ^ 32.
Proof. apply u32_range. Qed.
Lemma readEnergy_range : 0 <= readEnergy < 2 ^ 32.
Proof. apply u32_range. Qed.
Lemma writeEnergy_range : 0 <= writeEnergy < 2 ^ 32.
Proof. apply u32_range. Qed.
Lemma refEnergy_range : 0 <= refEnergy < 2 ^ 32.
Proof. apply u32_range. Qed.
Lemma backgroundCurrent_range o pd : 0 <= backgroundCurrent o pd < 2 ^ 32.
Proof. unfold backgroundCurrent. destruct o, pd; apply u32_range. Qed.

Ltac bumped_tac :=
  first
    [ left; reflexivity
    | right; do 3 eexists; split; [eassumption|]; split; [|reflexivity];
      first [ apply actEnergy_range | apply readEnergy_range
            | apply writeEnergy_range | apply refEnergy_range ] ].

Lemma applyCommand_frame p s s' :
  applyCommand p s = Ok s' ->
  returnView s' = returnView s
  /\ refreshView s' = refreshView s
  /\ fifoView s' = fifoView s
  /\ transactionQueue s' = transactionQueue s
  /\ callbacks s' = callbacks s
  /\ outgoingCmdPacket s' = outgoingCmdPacket s
  /\ backgroundEnergy s' = backgroundEnergy s
  /\ bumped (burstEnergy s) (burstEnergy s')
  /\ bumped (actpreEnergy s) (actpreEnergy s')
  /\ bumped (refreshEnergy s) (refreshEnergy s').
Proof.
  unfold applyCommand, issueRead, issueWrite, issueActivate, issuePrecharge,
    issueRefresh, add_energy.
  intros H.
  destruct (busPacketType p); simpl in H; outcome_inv; simpl in *;
    repeat (split; [try reflexivity; try bumped_tac|]);
    try reflexivity; try bumped_tac.
Qed.

Lemma issue_frame p s s' :
  issue p s = Ok s' ->
  returnView s' = returnView s
  /\ refreshView s' = refreshView s
  /\ transactionQueue s' = transactionQueue s
  /\ callbacks s' = callbacks s
  /\ backgroundEnergy s' = backgroundEnergy s
  /\ bumped (burstEnergy s) (burstEnergy s')
  /\ bumped (actpreEnergy s) (actpreEnergy s')
  /\ bumped (refreshEnergy s) (refreshEnergy s')
  /\ fifoView s' = fifoView (pushWriteData p s).
Proof.
  unfold issue. intros H.
  apply bind_Ok in H. destruct H as (s1 & H1 & H).
  apply applyCommand_frame in H1.
  destruct H1 as (Hr & Hf & Hq & Ht & Hc & _ & Hb & Hbu & Ha & Hre).
  destruct (outgoingCmdPacket s1); [discriminate|]. injection H as <-.
  unfold pushWriteData in *.
  destruct (decide _); simpl in *; repeat split; assumption.
Qed.

Lemma issueCommand_frame s s' :
  issueCommand s = Ok s' ->
  returnView s' = returnView s
  /\ refreshView s' = refreshView s
  /\ transactionQueue s' = transactionQueue s
  /\ callbacks s' = callbacks s
  /\ backgroundEnergy s' = backgroundEnergy s
  /\ bumped (burstEnergy s) (burstEnergy s')
  /\ bumped (actpreEnergy s) (actpreEnergy s')
  /\ bumped (refreshEnergy s) (refreshEnergy s').
Proof.
  unfold issueCommand. intros H.
  destruct (cq_pop _ _) as [[p|] cq].
  - apply issue_frame in H. simpl in H. tauto.
  - injection H as <-. simpl. repeat split; by left.
Qed.

Lemma firstAdmissible_length cq q t q' :
  firstAdmissible cq q = Some (t, q') -> length q = S (length q').
Proof.
  revert t q'. induction q as [|x q IH]; intros t q' H; simpl in H; [done|].
  destruct (cq_hasRoomFor _ _ _ _).
  - injection H as <- <-. reflexivity.
  - destruct (firstAdmissible cq q) as [[t' q'']|]; [|done].
    injection H as <- <-. simpl. f_equal. eauto.
Qed.

Lemma scheduleTransaction_frame s s' :
  scheduleTransaction s = Ok s' ->
  returnView s' = returnView s
  /\ refreshView s' = refreshView s
  /\ fifoView s' = fifoView s
  /\ energyView s' = energyView s
  /\ callbacks s' = callbacks s
  /\ (length (transactionQueue s') <= length (transactionQueue s))%nat.
Proof.
  unfold scheduleTransaction. intros H.
  destruct (firstAdmissible _ _) as [[t q]|] eqn:Hfirst.
  - apply firstAdmissible_length in Hfirst.
    outcome_inv; simpl; repeat split; lia.
  - injection H as <-. repeat split; lia.
Qed.

Lemma foldl_powerRank_Abort e l : foldl powerRank (Abort e) l = Abort e.
Proof. induction l as [|i l IH]; simpl; [done|]. exact IH. Qed.

Lemma powerRank_frame i s s' :
  powerRank (Ok s) i = Ok s' ->
  returnView s' = returnView s
  /\ refreshView s' = refreshView s
  /\ fifoView s' = fifoView s
  /\ transactionQueue s' = transactionQueue s
  /\ callbacks s' = callbacks s
  /\ burstEnergy s' = burstEnergy s
  /\ actpreEnergy s' = actpreEnergy s
  /\ refreshEnergy s' = refreshEnergy s
  /\ exists v x,
       backgroundEnergy s !! i = Some v
       /\ 0 <= x < 2 ^ 32
       /\ backgroundEnergy s' = <[i := u64 (v + x)]> (backgroundEnergy s).
Proof.
  unfold powerRank, lowPower, add_energy. simpl. intros H.
  outcome_inv; simpl in *; repeat (split; [reflexivity|]);
    do 2 eexists; (split; [eassumption|]);
    (split; [apply backgroundCurrent_range|reflexivity]).
Qed.

Lemma calculatePower_steps n k s s' :
  foldl powerRank (Ok s) (seq k n) = Ok s' ->
  returnView s' = returnView s
  /\ refreshView s' = refreshView s
  /\ fifoView s' = fifoView s
  /\ transactionQueue s' = transactionQueue s
  /\ callbacks s' = callbacks s
  /\ burstEnergy s' = burstEnergy s
  /\ actpreEnergy s' = actpreEnergy s
  /\ refreshEnergy s' = refreshEnergy s
  /\ length (backgroundEnergy s') = length (backgroundEnergy s)
  /\ forall j v,
       backgroundEnergy s !! j = Some v ->
       (((j < k)%nat \/ (k + n <= j)%nat) -> backgroundEnergy s' !! j = Some v)
       /\ ((k <= j < k + n)%nat ->
           exists x, 0 <= x < 2 ^ 32
                     /\ backgroundEnergy s' !! j = Some (u64 (v + x))).
Proof.
  revert k s. induction n as [|n IH]; intros k s H.
  - simpl in H. injection H as <-. repeat (split; [reflexivity|]).
    intros j v Hv. split; [done|lia].
  - change (foldl powerRank (powerRank (Ok s) k) (seq (S k) n) = Ok s') in H.
    destruct (powerRank (Ok s) k) as [s1|e] eqn:H1;
      [|by rewrite foldl_powerRank_Abort in H].
    apply powerRank_frame in H1.
    destruct H1 as (R1 & R2 & R3 & R4 & R5 & R6 & R7 & R8 & v0 & x0 & Hv0 & Hx0 & Hbe).
    apply IH in H.
    destruct H as (Q1 & Q2 & Q3 & Q4 & Q5 & Q6 & Q7 & Q8 & Hlen & Hsteps).
    repeat (split; [congruence|]).
    split; [by rewrite Hlen, Hbe, length_insert|].
    intros j v Hv. destruct (decide (j = k)) as [->|Hne].
    + assert (Hk : backgroundEnergy s1 !! k = Some (u64 (v0 + x0))).
      { rewrite Hbe. apply list_lookup_insert_eq. by eapply lookup_lt_Some. }
      destruct (Hsteps k _ Hk) as [Hsame _].
      split; [lia|]. intros _. exists x0. split; [done|].
      rewrite Hsame by lia. congruence.
    + assert (Hj : backgroundEnergy s1 !! j = Some v)
        by (by rewrite Hbe, list_lookup_insert_ne).
      destruct (Hsteps j _ Hj) as [Hsame Hstep].
      split; [intros; apply Hsame; lia|intros; apply Hstep; lia].
Qed.

Lemma returnPath_frame s s' :
  returnPath s = Ok s' ->
  refreshView s' = refreshView s
  /\ fifoView s' = fifoView s
  /\ energyView s' = energyView s
  /\ transactionQueue s' = transactionQueue s
  /\ currentClockCycle s' = currentClockCycle s
  /\ parentMemorySystem s' = parentMemorySystem s
  /\ returnTransaction s' = tail (returnTransaction s)
  /\ exists calls,
       callbacks s' = callbacks s ++ calls
       /\ (length calls <= 1)%nat
       /\ (returnTransaction s = [] -> calls = []).
Proof.
  unfold returnPath, insertHistogram, returnReadData. intros H.
  outcome_inv; simpl in *; repeat (split; [done|]);
    first [ exists []; rewrite app_nil_r; repeat split; simpl; lia
          | eexists; split; [reflexivity|]; split; [simpl; lia|done] ].
Qed.

End Frames.

(** ** The whole of [update] *)

Section Update.

Context {cfg : Config} {env : Collaborators}.

Lemma update_Ok s s' :
  update s = Ok s' <->
  exists a b c d e f g h,
    advanceCmdPacket (updateBankStates s) = Ok a
    /\ advanceDataPacket a = Ok b
    /\ drainWriteData b = Ok c
    /\ refreshGate c = Ok d
    /\ issueCommand d = Ok e
    /\ scheduleTransaction e = Ok f
    /\ calculatePower f = Ok g
    /\ returnPath g = Ok h
    /\ s' = stepCommandQueue (decrementRefresh h).
Proof.
  unfold update, beforeReturn. split.
  - intros H. repeat (apply bind_Ok in H; destruct H as (? & ? & H)).
    repeat match goal with
      | H : _ ≫= _ = Ok _ |- _ => apply bind_Ok in H; destruct H as (? & ? & H)
      end.
    injection H as <-. do 8 eexists. repeat (split; [eassumption|]). reflexivity.
  - intros (a & b & c & d & e & f & g & h & Ha & Hb & Hc & Hd & He & Hf & Hg & Hh & ->).
    rewrite Ha. simpl. rewrite Hb. simpl. rewrite Hc. simpl. rewrite Hd. simpl.
    rewrite He. simpl. rewrite Hf. simpl. rewrite Hg. simpl. rewrite Hh. reflexivity.
Qed.

Lemma beforeReturn_Ok s g :
  beforeReturn s = Ok g <->
  exists a b c d e f,
    advanceCmdPacket (updateBankStates s) = Ok a
    /\ advanceDataPacket a = Ok b
    /\ drainWriteData b = Ok c
    /\ refreshGate c = Ok d
    /\ issueCommand d = Ok e
    /\ scheduleTransaction e = Ok f
    /\ calculatePower f = Ok g.
Proof.
  unfold beforeReturn. split.
  - intros H.
    repeat match goal with
      | H : _ ≫= _ = Ok _ |- _ => apply bind_Ok in H; destruct H as (? & ? & H)
      end.
    do 6 eexists. repeat (split; [eassumption|]). assumption.
  - intros (a & b & c & d & e & f & Ha & Hb & Hc & Hd & He & Hf & Hg).
    rewrite Ha. simpl. rewrite Hb. simpl. rewrite Hc. simpl. rewrite Hd. simpl.
    rewrite He. simpl. rewrite Hf. simpl. exact Hg.
Qed.

(** Before it reaches the return path, [update] leaves the return queue,
    the clock and the callbacks' owner alone, and calls no
    [ReturnReadData]. *)
Lemma beforeReturn_frame s g :
  beforeReturn s = Ok g ->
  returnView g = returnView s
  /\ exists calls,
       callbacks g = callbacks s ++ calls
       /\ Forall (fun c => exists i a t, c = WriteDataDoneCall i a t) calls.
Proof.
  intros (a & b & c & d & e & f & Ha & Hb & Hc & Hd & He & Hf & Hg)%beforeReturn_Ok.
  destruct (updateBankStates_frame s) as (U1 & _ & _ & _ & _ & U6).
  apply advanceCmdPacket_frame in Ha. destruct Ha as (A1 & _ & _ & _ & _ & A6).
  apply advanceDataPacket_frame in Hb.
  destruct Hb as (B1 & _ & _ & _ & _ & calls & B6 & Hcalls).
  apply drainWriteData_frame in Hc. destruct Hc as (C1 & _ & _ & _ & C6).
  apply refreshGate_frame in Hd. destruct Hd as (D1 & _ & _ & _ & D6).
  apply issueCommand_frame in He. destruct He as (E1 & _ & _ & E6 & _).
  apply scheduleTransaction_frame in Hf. destruct Hf as (F1 & _ & _ & _ & F6 & _).
  apply calculatePower_steps in Hg. destruct Hg as (G1 & _ & _ & _ & G6 & _).
  split; [congruence|].
  exists calls. split; [congruence|done].
Qed.

End Update.

Section ReturnPath.

Context {cfg : Config} {env : Collaborators}.



Lemma filter_WriteDataDone calls :
  Forall (fun c => exists i a t, c = WriteDataDoneCall i a t) calls ->
  filter isReturnReadData calls = [].
Proof.
  induction 1 as [|c calls (i & a & t & ->) _ IH]; [done|].
  rewrite filter_cons. simpl. exact IH.
Qed.

(** C10: one call of [update] delivers at most one read return.  It
    removes the head of [returnTransaction] and nothing else, so every
    other queued return is still queued afterwards, and among the
    callbacks it fires at most one is a [ReturnReadData]. *)
Theorem one_return_per_update (s s' : MemoryController) :
  update s = Ok s' ->
  returnTransaction s' = tail (returnTransaction s)
  /\ exists calls,
       callbacks s' = callbacks s ++ calls
       /\ (length (filter isReturnReadData calls) <= 1)%nat
       /\ (returnTransaction s = [] -> filter isReturnReadData calls = []).
Proof.
  unfold update. intros H.
  apply bind_Ok in H. destruct H as (g & Hg & H).
  apply bind_Ok in H. destruct H as (h & Hh & H). injection H as <-.
  apply beforeReturn_frame in Hg.
  destruct Hg as (Hview & calls1 & Hc1 & Hw).
  apply returnPath_frame in Hh.
  destruct Hh as (_ & _ & _ & _ & _ & _ & Hret & calls2 & Hc2 & Hlen & Hnil).
  injection Hview as Hrt _ _ _ _ _.
  simpl. split; [congruence|].
  exists (calls1 ++ calls2). split; [by rewrite Hc2, Hc1, app_assoc|].
  rewrite filter_app, (filter_WriteDataDone calls1) by done. simpl.
  split.
  - etrans; [apply length_filter|done].
  - intros Hempty. rewrite Hnil by congruence. done.
Qed.


End ReturnPath.

Section Energy.

Context {cfg : Config} {env : Collaborators}.

Lemma bumped_le old new :
  headroom old -> bumped old new -> Forall2 Z.le old new.
Proof.
  intros Hroom [-> | (r & v & x & Hv & Hx & ->)].
  - apply Forall2_same_length_lookup. split; [done|].
    intros i a b Ha Hb. assert (a = b) by congruence. lia.
  - apply Forall2_same_length_lookup. split; [by rewrite length_insert|].
    intros i a b Ha Hb. destruct (decide (i = r)) as [->|Hne].
    + rewrite list_lookup_insert_eq in Hb by (by eapply lookup_lt_Some).
      injection Hb as <-. assert (a = v) as -> by congruence.
      unfold headroom in Hroom. rewrite Forall_lookup in Hroom.
      specialize (Hroom _ _ Hv). rewrite u64_add_u32; lia.
    + rewrite list_lookup_insert_ne in Hb by done.
      assert (a = b) by congruence. lia.
Qed.

Lemma update_energy s s' :
  update s = Ok s' ->
  bumped (burstEnergy s) (burstEnergy s')
  /\ bumped (actpreEnergy s) (actpreEnergy s')
  /\ bumped (refreshEnergy s) (refreshEnergy s')
  /\ length (backgroundEnergy s') = length (backgroundEnergy s)
  /\ forall j v,
       backgroundEnergy s !! j = Some v ->
       backgroundEnergy s' !! j = Some v
       \/ exists x, 0 <= x < 2 ^ 32
                    /\ backgroundEnergy s' !! j = Some (u64 (v + x)).
Proof.
  intros (a & b & c & d & e & f & g & h & Ha & Hb & Hc & Hd & He & Hf & Hg & Hh & ->)%update_Ok.
  destruct (updateBankStates_frame s) as (_ & _ & _ & U & _).
  apply advanceCmdPacket_frame in Ha. destruct Ha as (_ & _ & _ & A & _).
  apply advanceDataPacket_frame in Hb. destruct Hb as (_ & _ & _ & B & _).
  apply drainWriteData_frame in Hc. destruct Hc as (_ & _ & C & _).
  apply refreshGate_frame in Hd. destruct Hd as (_ & _ & D & _).
  apply issueCommand_frame in He.
  destruct He as (_ & _ & _ & _ & Ebg & Ebu & Eact & Eref).
  apply scheduleTransaction_frame in Hf. destruct Hf as (_ & _ & _ & F & _).
  apply calculatePower_steps in Hg.
  destruct Hg as (_ & _ & _ & _ & _ & Gbu & Gact & Gref & Glen & Gbg).
  apply returnPath_frame in Hh. destruct Hh as (_ & _ & H & _).
  assert (Hd : energyView d = energyView s) by congruence.
  assert (Hf : energyView f = energyView e) by congruence.
  injection Hd as Hd1 Hd2 Hd3 Hd4. injection Hf as Hf1 Hf2 Hf3 Hf4.
  injection H as H1 H2 H3 H4. simpl.
  rewrite H1, H2, H3, H4, Gbu, Gact, Gref, Hf2, Hf3, Hf4, <- Hd1, <- Hd2, <- Hd3, <- Hd4.
  repeat (split; [assumption|]).
  split; [congruence|].
  intros j v Hv. rewrite <- Ebg, <- Hf1 in Hv.
  destruct (Gbg j v Hv) as [Hsame Hstep].
  destruct (decide (j < NUM_RANKS)%nat).
  - right. apply Hstep. lia.
  - left. apply Hsame. lia.
Qed.

(** C9 (amended): [update] never decreases an entry of
    [backgroundEnergy], [burstEnergy], [actpreEnergy] or [refreshEnergy]
    (as long as the 64-bit accumulator has room for one more [unsigned]
    amount), and [addTransaction], [receiveFromBus] and the clock step
    leave them unchanged; the statistics dump [printStats] resets all
    four to zero, so the counters grow within an epoch only. *)
Theorem energy_grows_until_reset :
  (forall s s' : MemoryController,
     update s = Ok s' ->
     (headroom (backgroundEnergy s) ->
        Forall2 Z.le (backgroundEnergy s) (backgroundEnergy s'))
     /\ (headroom (burstEnergy s) ->
           Forall2 Z.le (burstEnergy s) (burstEnergy s'))
     /\ (headroom (actpreEnergy s) ->
           Forall2 Z.le (actpreEnergy s) (actpreEnergy s'))
     /\ (headroom (refreshEnergy s) ->
           Forall2 Z.le (refreshEnergy s) (refreshEnergy s')))
  /\ (forall (s : MemoryController) (trans : Transaction),
        energyView (snd (addTransaction trans s)) = energyView s)
  /\ (forall (s s' : MemoryController) (bpacket : BusPacket),
        receiveFromBus bpacket s = Ok s' -> energyView s' = energyView s)
  /\ (forall s : MemoryController, energyView (step s) = energyView s)
  /\ (forall s : MemoryController,
        energyView (printStats s)
        = (zeroes (backgroundEnergy s), zeroes (burstEnergy s),
           zeroes (actpreEnergy s), zeroes (refreshEnergy s))).
Proof.
  split; [|split; [|split; [|split]]].
  - intros s s' (Hbu & Hact & Href & Hlen & Hbg)%update_energy.
    split; [|auto using bumped_le].
    intros Hroom. apply Forall2_same_length_lookup. split; [done|].
    intros j v v' Hv Hv'. unfold headroom in Hroom.
    rewrite Forall_lookup in Hroom. specialize (Hroom _ _ Hv).
    destruct (Hbg j v Hv) as [Hsame | (x & Hx & Hnew)].
    + assert (v' = v) by congruence. lia.
    + assert (v' = u64 (v + x)) as -> by congruence.
      rewrite u64_add_u32; lia.
  - intros s trans. unfold addTransaction.
    by destruct (WillAcceptTransaction s).
  - intros s s' bpacket H. unfold receiveFromBus in H.
    destruct (decide _); [done|].
    apply bind_Ok in H. destruct H as (c & _ & [= <-]). reflexivity.
  - reflexivity.
  - reflexivity.
Qed.

End Energy.

(** C9, as stated, fails: on the concrete conventional system one cycle
    leaves [backgroundEnergy = [336; 336]], and the statistics dump that
    follows puts it back to [[0; 0]]. *)
Lemma printStats_decreases_energy :
  let start := fresh false noCallbacks [] in
  observe (@run (ddr3 false) scripted [CallUpdate; CallStep] start)
    backgroundEnergy = Some [336; 336]
  /\ observe (@run (ddr3 false) scripted [CallUpdate; CallStep; CallPrintStats] start)
       backgroundEnergy = Some [0; 0]
  /\ ~ Forall2 Z.le [336; 336] [0; 0].
Proof.
  split; [vm_compute; reflexivity|].
  split; [vm_compute; reflexivity|].
  intros H. apply Forall2_cons_1 in H. lia.
Qed.

Section Intake.

Context {cfg : Config} {env : Collaborators}.




End Intake.

Section WriteData.

Context {cfg : Config} {env : Collaborators}.

Lemma issueCommand_fifo s s' :
  issueCommand s = Ok s' ->
  fifoView s' = fifoView s
  \/ exists p,
       (busPacketType p = WRITE \/ busPacketType p = WRITE_P)
       /\ fst (cq_pop (bankStates s) (commandQueue s)) = Some p
       /\ writeDataCountdown s' = writeDataCountdown s ++ [WL]
       /\ writeDataToSend s' = writeDataToSend s ++ [dataPacket p].
Proof.
  unfold issueCommand. intros H.
  destruct (cq_pop _ _) as [[p|] cq]; simpl.
  - apply issue_frame in H.
    destruct H as (_ & _ & _ & _ & _ & _ & _ & _ & Hfifo).
    unfold pushWriteData in Hfifo. destruct (decide _) as [Hw|Hw].
    + right. exists p. injection Hfifo as H1 H2. simpl in *. auto.
    + left. exact Hfifo.
  - injection H as <-. by left.
Qed.

(** C8: a WRITE or WRITE_P that is issued appends its DATA twin (a
    packet of type DATA with the address, column, row, rank, bank and
    data of the command) to [writeDataToSend] and the countdown [WL] to
    [writeDataCountdown].  The drain block of [update] decrements every
    countdown; when the head is then zero it puts the head packet on the
    data bus with [dataCyclesLeft = BL/2] and erases the head of both
    vectors, or aborts when the bus already holds a packet.  Every
    [update] runs the drain on the FIFO it starts with, and only a write
    issued in the same [update] adds to it afterwards. *)
Theorem write_data_fifo :
  (forall (p : BusPacket) (s : MemoryController) (b : BankState) (eb : Z),
     busPacketType p = WRITE \/ busPacketType p = WRITE_P ->
     lookup_bank (rank p) (bank p) (bankStates s) = Some b ->
     burstEnergy s !! rank p = Some eb ->
     outgoingCmdPacket s = None ->
     exists s',
       issue p s = Ok s'
       /\ writeDataToSend s'
          = writeDataToSend s
            ++ [Build_BusPacket DATA (physicalAddress p) (column p) (row p)
                  (rank p) (bank p) (data p)]
       /\ writeDataCountdown s' = writeDataCountdown s ++ [WL])
  /\ (forall (s : MemoryController) (c : Z) (cs : list Z),
        writeDataCountdown s = c :: cs ->
        u32 (c - 1) ≠ 0 ->
        drainWriteData s
        = Ok (set_writeDataCountdown
                (map (fun c => u32 (c - 1)) (writeDataCountdown s)) s))
  /\ (forall (s : MemoryController) (c : Z) (cs : list Z) (p : BusPacket)
             (ps : list BusPacket) (n : Z),
        writeDataCountdown s = c :: cs ->
        u32 (c - 1) = 0 ->
        writeDataToSend s = p :: ps ->
        outgoingDataPacket s = None ->
        totalWritesPerBank s !! SEQUENTIAL (rank p) (bank p) = Some n ->
        exists s',
          drainWriteData s = Ok s'
          /\ outgoingDataPacket s' = Some p
          /\ dataCyclesLeft s' = BL / 2
          /\ writeDataCountdown s' = map (fun c => u32 (c - 1)) cs
          /\ writeDataToSend s' = ps)
  /\ (forall (s : MemoryController) (c : Z) (cs : list Z) (q : BusPacket),
        writeDataCountdown s = c :: cs ->
        u32 (c - 1) = 0 ->
        outgoingDataPacket s = Some q ->
        drainWriteData s = Abort DataBusCollision)
  /\ (forall s s' : MemoryController,
        update s = Ok s' ->
        exists b c,
          fifoView b = fifoView s
          /\ drainWriteData b = Ok c
          /\ (fifoView s' = fifoView c
              \/ exists p,
                   (busPacketType p = WRITE \/ busPacketType p = WRITE_P)
                   /\ writeDataCountdown s' = writeDataCountdown c ++ [WL]
                   /\ writeDataToSend s'
                      = writeDataToSend c
                        ++ [Build_BusPacket DATA (physicalAddress p) (column p)
                              (row p) (rank p) (bank p) (data p)])).
Proof.
  split; [|split; [|split; [|split]]].
  - intros p s b eb Hty Hb Heb Hout.
    destruct (issue_write_actpreEnergy p s b eb Hty Hb Heb Hout)
      as (s' & Hs' & _ & _ & Hsend & Hcount).
    exists s'. split; [exact Hs'|]. split; [exact Hsend|exact Hcount].
  - intros s c cs Hc Hne. unfold drainWriteData. rewrite Hc. simpl.
    destruct (u32 (c - 1)) eqn:Hu; [done|reflexivity|reflexivity].
  - intros s c cs p ps n Hc Hzero Hsend Hout Hn.
    unfold drainWriteData. rewrite Hc. simpl. rewrite Hzero, Hout, Hsend.
    unfold update_at. simpl. rewrite Hn. simpl.
    eexists. split; [reflexivity|]. simpl. done.
  - intros s c cs q Hc Hzero Hout.
    unfold drainWriteData. rewrite Hc. simpl. rewrite Hzero, Hout. reflexivity.
  - intros s s'
      (a & b & c & d & e & f & g & h & Ha & Hb & Hc & Hd & He & Hf & Hg & Hh & ->)%update_Ok.
    exists b, c.
    destruct (updateBankStates_frame s) as (_ & _ & U & _).
    apply advanceCmdPacket_frame in Ha. destruct Ha as (_ & _ & A & _).
    apply advanceDataPacket_frame in Hb. destruct Hb as (_ & _ & B & _).
    apply refreshGate_frame in Hd. destruct Hd as (_ & D & _).
    apply issueCommand_fifo in He.
    apply scheduleTransaction_frame in Hf. destruct Hf as (_ & _ & F & _).
    apply calculatePower_steps in Hg. destruct Hg as (_ & _ & G & _).
    apply returnPath_frame in Hh. destruct Hh as (_ & H & _).
    split; [congruence|]. split; [assumption|].
    assert (Hlast : fifoView (stepCommandQueue (decrementRefresh h)) = fifoView e)
      by (transitivity (fifoView h); [reflexivity|congruence]).
    destruct He as [E | (p & Hty & _ & E1 & E2)].
    + left. simpl in *. congruence.
    + right. exists p. injection Hlast as L1 L2. injection D as D1 D2.
      unfold dataPacket in E2.
      simpl in *. split; [assumption|]. split; congruence.
Qed.

End WriteData.

Section Refresh.

Context {cfg : Config} {env : Collaborators}.

Lemma refreshGate_view s s' :
  refreshGate s = Ok s' -> refreshView s' = gateView (refreshView s).
Proof.
  unfold refreshGate, gateView, refreshView, nextRefreshRank. simpl. intros H.
  apply bind_Ok in H. destruct H as (c & Hc & H). apply at_index_Ok in Hc.
  rewrite Hc. destruct (c =? 0) eqn:Hz.
  - apply Z.eqb_eq in Hz. subst c.
    apply bind_Ok in H. destruct H as (rs & _ & H). injection H as <-.
    simpl. by destruct (decide _).
  - apply Z.eqb_neq in Hz.
    apply bind_Ok in H. destruct H as (pd & _ & H).
    assert (Hsame : refreshRank s' = refreshRank s
                    /\ refreshCountdown s' = refreshCountdown s).
    { destruct (pd && (c <=? tXP)).
      - apply bind_Ok in H. destruct H as (rs & _ & H). by injection H as <-.
      - by injection H as <-. }
    destruct Hsame as [-> ->]. by destruct c.
Qed.

Lemma update_refreshView s s' :
  update s = Ok s' -> refreshView s' = tickView (refreshView s).
Proof.
  intros (a & b & c & d & e & f & g & h & Ha & Hb & Hc & Hd & He & Hf & Hg & Hh & ->)%update_Ok.
  destruct (updateBankStates_frame s) as (_ & U & _).
  apply advanceCmdPacket_frame in Ha. destruct Ha as (_ & A & _).
  apply advanceDataPacket_frame in Hb. destruct Hb as (_ & B & _).
  apply drainWriteData_frame in Hc. destruct Hc as (_ & C & _).
  apply refreshGate_view in Hd.
  apply issueCommand_frame in He. destruct He as (_ & E & _).
  apply scheduleTransaction_frame in Hf. destruct Hf as (_ & F & _).
  apply calculatePower_steps in Hg. destruct Hg as (_ & G & _).
  apply returnPath_frame in Hh. destruct Hh as (H & _).
  assert (Hh : refreshView h = gateView (refreshView s)) by congruence.
  unfold tickView. rewrite <- Hh. reflexivity.
Qed.

Lemma call_refreshView c s s' :
  call c s = Ok s' ->
  refreshView s' = refreshView s \/ refreshView s' = tickView (refreshView s).
Proof.
  destruct c as [trans| | |bpacket|]; simpl; intros H.
  - injection H as <-. left. unfold addTransaction.
    by destruct (WillAcceptTransaction s).
  - right. by apply update_refreshView.
  - injection H as <-. by left.
  - left. unfold receiveFromBus in H. destruct (decide _); [done|].
    apply bind_Ok in H. destruct H as (x & _ & [= <-]). done.
  - injection H as <-. by left.
Qed.

Hypothesis period_fits : 0 < REFRESH_PERIOD_tCK < 2 ^ 32.
Hypothesis stagger_fits :
  0 < REFRESH_STAGGER
  /\ Z.of_nat NUM_RANKS * REFRESH_STAGGER <= REFRESH_PERIOD_tCK.
Hypothesis some_rank : (0 < NUM_RANKS)%nat.

Lemma stagger_le_period : REFRESH_STAGGER <= REFRESH_PERIOD_tCK.
Proof. destruct stagger_fits. nia. Qed.

Lemma rotated_head r l x :
  l !! r = Some x -> rotated r l = x :: (drop (S r) l ++ take r l).
Proof. intros H. unfold rotated. by rewrite (drop_S _ _ _ H). Qed.

Lemma rotated_fire r l x y :
  l !! r = Some x ->
  length l = NUM_RANKS ->
  rotated (nextRefreshRank r) (<[r := y]> l)
  = (drop (S r) l ++ take r l) ++ [y].
Proof.
  intros Hx Hlen. pose proof (lookup_lt_Some _ _ _ Hx) as Hr.
  unfold rotated, nextRefreshRank. destruct (decide (S r = NUM_RANKS)) as [HS|HS].
  - rewrite drop_0, take_0, app_nil_r.
    rewrite insert_take_drop by done.
    rewrite (drop_ge l (S r)) by lia. done.
  - rewrite drop_insert_lt by lia.
    rewrite (take_S_r _ _ y) by (apply list_lookup_insert_eq; lia).
    rewrite take_insert_ge by lia. by rewrite app_assoc.
Qed.

Lemma rotated_map f r l : rotated r (map f l) = map f (rotated r l).
Proof.
  unfold rotated. change (map f) with (fmap (M:=list) f).
  by rewrite fmap_app, fmap_drop, fmap_take.
Qed.

Lemma head_Forall {A} (Q : A -> Prop) (l : list A) (x : A) :
  Forall Q l -> head l = Some x -> Q x.
Proof. destruct 1; simpl; [done|]. by intros [= <-]. Qed.

(** After its head, a staggered list holds no value below the stagger. *)
Lemma apart_tail x l :
  StronglySorted apart (x :: l) -> 0 <= x ->
  Forall (fun y => REFRESH_STAGGER <= y) l.
Proof.
  intros [_ Hx]%StronglySorted_inv Hpos.
  eapply Forall_impl; [exact Hx|]. unfold apart. simpl. intros; lia.
Qed.

Lemma staggered_decrement l :
  staggered l ->
  (forall x, head l = Some x -> 0 < x) ->
  staggered (map (fun c => u32 (c - 1)) l).
Proof.
  intros (Hsorted & Hrange & Hspan) Hhead.
  destruct stagger_fits as [Hg _].
  assert (Hpos : Forall (fun x => 0 < x <= REFRESH_PERIOD_tCK) l).
  { destruct l as [|x l]; [constructor|].
    specialize (Hhead x eq_refl).
    pose proof (apart_tail _ _ Hsorted ltac:(lia)) as Htail.
    apply Forall_cons in Hrange. destruct Hrange as [Hx Hrange].
    constructor; [lia|].
    rewrite Forall_forall in Htail, Hrange. apply Forall_forall.
    intros y Hy. specialize (Htail y Hy). specialize (Hrange y Hy). lia. }
  assert (Hmap : map (fun c => u32 (c - 1)) l = (fun c => c - 1) <$> l).
  { clear -Hpos period_fits. induction Hpos as [|x l Hx _ IH]; [done|].
    simpl. rewrite IH. f_equal. apply u32_small. lia. }
  rewrite Hmap. split; [|split].
  - eapply StronglySorted_fmap; [|exact Hsorted]. unfold apart. intros; lia.
  - apply Forall_fmap. eapply Forall_impl; [exact Hpos|]. simpl. intros; lia.
  - intros x Hx. destruct l as [|x0 l]; [done|]. simpl in Hx. injection Hx as <-.
    specialize (Hspan x0 eq_refl).
    apply Forall_fmap. eapply Forall_impl; [exact Hspan|]. simpl. intros; lia.
Qed.

Lemma tickView_inv v : refresh_inv v -> refresh_inv (tickView v).
Proof.
  destruct v as [r l]. unfold refresh_inv, tickView, gateView. simpl.
  intros (Hr & Hlen & Hst).
  destruct stagger_fits as [Hg _]. pose proof stagger_le_period as Hgp.
  destruct (lookup_lt_is_Some_2 l r Hr) as [x Hx]. rewrite Hx.
  pose proof Hst as (Hsorted & Hrange & Hspan).
  rewrite (rotated_head _ _ _ Hx) in Hsorted, Hrange, Hspan.
  pose proof Hrange as Hrange'.
  apply Forall_cons in Hrange'. destruct Hrange' as [Hx0 Htailrange].
  assert (Hquiet : x ≠ 0 ->
            (r < length (map (fun c => u32 (c - 1)) l))%nat
            /\ length (map (fun c => u32 (c - 1)) l) = NUM_RANKS
            /\ staggered (rotated r (map (fun c => u32 (c - 1)) l))).
  { intros Hne. rewrite length_map. split; [done|]. split; [done|].
    rewrite rotated_map. apply staggered_decrement; [done|].
    rewrite (rotated_head _ _ _ Hx). simpl. intros ? [= <-]. lia. }
  destruct x as [|x|x]; [|apply Hquiet; lia|lia].
  simpl. rewrite length_map, length_insert.
  split; [unfold nextRefreshRank; destruct (decide _); lia|]. split; [done|].
  rewrite rotated_map, (rotated_fire _ _ _ _ Hx Hlen).
  pose proof (apart_tail _ _ Hsorted ltac:(lia)) as Hbig.
  specialize (Hspan 0 eq_refl).
  apply Forall_cons in Hspan. destruct Hspan as [_ Hspan].
  apply StronglySorted_inv in Hsorted. destruct Hsorted as [Hsorted _].
  assert (Hall : Forall (fun y => REFRESH_STAGGER <= y)
                   ((drop (S r) l ++ take r l) ++ [REFRESH_PERIOD_tCK])).
  { apply Forall_app. split; [exact Hbig|]. repeat constructor. lia. }
  apply staggered_decrement.
  - split; [|split].
    + apply StronglySorted_app. split; [|split; [done|repeat constructor]].
      intros x1 x2 Hx1 ->%list_elem_of_singleton.
      rewrite Forall_forall in Hspan. specialize (Hspan x1 Hx1).
      unfold apart. lia.
    + apply Forall_app. split; [done|]. repeat constructor; lia.
    + intros h Hh. pose proof (head_Forall _ _ _ Hall Hh) as Hhg. simpl in Hhg.
      apply Forall_app. split.
      * eapply Forall_impl; [exact Hspan|]. simpl. intros; lia.
      * repeat constructor. lia.
  - intros y Hy. pose proof (head_Forall _ _ _ Hall Hy) as Hyg. simpl in Hyg. lia.
Qed.

(** A countdown below the stagger (zero, for one) belongs to
    [refreshRank]. *)
Lemma refresh_inv_due r l j c :
  refresh_inv (r, l) -> l !! j = Some c -> c < REFRESH_STAGGER -> j = r.
Proof.
  unfold refresh_inv. simpl. intros (Hr & _ & Hsorted & Hrange & _) Hj Hc.
  destruct (lookup_lt_is_Some_2 l r Hr) as [x Hx].
  rewrite (rotated_head _ _ _ Hx) in Hsorted, Hrange.
  apply Forall_cons in Hrange. destruct Hrange as [Hx0 _].
  pose proof (apart_tail _ _ Hsorted ltac:(lia)) as Hbig.
  destruct (decide (j = r)) as [|Hne]; [done|]. exfalso.
  assert (Hin : c ∈ drop (S r) l ++ take r l).
  { apply elem_of_app. destruct (decide (j < r)%nat).
    - right. apply list_elem_of_lookup. exists j. by rewrite lookup_take_lt.
    - left. apply list_elem_of_lookup. exists (j - S r)%nat.
      rewrite lookup_drop. by replace (S r + (j - S r))%nat with j by lia. }
  rewrite Forall_forall in Hbig. specialize (Hbig c Hin). lia.
Qed.

Lemma StronglySorted_weaken {A} (R1 R2 : A -> A -> Prop) (l : list A) :
  (forall x y, R1 x y -> R2 x y) -> StronglySorted R1 l -> StronglySorted R2 l.
Proof.
  intros HR. induction 1 as [|x l _ IH Hx]; constructor; [done|].
  eapply Forall_impl; [exact Hx|]. auto.
Qed.

Lemma seq_sorted k n :
  StronglySorted (fun i j : nat => (i < j < k + n)%nat) (seq k n).
Proof.
  revert k. induction n as [|n IH]; intros k; simpl; constructor.
  - eapply StronglySorted_weaken; [|apply IH]. simpl. intros; lia.
  - apply Forall_forall. intros j Hj. apply elem_of_seq in Hj. lia.
Qed.

Lemma constructor_refresh_inv parent cq rks :
  refresh_inv (refreshView (MemoryController_new parent cq rks)).
Proof.
  unfold refresh_inv, refreshView. simpl.
  rewrite length_map, length_seq. split; [done|]. split; [done|].
  unfold rotated. rewrite drop_0, take_0, app_nil_r.
  destruct stagger_fits as [Hg Hfit].
  assert (Hsmall : forall i : nat, (i < NUM_RANKS)%nat ->
            u32 (REFRESH_STAGGER * (Z.of_nat i + 1))
            = REFRESH_STAGGER * (Z.of_nat i + 1)
            /\ 0 < REFRESH_STAGGER * (Z.of_nat i + 1) <= REFRESH_PERIOD_tCK).
  { intros i Hi.
    assert (0 < REFRESH_STAGGER * (Z.of_nat i + 1) <= REFRESH_PERIOD_tCK) by nia.
    split; [apply u32_small; lia|done]. }
  change (map ?f ?l) with (f <$> l). split; [|split].
  - eapply StronglySorted_fmap; [|apply (seq_sorted 0 NUM_RANKS)].
    simpl. intros i j Hij. unfold apart.
    destruct (Hsmall i) as [-> _]; [lia|]. destruct (Hsmall j) as [-> _]; [lia|].
    nia.
  - apply Forall_fmap, Forall_forall. intros i Hi. apply elem_of_seq in Hi.
    simpl. destruct (Hsmall i) as [-> ?]; lia.
  - intros x Hx. destruct NUM_RANKS as [|n] eqn:Hn; [lia|]. simpl in Hx.
    destruct (Hsmall 0%nat) as [H0 ?]; [lia|]. rewrite H0 in Hx.
    injection Hx as <-.
    apply Forall_fmap, Forall_forall. intros i Hi. apply elem_of_seq in Hi.
    simpl. destruct (Hsmall i) as [-> ?]; [lia|]. lia.
Qed.

Lemma run_refresh_inv cs s s' :
  refresh_inv (refreshView s) -> run cs s = Ok s' -> refresh_inv (refreshView s').
Proof.
  revert s. induction cs as [|c cs IH]; intros s Hinv H; simpl in H.
  - by injection H as <-.
  - apply bind_Ok in H. destruct H as (s1 & H1 & H).
    eapply IH; [|exact H].
    destruct (call_refreshView _ _ _ H1) as [-> | ->]; [done|].
    by apply tickView_inv.
Qed.

End Refresh.

Section RefreshGate.

Context {cfg : Config} {env : Collaborators}.


End RefreshGate.


(** ** The theorems at concrete inputs *)

Lemma write_after_activate_example :
  exists s',
    @issue (ddr3 true) scripted (cmd WRITE 0 0 7) (opened true) = Ok s'
    /\ actpreEnergy s' = [0; 0].
Proof.
  apply (@smart_write_after_activate_pays_nothing (ddr3 true) scripted
           (cmd WRITE 0 0 7) (opened true)
           (Build_BankState RowActive 7 0 0 0 0 0 ACTIVATE 0) 0).
  - reflexivity.
  - left. reflexivity.
  - reflexivity.
  - reflexivity.
  - reflexivity.
  - reflexivity.
Defined.

Lemma smart_activate_example :
  exists s' b',
    @issue (ddr3 true) scripted (cmd ACTIVATE 0 1 3) (opened true) = Ok s'
    /\ lookup_bank 0 1 (bankStates s') = Some b'
    /\ currentBankState b' = RowActive
    /\ openRowAddress b' = 3
    /\ 0 + 4 <= nextActivate b'
    /\ nextPrecharge b' = 0
    /\ nextRead b' = 0
    /\ nextWrite b' = 0.
Proof.
  destruct (@smart_activate_timing (ddr3 true) scripted
              (cmd ACTIVATE 0 1 3) (opened true)
              (Build_BankState Idle 0 0 0 0 0 0 READ 0))
    as (s' & b' & Hs' & Hb' & Hst & Hrow & _ & Hact & Hpre & _ & _ & Hrd & Hwr & _).
  - reflexivity.
  - constructor; by vm_compute.
  - reflexivity.
  - reflexivity.
  - reflexivity.
  - by vm_compute.
  - by vm_compute.
  - exists s', b'. repeat split; try assumption.
    + apply Hrd. by vm_compute.
    + apply Hwr. by vm_compute.
Defined.

Lemma conventional_activate_example :
  exists s' b',
    @issue (ddr3 false) scripted (cmd ACTIVATE 0 1 3) (opened false) = Ok s'
    /\ actpreEnergy s' !! 0%nat = Some 17920
    /\ lookup_bank 0 1 (bankStates s') = Some b'
    /\ 0 + 34 <= nextActivate b'
    /\ 0 + 24 <= nextPrecharge b'
    /\ 0 + (10 - 0) <= nextRead b'
    /\ 0 + (10 - 0) <= nextWrite b'.
Proof.
  destruct (@conventional_activate_timing (ddr3 false) scripted
              (cmd ACTIVATE 0 1 3) (opened false)
              (Build_BankState Idle 0 0 0 0 0 0 READ 0) 0)
    as (s' & b' & Hs' & He & Hb' & _ & Hact & _ & Hpre & _ & Hrd & _ & Hwr).
  - reflexivity.
  - constructor; by vm_compute.
  - by vm_compute.
  - reflexivity.
  - reflexivity.
  - reflexivity.
  - reflexivity.
  - by vm_compute.
  - by vm_compute.
  - exists s', b'. repeat split; assumption.
Defined.




Lemma write_data_example :
  (exists s',
     @issue (ddr3 false) scripted burst (opened false) = Ok s'
     /\ writeDataToSend s' = [Build_BusPacket DATA 57349 5 7 0 0 99]
     /\ writeDataCountdown s' = [9])
  /\ (exists s',
        @drainWriteData (ddr3 false) scripted draining = Ok s'
        /\ outgoingDataPacket s' = Some (Build_BusPacket DATA 57344 0 7 0 0 0)
        /\ dataCyclesLeft s' = 4
        /\ writeDataCountdown s' = [4]
        /\ writeDataToSend s' = [Build_BusPacket DATA 25600 0 3 0 1 0]).
Proof.
  destruct (@write_data_fifo (ddr3 false) scripted) as (Hpush & _ & Hsend & _).
  split.
  - destruct (Hpush burst (opened false)
                (Build_BankState RowActive 7 0 0 0 0 0 ACTIVATE 0) 0)
      as (s' & Hs' & H1 & H2).
    + left. reflexivity.
    + reflexivity.
    + reflexivity.
    + reflexivity.
    + exists s'. split; [exact Hs'|]. split; [exact H1|exact H2].
  - destruct (Hsend draining 1 [5] (Build_BusPacket DATA 57344 0 7 0 0 0)
                [Build_BusPacket DATA 25600 0 3 0 1 0] 0)
      as (s' & Hs' & H1 & H2 & H3 & H4).
    + reflexivity.
    + reflexivity.
    + reflexivity.
    + reflexivity.
    + reflexivity.
    + exists s'. repeat split; assumption.
Defined.

Lemma energy_example :
  let start := fresh false noCallbacks [(0%nat, cmd ACTIVATE 0 0 7)] in
  holds (@update (ddr3 false) scripted start)
    (fun s' =>
       Forall2 Z.le (backgroundEnergy start) (backgroundEnergy s')
       /\ Forall2 Z.le (actpreEnergy start) (actpreEnergy s')
       /\ energyView (@printStats scripted s') = ([0; 0], [0; 0], [0; 0], [0; 0])).
Proof.
  intros start.
  destruct (@energy_grows_until_reset (ddr3 false) scripted)
    as (Hupdate & _ & _ & _ & Hreset).
  assert (Hobs : observe (@update (ddr3 false) scripted start) actpreEnergy
                 = Some [17920; 0])
    by (vm_compute; reflexivity).
  unfold holds.
  destruct (@update (ddr3 false) scripted start) as [s'|e] eqn:Hs';
    [|discriminate Hobs].
  destruct (Hupdate start s' Hs') as (Hbg & _ & Hact & _).
  pose proof (Forall2_length _ _ _ (Hbg ltac:(repeat constructor; by vm_compute))) as L1.
  pose proof (Forall2_length _ _ _ (Hact ltac:(repeat constructor; by vm_compute))) as L2.
  split; [|split].
  - apply Hbg. repeat constructor; by vm_compute.
  - apply Hact. repeat constructor; by vm_compute.
  - rewrite Hreset.
    pose proof (update_energy _ _ Hs') as (Hbu & _ & Href & _).
    assert (Hlen : forall old new : list Z, bumped old new -> length new = length old).
    { intros ? ? [-> | (? & ? & ? & _ & _ & ->)]; [done|by rewrite length_insert]. }
    apply Hlen in Hbu, Href. unfold zeroes.
    destruct (backgroundEnergy s') as [|? [|? [|]]]; try discriminate L1.
    destruct (actpreEnergy s') as [|? [|? [|]]]; try discriminate L2.
    destruct (burstEnergy s') as [|? [|? [|]]]; try discriminate Hbu.
    destruct (refreshEnergy s') as [|? [|? [|]]]; try discriminate Href.
    reflexivity.
Defined.

Lemma one_return_example :
  holds (@update (ddr3 false) scripted returning)
    (fun s' =>
       returnTransaction s' = []
       /\ exists calls,
            callbacks s' = callbacks returning ++ calls
            /\ (length (filter isReturnReadData calls) <= 1)%nat).
Proof.
  assert (Hobs : observe (@update (ddr3 false) scripted returning) callbacks
                 = Some [ReturnReadDataCall 0 8192 40])
    by (vm_compute; reflexivity).
  unfold holds.
  destruct (@update (ddr3 false) scripted returning) as [s'|e] eqn:Hs';
    [|discriminate Hobs].
  destruct (@one_return_per_update (ddr3 false) scripted returning s' Hs')
    as (Hret & calls & Hcalls & Hone & _).
  split; [exact Hret|]. exists calls. split; assumption.
Defined.

(** * Further properties of the controller *)

(** ** What a command does to each bank *)

Section CommandEffects.

Context {cfg : Config} {env : Collaborators}.

Lemma lookup_bank_alter_bank_any f r b i j bs :
  lookup_bank i j (alter_bank f r b bs)
  = (fun x => if bool_decide (i = r /\ j = b) then f x else x)
    <$> lookup_bank i j bs.
Proof.
  case_bool_decide as H.
  - destruct H as [-> ->]. apply lookup_bank_alter_bank.
  - rewrite lookup_bank_alter_bank_ne.
    + by destruct (lookup_bank i j bs).
    + destruct (decide (r = i)) as [->|]; [|by left].
      right. intros ->. by apply H.
Qed.

Lemma issue_inv p s s' :
  issue p s = Ok s' ->
  exists s1,
    applyCommand p (pushWriteData p s) = Ok s1
    /\ outgoingCmdPacket s1 = None
    /\ s' = set_cmdCyclesLeft tCMD (set_outgoingCmdPacket (Some p) s1).
Proof.
  unfold issue. intros H. apply bind_Ok in H. destruct H as (s1 & H1 & H).
  exists s1. destruct (outgoingCmdPacket s1); [discriminate|].
  injection H as <-. done.
Qed.

Lemma pushWriteData_bankStates p s :
  bankStates (pushWriteData p s) = bankStates s
  /\ currentClockCycle (pushWriteData p s) = currentClockCycle s.
Proof. unfold pushWriteData. by destruct (decide _). Qed.

Lemma issueRead_banks p s s' i j :
  issueRead p s = Ok s' ->
  (busPacketType p = READ_P \/ busPacketType p ≠ READ_P) ->
  lookup_bank i j (bankStates s')
  = readEffect p (currentClockCycle s) i j <$> lookup_bank i j (bankStates s).
Proof.
  intros Hrd _. unfold issueRead in Hrd.
  apply bind_Ok in Hrd. destruct Hrd as (b0 & _ & Hrd).
  apply bind_Ok in Hrd. destruct Hrd as (s2 & H2 & Hrd).
  apply bind_Ok in Hrd. destruct Hrd as (e & _ & Hrd). injection Hrd as <-.
  assert (Hbs : bankStates s2 = bankStates s).
  { destruct (_ && _); simpl in H2.
    - apply bind_Ok in H2. destruct H2 as (e' & _ & H2). by injection H2 as <-.
    - by injection H2 as <-. }
  simpl. rewrite Hbs. unfold readEffect.
  destruct (decide (busPacketType p = READ_P)) as [Hp|Hp].
  - rewrite lookup_bank_alter_bank_any, lookup_bank_imap, lookup_bank_alter_bank_any.
    rewrite (bool_decide_eq_true_2 _ Hp), andb_true_r.
    destruct (lookup_bank i j (bankStates s)) as [b|]; simpl; [|done].
    by destruct (bool_decide (i = rank p /\ j = bank p)).
  - rewrite lookup_bank_imap, lookup_bank_alter_bank_any.
    rewrite (bool_decide_eq_false_2 _ Hp), andb_false_r.
    destruct (lookup_bank i j (bankStates s)) as [b|]; simpl; [|done].
    by destruct (bool_decide (i = rank p /\ j = bank p)).
Qed.

Lemma issueWrite_banks p s s' i j :
  issueWrite p s = Ok s' ->
  lookup_bank i j (bankStates s')
  = writeEffect p (currentClockCycle s) i j <$> lookup_bank i j (bankStates s).
Proof.
  intros Hwr. unfold issueWrite in Hwr.
  apply bind_Ok in Hwr. destruct Hwr as (b0 & _ & Hwr).
  apply bind_Ok in Hwr. destruct Hwr as (e & _ & Hwr). injection Hwr as <-.
  simpl. unfold writeEffect.
  destruct (decide (busPacketType p = WRITE_P)) as [Hp|Hp].
  - rewrite lookup_bank_alter_bank_any, lookup_bank_imap, lookup_bank_alter_bank_any.
    rewrite (bool_decide_eq_true_2 _ Hp), andb_true_r.
    destruct (lookup_bank i j (bankStates s)) as [b|]; simpl; [|done].
    by destruct (bool_decide (i = rank p /\ j = bank p)).
  - rewrite lookup_bank_imap, lookup_bank_alter_bank_any.
    rewrite (bool_decide_eq_false_2 _ Hp), andb_false_r.
    destruct (lookup_bank i j (bankStates s)) as [b|]; simpl; [|done].
    by destruct (bool_decide (i = rank p /\ j = bank p)).
Qed.

Lemma issueActivate_banks p s s' i j :
  issueActivate p s = Ok s' ->
  lookup_bank i j (bankStates s')
  = activateEffect p (currentClockCycle s) i j <$> lookup_bank i j (bankStates s).
Proof.
  intros H. unfold issueActivate in H.
  apply bind_Ok in H. destruct H as (s2 & H2 & H).
  apply bind_Ok in H. destruct H as (b0 & _ & H). injection H as <-.
  assert (Hbs : bankStates s2 = bankStates s).
  { destruct (negb _); simpl in H2.
    - apply bind_Ok in H2. destruct H2 as (e' & _ & H2). by injection H2 as <-.
    - by injection H2 as <-. }
  simpl. rewrite Hbs.
  change (alter _ (rank p) (alter_bank _ (rank p) (bank p) (bankStates s)))
    with (activated p (currentClockCycle s) (bankStates s)).
  unfold activateEffect.
  destruct (decide (i = rank p)) as [->|Hi].
  - destruct (decide (j = bank p)) as [->|Hj].
    + apply lookup_activated_same.
    + by apply lookup_activated_other.
  - unfold activated. rewrite lookup_bank_alter_row_ne by done.
    rewrite lookup_bank_alter_bank_ne by (left; done).
    by destruct (lookup_bank i j (bankStates s)).
Qed.

Lemma issuePrecharge_banks p s s' i j :
  issuePrecharge p s = Ok s' ->
  lookup_bank i j (bankStates s')
  = prechargeEffect p (currentClockCycle s) i j <$> lookup_bank i j (bankStates s).
Proof.
  intros H. unfold issuePrecharge in H.
  apply bind_Ok in H. destruct H as (b0 & _ & H). injection H as <-.
  simpl. unfold prechargeEffect.
  destruct isSmartMRAM; rewrite lookup_bank_alter_bank_any;
    destruct (lookup_bank i j (bankStates s)) as [b|]; simpl; try done;
    by destruct (bool_decide (i = rank p /\ j = bank p)).
Qed.

Lemma issueRefresh_banks p s s' i j :
  issueRefresh p s = Ok s' ->
  lookup_bank i j (bankStates s')
  = refreshEffect p (currentClockCycle s) i <$> lookup_bank i j (bankStates s).
Proof.
  intros H. unfold issueRefresh in H.
  apply bind_Ok in H. destruct H as (e & _ & H).
  apply bind_Ok in H. destruct H as (bs & Hbs & H). injection H as <-.
  simpl in *. apply update_at_alter in Hbs. subst bs.
  unfold refreshEffect. destruct (decide (i = rank p)) as [->|Hi].
  - rewrite lookup_bank_alter_row. unfold lookup_bank.
    destruct (bankStates s !! rank p) as [rowv|]; simpl; [|done].
    change (map ?f rowv) with (f <$> rowv). by rewrite list_lookup_fmap.
  - rewrite lookup_bank_alter_row_ne by done.
    by destruct (lookup_bank i j (bankStates s)).
Qed.

(** Every bank after a command, read off the command. *)
Lemma issue_bank p s s' i j :
  issue p s = Ok s' ->
  lookup_bank i j (bankStates s')
  = commandEffect p (currentClockCycle s) i j <$> lookup_bank i j (bankStates s).
Proof.
  intros H. apply issue_inv in H. destruct H as (s1 & H1 & _ & ->). simpl.
  destruct (pushWriteData_bankStates p s) as [Hb Hc]. rewrite <- Hb, <- Hc.
  unfold applyCommand, commandEffect in *.
  destruct (busPacketType p) eqn:Hty.
  - apply issueRead_banks; [done|]. right. congruence.
  - apply issueRead_banks; [done|]. by left.
  - by apply issueWrite_banks.
  - by apply issueWrite_banks.
  - by apply issueActivate_banks.
  - by apply issuePrecharge_banks.
  - by apply issueRefresh_banks.
  - discriminate.
Qed.

Lemma issue_clock p s s' :
  issue p s = Ok s' -> currentClockCycle s' = currentClockCycle s.
Proof. intros H. apply issue_frame in H. destruct H as (H & _). by injection H. Qed.

(** ** The countdown of one bank *)

Lemma countdown_pending (k : nat) (b : BankState) :
  Z.of_nat k < stateChangeCountdown b ->
  Nat.iter k bankCountdown b
  = set_stateChangeCountdown (stateChangeCountdown b - Z.of_nat k) b.
Proof.
  induction k as [|k IH]; intros Hk.
  - destruct b; unfold set_stateChangeCountdown; simpl. f_equal. lia.
  - rewrite Nat.iter_succ, IH by lia. unfold bankCountdown. simpl.
    destruct (0 <? _) eqn:Hpos; [|apply Z.ltb_ge in Hpos; lia].
    destruct (_ =? 0) eqn:Hz; [apply Z.eqb_eq in Hz; lia|].
    unfold set_stateChangeCountdown. simpl. f_equal. lia.
Qed.

Lemma countdown_last (n : Z) (b : BankState) :
  stateChangeCountdown b = n ->
  0 < n ->
  Nat.iter (Z.to_nat n) bankCountdown b
  = bankCountdown (set_stateChangeCountdown 1 b).
Proof.
  intros <- Hpos.
  replace (Z.to_nat (stateChangeCountdown b))
    with (S (Z.to_nat (stateChangeCountdown b - 1))) by lia.
  rewrite Nat.iter_succ, countdown_pending by lia.
  f_equal. unfold set_stateChangeCountdown. simpl. f_equal. lia.
Qed.

Lemma countdown_idle (k : nat) (b : BankState) :
  stateChangeCountdown b = 0 -> Nat.iter k bankCountdown b = b.
Proof.
  intros Hz. induction k as [|k IH]; [done|].
  rewrite Nat.iter_succ, IH. unfold bankCountdown. by rewrite Hz.
Qed.

End CommandEffects.

Section CommandTheorems.

Context {cfg : Config} {env : Collaborators}.

(** X1 (READ and READ_P, bus turnaround).  A read issued at cycle [now]
    raises the guards of every bank of its own rank to
    [nextRead >= now + max(tCCD, BL/2)] and
    [nextWrite >= now + READ_TO_WRITE_DELAY], each as the maximum with the
    previous value; on every other rank only the banks with an open row
    are touched, with [nextRead >= now + BL/2 + tRTRS] and the same
    [nextWrite] bound, and the other banks are left exactly as they
    were.  (The bank that a READ_P closes is the exception, its two
    guards being overwritten afterwards.) *)
Theorem read_guards (p : BusPacket) (s s' : MemoryController) (i j : nat)
    (b : BankState) :
  busPacketType p = READ \/ busPacketType p = READ_P ->
  issue p s = Ok s' ->
  lookup_bank i j (bankStates s) = Some b ->
  (busPacketType p = READ_P -> i ≠ rank p \/ j ≠ bank p) ->
  let now := currentClockCycle s in
  exists b',
    lookup_bank i j (bankStates s') = Some b'
    /\ (i = rank p ->
        nextRead b' = Z.max (u64 (now + Z.max tCCD (BL / 2))) (nextRead b)
        /\ nextWrite b' = Z.max (u64 (now + READ_TO_WRITE_DELAY)) (nextWrite b))
    /\ (i ≠ rank p -> currentBankState b = RowActive ->
        nextRead b' = Z.max (u64 (now + BL / 2 + tRTRS)) (nextRead b)
        /\ nextWrite b' = Z.max (u64 (now + READ_TO_WRITE_DELAY)) (nextWrite b))
    /\ (i ≠ rank p -> currentBankState b ≠ RowActive -> b' = b).
Proof.
  intros Hty H Hb Hown now.
  rewrite (issue_bank _ _ _ i j H), Hb. simpl. eexists. split; [reflexivity|].
  unfold commandEffect, readEffect. fold now.
  assert (Hcase : (bool_decide (i = rank p /\ j = bank p)
                   && bool_decide (busPacketType p = READ_P)) = false).
  { apply andb_false_iff. destruct (decide (busPacketType p = READ_P)) as [Hp|Hp].
    - left. apply bool_decide_eq_false_2. destruct (Hown Hp); tauto.
    - right. by apply bool_decide_eq_false_2. }
  destruct Hty as [Hty | Hty]; rewrite Hty in *; rewrite Hcase;
    destruct (bool_decide (i = rank p /\ j = bank p)) eqn:Hij;
    simpl in Hcase; try discriminate;
    destruct (decide (i ≠ rank p)) as [Hi|Hi]; simpl;
    repeat split; try tauto; intros;
    try (destruct (decide (currentBankState _ = RowActive)); simpl in *;
         try tauto; try reflexivity);
    try (apply bool_decide_eq_true_1 in Hij; tauto).
Qed.

(** X2 (WRITE and WRITE_P, bus turnaround).  A write issued at cycle
    [now] raises the guards of every bank of its own rank to
    [nextWrite >= now + max(BL/2, tCCD)] and
    [nextRead >= now + WRITE_TO_READ_DELAY_B], each as the maximum with
    the previous value; on every other rank only the banks with an open
    row are touched, with [nextWrite >= now + BL/2 + tRTRS] and
    [nextRead >= now + WRITE_TO_READ_DELAY_R], and the other banks are
    left exactly as they were.  The bank that a WRITE_P closes is the
    exception: its [nextActivate] is raised to
    [now + WRITE_AUTOPRE_DELAY] and both guards are then overwritten
    with it. *)
Theorem write_guards (p : BusPacket) (s s' : MemoryController) (i j : nat)
    (b : BankState) :
  busPacketType p = WRITE \/ busPacketType p = WRITE_P ->
  issue p s = Ok s' ->
  lookup_bank i j (bankStates s) = Some b ->
  let now := currentClockCycle s in
  let closes := busPacketType p = WRITE_P /\ i = rank p /\ j = bank p in
  exists b',
    lookup_bank i j (bankStates s') = Some b'
    /\ (i = rank p -> ~ closes ->
        nextWrite b' = Z.max (u64 (now + Z.max (BL / 2) tCCD)) (nextWrite b)
        /\ nextRead b' = Z.max (u64 (now + WRITE_TO_READ_DELAY_B)) (nextRead b))
    /\ (i ≠ rank p -> currentBankState b = RowActive ->
        nextWrite b' = Z.max (u64 (now + BL / 2 + tRTRS)) (nextWrite b)
        /\ nextRead b' = Z.max (u64 (now + WRITE_TO_READ_DELAY_R)) (nextRead b))
    /\ (i ≠ rank p -> currentBankState b ≠ RowActive -> b' = b)
    /\ (closes ->
        nextActivate b'
        = Z.max (u64 (now + WRITE_AUTOPRE_DELAY)) (nextActivate b)
        /\ nextWrite b' = nextActivate b'
        /\ nextRead b' = nextActivate b').
Proof.
  intros Hty H Hb now closes.
  rewrite (issue_bank _ _ _ i j H), Hb. simpl. eexists. split; [reflexivity|].
  unfold commandEffect, writeEffect. fold now.
  destruct (decide closes) as [(Hp & -> & ->) | Hno].
  - rewrite Hp. rewrite bool_decide_eq_true_2 by done. simpl.
    destruct (decide (rank p ≠ rank p)) as [Hne|_]; [done|]. simpl.
    split; [intros _ Hc; exfalso; apply Hc; by repeat split|].
    split; [done|]. split; [done|]. intros _. by repeat split.
  - assert (Hcase : (bool_decide (i = rank p /\ j = bank p)
                     && bool_decide (busPacketType p = WRITE_P)) = false).
    { apply andb_false_iff.
      destruct (decide (busPacketType p = WRITE_P)) as [Hp|Hp].
      - left. apply bool_decide_eq_false_2. intros [? ?]. apply Hno. by repeat split.
      - right. by apply bool_decide_eq_false_2. }
    destruct Hty as [Hty | Hty]; rewrite Hty in *; rewrite Hcase;
      destruct (bool_decide (i = rank p /\ j = bank p)) eqn:Hij;
      simpl in Hcase; try discriminate;
      destruct (decide (i ≠ rank p)) as [Hi|Hi]; simpl;
      repeat split; try tauto; intros;
      try (destruct (decide (currentBankState _ = RowActive)); simpl in *;
           try tauto; try reflexivity);
      try (apply bool_decide_eq_true_1 in Hij; tauto).
Qed.

(** X3 (auto-precharge, from issue to Idle).  A READ_P or WRITE_P leaves
    the state and the open row of its bank as they are, sets
    [nextActivate] to the maximum of [now + READ/WRITE_AUTOPRE_DELAY] and
    its previous value, and blocks reads and writes until then
    ([nextRead = nextWrite = nextActivate]).  When
    [READ/WRITE_TO_PRE_DELAY] is at least 1, the bank stays in its state
    for [READ/WRITE_TO_PRE_DELAY - 1] countdowns and the next one closes
    it: straight to Idle with SMART, to Precharging with
    [stateChangeCountdown = tRP] otherwise.  From Precharging the bank is
    Idle [tRP] countdowns later when [tRP] is at least 1; with [tRP = 0]
    no countdown changes it any more and it stays in Precharging.
    [nextActivate] is not touched on the way. *)
Theorem autoprecharge_lifecycle (p : BusPacket) (s s' : MemoryController)
    (b : BankState) :
  busPacketType p = READ_P \/ busPacketType p = WRITE_P ->
  issue p s = Ok s' ->
  lookup_bank (rank p) (bank p) (bankStates s) = Some b ->
  let now := currentClockCycle s in
  exists b',
    lookup_bank (rank p) (bank p) (bankStates s') = Some b'
    /\ currentBankState b' = currentBankState b
    /\ openRowAddress b' = openRowAddress b
    /\ nextActivate b'
       = Z.max (u64 (now + autopreDelay (busPacketType p))) (nextActivate b)
    /\ nextRead b' = nextActivate b'
    /\ nextWrite b' = nextActivate b'
    /\ (0 < toPreDelay (busPacketType p) ->
        (forall k : nat,
           Z.of_nat k < toPreDelay (busPacketType p) ->
           currentBankState (Nat.iter k bankCountdown b') = currentBankState b
           /\ lastCommand (Nat.iter k bankCountdown b') = busPacketType p)
        /\ let closed :=
             Nat.iter (Z.to_nat (toPreDelay (busPacketType p))) bankCountdown b'
           in
           lastCommand closed = PRECHARGE
           /\ nextActivate closed = nextActivate b'
           /\ (isSmartMRAM = true ->
               currentBankState closed = Idle /\ stateChangeCountdown closed = 0)
           /\ (isSmartMRAM = false ->
               currentBankState closed = Precharging
               /\ stateChangeCountdown closed = tRP
               /\ (0 < tRP ->
                   currentBankState
                     (Nat.iter (Z.to_nat tRP) bankCountdown closed) = Idle)
               /\ (tRP = 0 ->
                   forall k : nat, Nat.iter k bankCountdown closed = closed))).
Proof.
  intros Hty H Hb now.
  rewrite (issue_bank _ _ _ _ _ H), Hb. simpl. eexists. split; [reflexivity|].
  unfold commandEffect. fold now.
  assert (Hown : bool_decide (rank p = rank p /\ bank p = bank p) = true)
    by (by apply bool_decide_eq_true_2).
  set (b' := match busPacketType p with
             | READ | READ_P => readEffect p now (rank p) (bank p) b
             | WRITE | WRITE_P => writeEffect p now (rank p) (bank p) b
             | ACTIVATE => activateEffect p now (rank p) (bank p) b
             | PRECHARGE => prechargeEffect p now (rank p) (bank p) b
             | REFRESH => refreshEffect p now (rank p) b
             | DATA => b
             end).
  assert (Hb' : currentBankState b' = currentBankState b
                /\ openRowAddress b' = openRowAddress b
                /\ nextActivate b'
                   = Z.max (u64 (now + autopreDelay (busPacketType p)))
                       (nextActivate b)
                /\ nextRead b' = nextActivate b'
                /\ nextWrite b' = nextActivate b'
                /\ lastCommand b' = busPacketType p
                /\ stateChangeCountdown b' = toPreDelay (busPacketType p)).
  { subst b'. unfold readEffect, writeEffect.
    destruct Hty as [Hty | Hty]; rewrite Hty, Hown; simpl;
      destruct (decide (rank p ≠ rank p)); try done; simpl; done. }
  destruct Hb' as (Hst & Hrow & Hact & Hrd & Hwr & Hlast & Hcd).
  repeat (split; [assumption|]).
  intros Hpos. split.
  { intros k Hk. rewrite countdown_pending by lia. simpl. done. }
  rewrite (countdown_last _ b' Hcd Hpos).
  assert (Hfire :
    bankCountdown (set_stateChangeCountdown 1 b')
    = if isSmartMRAM then
        set_stateChangeCountdown 0
          (set_lastCommand PRECHARGE
             (set_currentBankState Idle (set_stateChangeCountdown 0 b')))
      else
        set_stateChangeCountdown tRP
          (set_lastCommand PRECHARGE
             (set_currentBankState Precharging (set_stateChangeCountdown 0 b')))).
  { unfold bankCountdown. simpl. rewrite Hlast.
    destruct Hty as [-> | ->]; reflexivity. }
  rewrite Hfire. clear Hfire.
  destruct isSmartMRAM; simpl.
  - repeat split; done.
  - split; [done|]. split; [done|]. split; [done|].
    intros _. split; [done|]. split; [done|]. split.
    + intros HtRP. by apply countdown_finished.
    + intros HtRP k. by apply countdown_idle.
Qed.

(** X4 (REFRESH).  A REFRESH adds [(IDD5 - IDD3N) * tRFC * NUM_DEVICES] to
    the refresh energy of its rank and puts every bank of the rank in
    Refreshing with [stateChangeCountdown = tRFC] and
    [nextActivate = now + tRFC] (assigned, not raised); the other guards
    and the open row are kept and the other ranks are not touched.  When
    [tRFC] is at least 1, a refreshing bank stays so for [tRFC - 1]
    countdowns and is Idle after the next. *)
Theorem refresh_command (p : BusPacket) (s s' : MemoryController) :
  busPacketType p = REFRESH ->
  issue p s = Ok s' ->
  let now := currentClockCycle s in
  (exists e,
     refreshEnergy s !! rank p = Some e
     /\ refreshEnergy s' = <[rank p := u64 (e + refEnergy)]> (refreshEnergy s))
  /\ forall (i j : nat) (b : BankState),
       lookup_bank i j (bankStates s) = Some b ->
       exists b',
         lookup_bank i j (bankStates s') = Some b'
         /\ (i ≠ rank p -> b' = b)
         /\ (i = rank p ->
             currentBankState b' = Refreshing
             /\ lastCommand b' = REFRESH
             /\ stateChangeCountdown b' = tRFC
             /\ nextActivate b' = u64 (now + tRFC)
             /\ (nextRead b', nextWrite b', nextPrecharge b', nextPowerUp b',
                 openRowAddress b')
                = (nextRead b, nextWrite b, nextPrecharge b, nextPowerUp b,
                   openRowAddress b)
             /\ (0 < tRFC ->
                 (forall k : nat,
                    Z.of_nat k < tRFC ->
                    currentBankState (Nat.iter k bankCountdown b') = Refreshing)
                 /\ currentBankState
                      (Nat.iter (Z.to_nat tRFC) bankCountdown b') = Idle)).
Proof.
  intros Hty H now. split.
  - apply issue_inv in H. destruct H as (s1 & H1 & _ & ->). simpl.
    unfold applyCommand in H1. rewrite Hty in H1. unfold issueRefresh in H1.
    apply bind_Ok in H1. destruct H1 as (e & He & H1).
    apply bind_Ok in H1. destruct H1 as (bs & _ & H1). injection H1 as <-.
    simpl. unfold add_energy in He. apply update_at_Ok in He.
    destruct He as (x & Hx & ->).
    unfold pushWriteData in *. rewrite decide_False in *
      by (rewrite Hty; intros [?|?]; discriminate).
    eauto.
  - intros i j b Hb.
    rewrite (issue_bank _ _ _ i j H), Hb. simpl. eexists. split; [reflexivity|].
    unfold commandEffect, refreshEffect. rewrite Hty. fold now.
    destruct (decide (i = rank p)) as [Hi|Hi]; split; try done.
    intros _. simpl. repeat (split; [done|]). intros Hpos. split.
    + intros k Hk. by rewrite countdown_pending by (simpl; lia).
    + rewrite (countdown_last tRFC) by done.
      unfold bankCountdown. simpl. reflexivity.
Qed.

(** X5 (locality of commands).  A command rewrites the state machine
    (state, open row, last command, countdown) of its own bank only, or
    of its own rank if it is a REFRESH.  On every other bank it leaves
    the state machine alone and can only raise guards; PRECHARGE changes
    no other bank at all, REFRESH and ACTIVATE no bank of another rank. *)
Theorem command_locality (p : BusPacket) (s s' : MemoryController) (i j : nat)
    (b : BankState) :
  issue p s = Ok s' ->
  lookup_bank i j (bankStates s) = Some b ->
  i ≠ rank p \/ (j ≠ bank p /\ busPacketType p ≠ REFRESH) ->
  exists b',
    lookup_bank i j (bankStates s') = Some b'
    /\ machine b' = machine b
    /\ guards_le b b'
    /\ (busPacketType p = PRECHARGE
        \/ (i ≠ rank p
            /\ (busPacketType p = ACTIVATE \/ busPacketType p = REFRESH)) ->
        b' = b).
Proof.
  intros H Hb Hother.
  rewrite (issue_bank _ _ _ i j H), Hb. simpl. eexists. split; [reflexivity|].
  assert (Hown : bool_decide (i = rank p /\ j = bank p) = false).
  { apply bool_decide_eq_false_2. tauto. }
  assert (Hty : busPacketType p ≠ DATA).
  { apply issue_inv in H. destruct H as (s1 & H1 & _).
    unfold applyCommand in H1. by destruct (busPacketType p). }
  unfold commandEffect, readEffect, writeEffect, activateEffect,
    prechargeEffect, refreshEffect, machine, guards_le,
    raise_nextRead, raise_nextWrite, raise_nextActivate.
  rewrite Hown. simpl.
  destruct (busPacketType p) eqn:Hp; try done;
    destruct (decide (i = rank p)) as [Hi|Hi];
    try destruct (decide (i ≠ rank p)); try tauto;
    try destruct (decide (j = bank p)); try tauto;
    try destruct (decide (currentBankState b = RowActive));
    simpl; repeat split; try lia; try reflexivity;
    try (intros [?|[_ [?|?]]]; done);
    try (intros [?|[? _]]; done).
Qed.

(** X6 (a countdown that never starts).  The countdown loop only looks
    at banks whose [stateChangeCountdown] is positive.  A conventional
    PRECHARGE sets it to [tRP]; with [tRP = 0] the bank is left in
    Precharging and no number of countdowns brings it to Idle. *)
Theorem precharge_needs_tRP (p : BusPacket) (s s' : MemoryController)
    (b' : BankState) (k : nat) :
  isSmartMRAM = false ->
  tRP = 0 ->
  busPacketType p = PRECHARGE ->
  issue p s = Ok s' ->
  lookup_bank (rank p) (bank p) (bankStates s') = Some b' ->
  Nat.iter k bankCountdown b' = b' /\ currentBankState b' = Precharging.
Proof.
  intros Hsm HtRP Hty H Hb'.
  rewrite (issue_bank _ _ _ _ _ H) in Hb'.
  destruct (lookup_bank _ _ (bankStates s)) as [b|]; [|discriminate].
  injection Hb' as <-.
  unfold commandEffect, prechargeEffect. rewrite Hty, Hsm.
  rewrite bool_decide_eq_true_2 by done.
  split; [|done]. apply countdown_idle. simpl. exact HtRP.
Qed.

(** X7 (what issuing a popped packet can do).  A DATA packet popped from
    the command queue stops the simulator.  Any other packet whose rank
    and bank are in the tables is applied, and then either the command
    bus is free and the packet is put on it for [tCMD] cycles, or it is
    not and the simulator stops with a command bus collision. *)
Theorem issue_outcome (p : BusPacket) (s : MemoryController) :
  (busPacketType p = DATA -> issue p s = Abort BadPoppedCommand)
  /\ (busPacketType p ≠ DATA ->
      is_Some (lookup_bank (rank p) (bank p) (bankStates s)) ->
      is_Some (burstEnergy s !! rank p) ->
      is_Some (actpreEnergy s !! rank p) ->
      is_Some (refreshEnergy s !! rank p) ->
      match outgoingCmdPacket s with
      | Some _ => issue p s = Abort CommandBusCollision
      | None =>
          exists s',
            issue p s = Ok s'
            /\ outgoingCmdPacket s' = Some p
            /\ cmdCyclesLeft s' = tCMD
      end).
Proof.
  split.
  - intros Hty. unfold issue, pushWriteData, applyCommand.
    rewrite Hty. reflexivity.
  - intros Hty [b Hb] [eb Heb] [ea Hea] [er Her].
    assert (Happ : exists s1,
               applyCommand p (pushWriteData p s) = Ok s1
               /\ outgoingCmdPacket s1 = outgoingCmdPacket s).
    { assert (Hrow : exists rowv, bankStates s !! rank p = Some rowv).
      { unfold lookup_bank in Hb. destruct (bankStates s !! rank p); eauto.
        discriminate. }
      destruct Hrow as [rowv Hrow].
      apply bank_at_Ok in Hb.
      unfold applyCommand, pushWriteData, issueRead, issueWrite,
        issueActivate, issuePrecharge, issueRefresh, add_energy, update_at.
      destruct (busPacketType p) eqn:Hp; try done;
        try rewrite decide_False by (intros [?|?]; discriminate);
        try rewrite decide_True by tauto;
        simpl; rewrite ?Hb; simpl;
        try destruct (isSmartMRAM); simpl;
        try destruct (bool_decide (lastCommand b = ACTIVATE)); simpl;
        rewrite ?Hea, ?Heb, ?Her, ?Hrow; simpl; rewrite ?Hb, ?Heb; simpl;
        eexists; split; reflexivity. }
    destruct Happ as (s1 & H1 & Hout).
    unfold issue. rewrite H1. simpl. rewrite Hout.
    destruct (outgoingCmdPacket s); [done|]. eauto.
Qed.

End CommandTheorems.

(** ** The blocks of [update], on the fields the properties above left out *)

Section MoreFrames.

Context {cfg : Config} {env : Collaborators}.

Ltac outcome_cases :=
  repeat match goal with
    | H : _ ≫= _ = Ok _ |- _ =>
        let a := fresh "s" in
        let Ha := fresh "H" in
        apply bind_Ok in H; destruct H as (a & Ha & H)
    | H : Ok _ = Ok _ |- _ => injection H as H; subst
    | H : Abort _ = Ok _ |- _ => discriminate H
    | H : at_index _ _ = Ok _ |- _ => apply at_index_Ok in H
    | H : update_at _ _ _ = Ok _ |- _ =>
        let x := fresh "x" in
        let Hx := fresh "H" in
        apply update_at_Ok in H; destruct H as (x & Hx & ->)
    | H : context [match ?x with _ => _ end] |- _ => destruct x eqn:?; simpl in H
    | |- context [match ?x with _ => _ end] => destruct x eqn:?; simpl
    end.

Lemma advanceCmdPacket_more s a :
  advanceCmdPacket s = Ok a ->
  bankView a = bankView s
  /\ dataBus a = dataBus s
  /\ countView a = countView s
  /\ totalWritesPerBank a = totalWritesPerBank s
  /\ totalTransactions a = totalTransactions s
  /\ cmdBus a = (if cmdArrives s then None else outgoingCmdPacket s,
                 match outgoingCmdPacket s with
                 | Some _ => u32 (cmdCyclesLeft s - 1)
                 | None => cmdCyclesLeft s
                 end)
  /\ length (ranks a) = length (ranks s)
  /\ (cmdArrives s = false -> ranks a = ranks s).
Proof.
  unfold advanceCmdPacket, cmdArrives, cmdBus. intros H.
  destruct (outgoingCmdPacket s) as [q|] eqn:Hq; simpl in *.
  - destruct (u32 (cmdCyclesLeft s - 1) =? 0) eqn:Hz.
    + outcome_cases. simpl. rewrite length_insert. by repeat split.
    + injection H as <-. simpl. rewrite Hq. by repeat split.
  - injection H as <-. rewrite Hq. by repeat split.
Qed.

Lemma advanceDataPacket_more s a :
  advanceDataPacket s = Ok a ->
  bankView a = bankView s
  /\ cmdBus a = cmdBus s
  /\ countView a = countView s
  /\ totalWritesPerBank a = totalWritesPerBank s
  /\ totalTransactions a = totalTransactions s
  /\ dataBus a = (if dataArrives s then None else outgoingDataPacket s,
                  match outgoingDataPacket s with
                  | Some _ => u32 (dataCyclesLeft s - 1)
                  | None => dataCyclesLeft s
                  end)
  /\ callbacks a = callbacks s ++ writeDoneCalls s
  /\ length (ranks a) = length (ranks s)
  /\ (dataArrives s = false -> ranks a = ranks s).
Proof.
  unfold advanceDataPacket, dataArrives, dataBus, writeDoneCalls, dataArrives,
    writeDataDone.
  intros H.
  destruct (outgoingDataPacket s) as [q|] eqn:Hq; simpl in *.
  - destruct (u32 (dataCyclesLeft s - 1) =? 0) eqn:Hz; simpl in *.
    + destruct (WriteDataDone (parentMemorySystem s)); outcome_cases; simpl;
        rewrite length_insert, ?app_nil_r; by repeat split.
    + injection H as <-. simpl. rewrite Hq, app_nil_r. by repeat split.
  - injection H as <-. rewrite Hq, app_nil_r. by repeat split.
Qed.

Lemma drainWriteData_more s a :
  drainWriteData s = Ok a ->
  bankView a = bankView s
  /\ cmdBus a = cmdBus s
  /\ countView a = countView s
  /\ ranks a = ranks s
  /\ length (totalWritesPerBank a) = length (totalWritesPerBank s).
Proof.
  unfold drainWriteData. intros H.
  outcome_cases; simpl; rewrite ?length_insert; by repeat split.
Qed.

Lemma refreshGate_more s a :
  refreshGate s = Ok a ->
  (bankStates a, powerDown a, pendingReadTransactions a)
  = (bankStates s, powerDown s, pendingReadTransactions s)
  /\ commandQueue a = gateQueue s
  /\ cmdBus a = cmdBus s
  /\ dataBus a = dataBus s
  /\ countView a = countView s
  /\ totalWritesPerBank a = totalWritesPerBank s
  /\ totalTransactions a = totalTransactions s
  /\ length (ranks a) = length (ranks s).
Proof.
  unfold refreshGate, gateQueue, refreshDue. intros H.
  apply bind_Ok in H. destruct H as (c & Hc & H). apply at_index_Ok in Hc.
  rewrite Hc. destruct (c =? 0).
  - outcome_cases; simpl; rewrite length_insert; by repeat split.
  - outcome_cases; simpl; rewrite ?length_insert; by repeat split.
Qed.

Lemma applyCommand_more p s a :
  applyCommand p s = Ok a ->
  (powerDown a, commandQueue a, ranks a) = (powerDown s, commandQueue s, ranks s)
  /\ dataBus a = dataBus s
  /\ countView a = countView s
  /\ totalWritesPerBank a = totalWritesPerBank s
  /\ totalTransactions a = totalTransactions s
  /\ pendingReadTransactions a
     = match busPacketType p with
       | READ | READ_P =>
           stampFirstAccess (physicalAddress p) (currentClockCycle s)
             (pendingReadTransactions s)
       | ACTIVATE =>
           stampActivate (physicalAddress p) (currentClockCycle s)
             (pendingReadTransactions s)
       | _ => pendingReadTransactions s
       end.
Proof.
  unfold applyCommand, issueRead, issueWrite, issueActivate, issuePrecharge,
    issueRefresh, add_energy.
  intros H.
  destruct (busPacketType p); simpl in H; outcome_cases; simpl in *;
    by repeat split.
Qed.

Lemma issue_more p s a :
  issue p s = Ok a ->
  (powerDown a, commandQueue a, ranks a) = (powerDown s, commandQueue s, ranks s)
  /\ dataBus a = dataBus s
  /\ countView a = countView s
  /\ totalWritesPerBank a = totalWritesPerBank s
  /\ totalTransactions a = totalTransactions s
  /\ cmdBus a = (Some p, tCMD)
  /\ outgoingCmdPacket s = None
  /\ busPacketType p ≠ DATA
  /\ pendingReadTransactions a
     = match busPacketType p with
       | READ | READ_P =>
           stampFirstAccess (physicalAddress p) (currentClockCycle s)
             (pendingReadTransactions s)
       | ACTIVATE =>
           stampActivate (physicalAddress p) (currentClockCycle s)
             (pendingReadTransactions s)
       | _ => pendingReadTransactions s
       end.
Proof.
  intros H. apply issue_inv in H. destruct H as (s1 & H1 & Hnone & ->).
  assert (Hty : busPacketType p ≠ DATA).
  { unfold applyCommand in H1. by destruct (busPacketType p). }
  pose proof (applyCommand_frame _ _ _ H1) as (_ & _ & _ & _ & _ & Hout & _).
  apply applyCommand_more in H1.
  destruct H1 as (A1 & A2 & A3 & A4 & A5 & A6).
  unfold pushWriteData in *.
  destruct (decide _); simpl in *; repeat split; try done; congruence.
Qed.

Lemma issueCommand_more s a :
  issueCommand s = Ok a ->
  (powerDown a, ranks a) = (powerDown s, ranks s)
  /\ dataBus a = dataBus s
  /\ countView a = countView s
  /\ totalWritesPerBank a = totalWritesPerBank s
  /\ totalTransactions a = totalTransactions s
  /\ commandQueue a = snd (cq_pop (bankStates s) (commandQueue s))
  /\ match fst (cq_pop (bankStates s) (commandQueue s)) with
     | Some p =>
         issue p (set_commandQueue (snd (cq_pop (bankStates s) (commandQueue s))) s)
         = Ok a
     | None => a = set_commandQueue (snd (cq_pop (bankStates s) (commandQueue s))) s
     end.
Proof.
  unfold issueCommand. intros H.
  destruct (cq_pop _ _) as [[p|] cq]; simpl.
  - pose proof (issue_more _ _ _ H) as (A1 & A2 & A3 & A4 & A5 & _).
    simpl in *. repeat split; try done; congruence.
  - injection H as <-. by repeat split.
Qed.

Lemma scheduleTransaction_more s a :
  scheduleTransaction s = Ok a ->
  (bankStates a, powerDown a, ranks a) = (bankStates s, powerDown s, ranks s)
  /\ cmdBus a = cmdBus s
  /\ dataBus a = dataBus s
  /\ countView a = countView s
  /\ totalWritesPerBank a = totalWritesPerBank s
  /\ totalTransactions a = totalTransactions s.
Proof.
  unfold scheduleTransaction. intros H.
  destruct (firstAdmissible _ _) as [[t q]|].
  - outcome_cases; by repeat split.
  - injection H as <-. by repeat split.
Qed.

Lemma returnPath_more s a :
  returnPath s = Ok a ->
  (bankStates a, powerDown a, commandQueue a, ranks a)
  = (bankStates s, powerDown s, commandQueue s, ranks s)
  /\ cmdBus a = cmdBus s
  /\ dataBus a = dataBus s
  /\ countView a = countView s
  /\ totalWritesPerBank a = totalWritesPerBank s
  /\ callbacks a = callbacks s ++ returnCalls s
  /\ length (totalEpochLatency a) = length (totalEpochLatency s).
Proof.
  unfold returnPath, insertHistogram, returnReadData, returnCalls. intros H.
  destruct (returnTransaction s) as [|rt rest] eqn:Hrt.
  - injection H as <-. rewrite app_nil_r. by repeat split.
  - destruct (findPending _ _) as [[t others]|] eqn:Hfind; [|done].
    assert (Haddr : address t = address rt).
    { clear H. simpl in Hfind.
      revert t others Hfind.
      induction (pendingReadTransactions s) as [|x l IH];
        intros t others Hfind; simpl in Hfind; [done|].
      destruct (address x =? address rt) eqn:Hx.
      - injection Hfind as <- <-. by apply Z.eqb_eq.
      - destruct (findPending (address rt) l) as [[m l'']|]; [|done].
        injection Hfind as <- <-. eauto. }
    simpl in H. apply bind_Ok in H. destruct H as (s1 & H1 & H).
    apply bind_Ok in H1. destruct H1 as (l & Hl & H1).
    apply update_at_Ok in Hl. destruct Hl as (x & Hx & ->).
    injection H1 as <-. injection H as <-. simpl.
    destruct (ReturnReadData (parentMemorySystem s)); simpl;
      rewrite ?length_insert, ?app_nil_r, ?Haddr; by repeat split.
Qed.

End MoreFrames.

(** ** The power loop *)

Section Power.

Context {cfg : Config} {env : Collaborators}.

Ltac outcome_cases :=
  repeat match goal with
    | H : _ ≫= _ = Ok _ |- _ =>
        let a := fresh "s" in
        let Ha := fresh "H" in
        apply bind_Ok in H; destruct H as (a & Ha & H)
    | H : Ok _ = Ok _ |- _ => injection H as H; subst
    | H : Abort _ = Ok _ |- _ => discriminate H
    | H : at_index _ _ = Ok _ |- _ => apply at_index_Ok in H
    | H : update_at _ _ _ = Ok _ |- _ =>
        let x := fresh "x" in
        let Hx := fresh "H" in
        apply update_at_Ok in H; destruct H as (x & Hx & ->)
    | H : context [match ?x with _ => _ end] |- _ => destruct x eqn:?; simpl in H
    | |- context [match ?x with _ => _ end] => destruct x eqn:?; simpl
    end.

(** What the low-power block does to rank [i], given the row of the
    rank, the rank and its [powerDown] flag. *)
Lemma lowPower_Ok i s a :
  lowPower i s = Ok a ->
  exists rowv r pd,
    bankStates s !! i = Some rowv
    /\ ranks s !! i = Some r
    /\ powerDown s !! i = Some pd
    /\ a = powerTransition i rowv r pd s.
Proof.
  unfold lowPower, powerTransition, sleeps, wakes. intros H.
  apply bind_Ok in H. destruct H as (rowv & Hrow & H). apply at_index_Ok in Hrow.
  apply bind_Ok in H. destruct H as (r & Hr & H). apply at_index_Ok in Hr.
  apply bind_Ok in H. destruct H as (pd & Hpd & H). apply at_index_Ok in Hpd.
  exists rowv, r, pd. repeat (split; [done|]).
  destruct (cq_isEmpty i (commandQueue s) && negb (refreshWaiting r)); simpl.
  - destruct (forallb _ rowv); by injection H as <-.
  - apply bind_Ok in H. destruct H as (b0 & Hb0 & H). apply at_index_Ok in Hb0.
    destruct rowv as [|b0' rowv]; [done|]. injection Hb0 as ->.
    destruct (_ && pd); by injection H as <-.
Qed.

Lemma lowPower_total i s rowv r pd :
  bankStates s !! i = Some rowv ->
  ranks s !! i = Some r ->
  powerDown s !! i = Some pd ->
  rowv ≠ [] ->
  lowPower i s = Ok (powerTransition i rowv r pd s).
Proof.
  intros Hrow Hr Hpd Hne.
  unfold lowPower, powerTransition, sleeps, wakes, at_index.
  rewrite Hrow, Hr, Hpd. simpl.
  destruct (cq_isEmpty i (commandQueue s) && negb (refreshWaiting r)); simpl.
  - by destruct (forallb _ rowv).
  - destruct rowv as [|b0 rowv]; [done|]. simpl.
    by destruct ((nextPowerUp b0 <=? currentClockCycle s) && pd).
Qed.

Lemma map_length_insert {A} (i : nat) (x y : list A) (l : list (list A)) :
  l !! i = Some x -> length y = length x ->
  map length (<[i := y]> l) = map length l.
Proof.
  intros Hx Hlen. change (map length ?l) with (length <$> l).
  rewrite list_fmap_insert, Hlen. apply list_insert_id.
  by rewrite list_lookup_fmap, Hx.
Qed.

Lemma powerTransition_frame i rowv r pd s :
  bankStates s !! i = Some rowv ->
  let a := powerTransition i rowv r pd s in
  (commandQueue a, pendingReadTransactions a, backgroundEnergy a,
   currentClockCycle a)
  = (commandQueue s, pendingReadTransactions s, backgroundEnergy s,
     currentClockCycle s)
  /\ cmdBus a = cmdBus s
  /\ dataBus a = dataBus s
  /\ countView a = countView s
  /\ totalWritesPerBank a = totalWritesPerBank s
  /\ totalTransactions a = totalTransactions s
  /\ map length (bankStates a) = map length (bankStates s)
  /\ length (powerDown a) = length (powerDown s)
  /\ length (ranks a) = length (ranks s)
  /\ forall j, j ≠ i ->
       bankStates a !! j = bankStates s !! j
       /\ powerDown a !! j = powerDown s !! j.
Proof.
  intros Hrow. unfold powerTransition.
  destruct (sleeps i rowv r s); [|destruct (wakes i rowv r pd s)]; simpl;
    rewrite ?length_insert.
  all: do 6 (split; [done|]).
  all: split;
         [first [done
                | apply (map_length_insert _ rowv); [done|by rewrite length_map]]|].
  all: do 2 (split; [done|]).
  all: intros j Hj; by rewrite ?list_lookup_insert_ne.
Qed.

Lemma powerRank_more i s a :
  powerRank (Ok s) i = Ok a ->
  (commandQueue a, pendingReadTransactions a, currentClockCycle a)
  = (commandQueue s, pendingReadTransactions s, currentClockCycle s)
  /\ cmdBus a = cmdBus s
  /\ dataBus a = dataBus s
  /\ countView a = countView s
  /\ totalWritesPerBank a = totalWritesPerBank s
  /\ totalTransactions a = totalTransactions s
  /\ map length (bankStates a) = map length (bankStates s)
  /\ length (powerDown a) = length (powerDown s)
  /\ length (ranks a) = length (ranks s)
  /\ (USE_LOW_POWER = false ->
      (bankStates a, powerDown a, ranks a) = (bankStates s, powerDown s, ranks s))
  /\ (forall j, j ≠ i ->
        bankStates a !! j = bankStates s !! j
        /\ powerDown a !! j = powerDown s !! j
        /\ backgroundEnergy a !! j = backgroundEnergy s !! j)
  /\ exists v rowv pd,
       backgroundEnergy s !! i = Some v
       /\ bankStates a !! i = Some rowv
       /\ powerDown a !! i = Some pd
       /\ backgroundEnergy a !! i
          = Some (u64 (v + backgroundCurrent (bankOpen rowv) pd)).
Proof.
  unfold powerRank. simpl. intros H.
  apply bind_Ok in H. destruct H as (s1 & H1 & H).
  apply bind_Ok in H. destruct H as (rowv & Hrow & H). apply at_index_Ok in Hrow.
  apply bind_Ok in H. destruct H as (pd & Hpd & H). apply at_index_Ok in Hpd.
  apply bind_Ok in H. destruct H as (e & He & H). injection H as <-.
  unfold add_energy in He. apply update_at_Ok in He. destruct He as (v & Hv & ->).
  simpl.
  assert (Hlast : forall j, j ≠ i ->
            <[i:=u64 (v + backgroundCurrent (bankOpen rowv) pd)]>
              (backgroundEnergy s1) !! j = backgroundEnergy s1 !! j)
    by (intros; by apply list_lookup_insert_ne).
  assert (Hhere :
            <[i:=u64 (v + backgroundCurrent (bankOpen rowv) pd)]>
              (backgroundEnergy s1) !! i
            = Some (u64 (v + backgroundCurrent (bankOpen rowv) pd)))
    by (apply list_lookup_insert_eq; by eapply lookup_lt_Some).
  destruct USE_LOW_POWER.
  - apply lowPower_Ok in H1.
    destruct H1 as (rowv0 & r0 & pd0 & Hrow0 & Hr0 & Hpd0 & ->).
    pose proof (powerTransition_frame i rowv0 r0 pd0 s Hrow0) as F. simpl in F.
    destruct F as (F1 & F2 & F3 & F4 & F5 & F6 & F7 & F8 & F9 & F10).
    injection F1 as F1a F1b F1c F1d.
    repeat (split; [done || congruence|]).
    split.
    + intros j Hj. destruct (F10 j Hj) as [-> ->]. rewrite Hlast by done.
      by rewrite F1c.
    + exists v, rowv, pd. rewrite <- F1c. done.
  - injection H1 as <-. repeat (split; [done|]). split.
    + intros j Hj. by rewrite Hlast.
    + exists v, rowv, pd. done.
Qed.

Lemma calculatePower_more n k s s' :
  foldl powerRank (Ok s) (seq k n) = Ok s' ->
  (commandQueue s', pendingReadTransactions s', currentClockCycle s')
  = (commandQueue s, pendingReadTransactions s, currentClockCycle s)
  /\ cmdBus s' = cmdBus s
  /\ dataBus s' = dataBus s
  /\ countView s' = countView s
  /\ totalWritesPerBank s' = totalWritesPerBank s
  /\ totalTransactions s' = totalTransactions s
  /\ map length (bankStates s') = map length (bankStates s)
  /\ length (powerDown s') = length (powerDown s)
  /\ length (ranks s') = length (ranks s)
  /\ (USE_LOW_POWER = false ->
      (bankStates s', powerDown s', ranks s')
      = (bankStates s, powerDown s, ranks s))
  /\ (forall j, (j < k \/ k + n <= j)%nat ->
        bankStates s' !! j = bankStates s !! j
        /\ powerDown s' !! j = powerDown s !! j
        /\ backgroundEnergy s' !! j = backgroundEnergy s !! j)
  /\ (forall j, (k <= j < k + n)%nat ->
        exists v rowv pd,
          backgroundEnergy s !! j = Some v
          /\ bankStates s' !! j = Some rowv
          /\ powerDown s' !! j = Some pd
          /\ backgroundEnergy s' !! j
             = Some (u64 (v + backgroundCurrent (bankOpen rowv) pd))).
Proof.
  revert k s. induction n as [|n IH]; intros k s H.
  - simpl in H. injection H as <-. do 11 (split; [done|]).
    intros j Hj. lia.
  - change (foldl powerRank (powerRank (Ok s) k) (seq (S k) n) = Ok s') in H.
    destruct (powerRank (Ok s) k) as [s1|e] eqn:H1;
      [|by rewrite foldl_powerRank_Abort in H].
    apply powerRank_more in H1.
    destruct H1 as (P1 & P2 & P3 & P4 & P5 & P6 & P7 & P8 & P9 & P10 & P11 & P12).
    apply IH in H.
    destruct H as (Q1 & Q2 & Q3 & Q4 & Q5 & Q6 & Q7 & Q8 & Q9 & Q10 & Q11 & Q12).
    do 9 (split; [congruence|]).
    split; [intros Hlow; rewrite Q10, P10 by done; done|].
    split.
    + intros j Hj. destruct (Q11 j ltac:(lia)) as (-> & -> & ->).
      apply P11. lia.
    + intros j Hj. destruct (decide (j = k)) as [->|Hne].
      * destruct P12 as (v & rowv & pd & Hv & Hrow & Hpd & Hbg).
        exists v, rowv, pd. destruct (Q11 k ltac:(lia)) as (-> & -> & ->). done.
      * destruct (Q12 j ltac:(lia)) as (v & rowv & pd & Hv & Hrow & Hpd & Hbg).
        exists v, rowv, pd. destruct (P11 j Hne) as (_ & _ & <-). done.
Qed.

End Power.

(** ** One whole [update] *)

Section WholeUpdate.

Context {cfg : Config} {env : Collaborators}.

(** [update] up to the pop, in terms of the state it starts in. *)
Lemma update_stages s s' :
  update s = Ok s' ->
  exists d e f g h,
    issueCommand d = Ok e
    /\ scheduleTransaction e = Ok f
    /\ calculatePower f = Ok g
    /\ returnPath g = Ok h
    /\ s' = stepCommandQueue (decrementRefresh h)
    /\ bankStates d = countedDown s
    /\ commandQueue d = gateQueue s
    /\ (powerDown d, pendingReadTransactions d, transactionQueue d)
       = (powerDown s, pendingReadTransactions s, transactionQueue s)
    /\ returnView d = returnView s
    /\ energyView d = energyView s
    /\ countView d = countView s
    /\ callbacks d = callbacks s ++ writeDoneCalls s
    /\ cmdBus d = (if cmdArrives s then None else outgoingCmdPacket s,
                   match outgoingCmdPacket s with
                   | Some _ => u32 (cmdCyclesLeft s - 1)
                   | None => cmdCyclesLeft s
                   end)
    /\ length (ranks d) = length (ranks s).
Proof.
  intros (a & b & c & d & e & f & g & h & Ha & Hb & Hc & Hd & He & Hf & Hg & Hh & ->)%update_Ok.
  exists d, e, f, g, h. do 5 (split; [done|]).
  pose proof (updateBankStates_frame s) as (U1 & U2 & U3 & U4 & U5 & U6).
  pose proof (advanceCmdPacket_frame _ _ Ha) as (A1 & A2 & A3 & A4 & A5 & A6).
  pose proof (advanceDataPacket_frame _ _ Hb) as (B1 & B2 & B3 & B4 & B5 & _).
  pose proof (drainWriteData_frame _ _ Hc) as (C1 & C2 & C4 & C5 & C6).
  pose proof (refreshGate_frame _ _ Hd) as (D1 & D3 & D4 & D5 & D6).
  apply advanceCmdPacket_more in Ha.
  destruct Ha as (A7 & A8 & A9 & A10 & A11 & A12 & A13 & _).
  apply advanceDataPacket_more in Hb.
  destruct Hb as (B7 & B8 & B9 & B10 & B11 & B12 & B13 & B14 & _).
  apply drainWriteData_more in Hc. destruct Hc as (C7 & C8 & C9 & C10 & _).
  apply refreshGate_more in Hd.
  destruct Hd as (D7 & D8 & D9 & D10 & D11 & D12 & D13 & D14).
  change (countView (updateBankStates s)) with (countView s) in A9.
  change (cmdArrives (updateBankStates s)) with (cmdArrives s) in A12.
  unfold bankView, cmdBus, dataBus in *. simpl in *.
  injection A7 as A7a A7b A7c A7d. injection B7 as B7a B7b B7c B7d.
  injection C7 as C7a C7b C7c C7d. injection D7 as D7a D7b D7c.
  injection A8 as A8a A8b.
  assert (Hgate : gateQueue c = gateQueue s).
  { unfold gateQueue, refreshDue.
    assert (R : refreshView c = refreshView s) by congruence.
    injection R as -> ->. by rewrite C7d, B7d, A7d. }
  assert (Hwd : writeDoneCalls a = writeDoneCalls s).
  { unfold writeDoneCalls, dataArrives.
    assert (R : returnView a = returnView s) by congruence.
    injection R as _ -> -> _ _ _. by rewrite A8a, A8b. }
  split; [unfold countedDown; congruence|].
  split; [congruence|].
  split; [congruence|].
  split; [congruence|].
  split; [congruence|].
  split; [congruence|].
  split; [rewrite D6, C6, B13, A6, Hwd; done|].
  split; [|congruence].
  rewrite D9, C8, B8. exact A12.
Qed.

(** The second half: what is left of the state at the pop once [update]
    returns. *)
Lemma update_tail e f g h :
  scheduleTransaction e = Ok f ->
  calculatePower f = Ok g ->
  returnPath g = Ok h ->
  cmdBus h = cmdBus e
  /\ dataBus h = dataBus e
  /\ countView h = countView e
  /\ totalWritesPerBank h = totalWritesPerBank e
  /\ callbacks h = callbacks e ++ returnCalls e
  /\ map length (bankStates h) = map length (bankStates e)
  /\ (USE_LOW_POWER = false ->
      (bankStates h, powerDown h, ranks h) = (bankStates e, powerDown e, ranks e)).
Proof.
  intros Hf Hg Hh.
  pose proof (scheduleTransaction_frame _ _ Hf) as (F1 & _ & _ & _ & F6 & _).
  pose proof (calculatePower_steps _ _ _ _ Hg) as (G1 & _ & _ & _ & G6 & _).
  apply scheduleTransaction_more in Hf. destruct Hf as (F7 & F8 & F9 & F10 & F11 & _).
  apply calculatePower_more in Hg.
  destruct Hg as (G7 & G8 & G9 & G10 & G11 & _ & G13 & _ & _ & G16 & _).
  apply returnPath_more in Hh. destruct Hh as (H7 & H8 & H9 & H10 & H11 & H12 & _).
  injection F7 as F7a F7b F7c. injection H7 as H7a H7b H7c H7d.
  assert (Hrc : returnCalls g = returnCalls e).
  { unfold returnCalls. assert (R : returnView g = returnView e) by congruence.
    by injection R as -> -> -> _ _ _. }
  do 4 (split; [congruence|]).
  split; [rewrite H12, G6, F6, Hrc; done|].
  split; [congruence|].
  intros Hlow. specialize (G16 Hlow). injection G16 as G16a G16b G16c. congruence.
Qed.

Lemma update_calls s s' :
  update s = Ok s' ->
  callbacks s' = callbacks s ++ writeDoneCalls s ++ returnCalls s.
Proof.
  intros H. apply update_stages in H.
  destruct H as (d & e & f & g & h & He & Hf & Hg & Hh & -> & _ & _ & _ & Hrv
                 & _ & _ & Hcb & _).
  pose proof (update_tail _ _ _ _ Hf Hg Hh) as (_ & _ & _ & _ & Hcalls & _).
  pose proof (issueCommand_frame _ _ He) as (E1 & _ & _ & E4 & _).
  simpl. rewrite Hcalls, E4, Hcb, <- app_assoc. do 2 f_equal.
  unfold returnCalls. assert (R : returnView e = returnView s) by congruence.
  by injection R as -> -> -> _ _ _.
Qed.

End WholeUpdate.

Section UpdateTheorems.

Context {cfg : Config} {env : Collaborators}.

Lemma update_pop s d :
  bankStates d = countedDown s ->
  commandQueue d = gateQueue s ->
  cq_pop (bankStates d) (commandQueue d) = popped s.
Proof. intros -> ->. reflexivity. Qed.

(** X8 (a bank through one update).  Without the low-power mode, a bank
    at the end of [update] is the bank it was at the start, counted down
    once, and then changed by the command popped in this update, if any:
    nothing else in [update] writes the bank table.  The command is the
    one the queue returns for the counted-down table, after the refresh
    gate has asked for a refresh if one is due. *)
Theorem update_bank (s s' : MemoryController) (i j : nat) :
  USE_LOW_POWER = false ->
  update s = Ok s' ->
  lookup_bank i j (bankStates s')
  = (fun b =>
       match fst (popped s) with
       | Some p => commandEffect p (currentClockCycle s) i j (bankCountdown b)
       | None => bankCountdown b
       end) <$> lookup_bank i j (bankStates s).
Proof.
  intros Hlow H. apply update_stages in H.
  destruct H as (d & e & f & g & h & He & Hf & Hg & Hh & -> & Hbs & Hcq & _ & Hrv
                 & _).
  pose proof (update_tail _ _ _ _ Hf Hg Hh) as (_ & _ & _ & _ & _ & _ & Hsame).
  specialize (Hsame Hlow). injection Hsame as Hsame _ _.
  simpl. rewrite Hsame.
  apply issueCommand_more in He. destruct He as (_ & _ & _ & _ & _ & _ & He).
  rewrite (update_pop s d Hbs Hcq) in He.
  assert (Hclock : currentClockCycle d = currentClockCycle s)
    by (by injection Hrv).
  destruct (fst (popped s)) as [p|].
  - rewrite (issue_bank _ _ _ i j He). simpl. rewrite Hclock, Hbs.
    unfold countedDown. rewrite lookup_bank_map.
    by destruct (lookup_bank i j (bankStates s)).
  - subst e. simpl. rewrite Hbs. unfold countedDown. apply lookup_bank_map.
Qed.

(** X9 (the command bus through one update).  While a command is on the
    bus and does not reach its rank in this update, a successful update
    has popped nothing, and the same command is still on the bus with
    one cycle less to go.  A command popped in an update is never a DATA
    packet, goes on the bus for [tCMD] cycles, and finds the bus free or
    freed in this same update.  If nothing is popped and the bus is free
    or freed, it is free afterwards. *)
Theorem command_bus_step (s s' : MemoryController) :
  update s = Ok s' ->
  (forall q,
     outgoingCmdPacket s = Some q ->
     cmdArrives s = false ->
     fst (popped s) = None
     /\ outgoingCmdPacket s' = Some q
     /\ cmdCyclesLeft s' = u32 (cmdCyclesLeft s - 1))
  /\ (forall p,
        fst (popped s) = Some p ->
        busPacketType p ≠ DATA
        /\ outgoingCmdPacket s' = Some p
        /\ cmdCyclesLeft s' = tCMD
        /\ (outgoingCmdPacket s = None \/ cmdArrives s = true))
  /\ (fst (popped s) = None ->
      outgoingCmdPacket s = None \/ cmdArrives s = true ->
      outgoingCmdPacket s' = None).
Proof.
  intros H. apply update_stages in H.
  destruct H as (d & e & f & g & h & He & Hf & Hg & Hh & -> & Hbs & Hcq & _ & _
                 & _ & _ & _ & Hbus & _).
  pose proof (update_tail _ _ _ _ Hf Hg Hh) as (Htail & _).
  apply issueCommand_more in He. destruct He as (_ & _ & _ & _ & _ & _ & He).
  rewrite (update_pop s d Hbs Hcq) in He.
  unfold cmdBus in *. injection Htail as Hp Hc. injection Hbus as Hdp Hdc.
  simpl. rewrite Hp, Hc. clear Hp Hc.
  destruct (fst (popped s)) as [p|].
  - apply issue_more in He.
    destruct He as (_ & _ & _ & _ & _ & Hbus & Hfree & Hty & _).
    injection Hbus as -> ->. simpl in Hfree. rewrite Hdp in Hfree.
    split; [|split].
    + intros q Hq Harr. by rewrite Harr, Hq in Hfree.
    + intros ? [= <-]. repeat (split; [done|]).
      destruct (cmdArrives s); [by right|by left].
    + done.
  - subst e. simpl. rewrite Hdp, Hdc. split; [|split].
    + intros q Hq Harr. by rewrite Harr, Hq.
    + done.
    + intros _ [Hnone | Harr]; [|by rewrite Harr].
      rewrite Hnone. by destruct (cmdArrives s).
Qed.

(** X10 (the callbacks of one update).  One [update] appends to the
    callback trace, in this order: a [WriteDataDone] for the packet on
    the data bus, with its address and the current cycle, if the packet
    reaches its rank in this update and the callback is registered; then
    a [ReturnReadData] for the head of [returnTransaction], with its
    address and the current cycle, if there is one and the callback is
    registered.  Nothing else is called. *)
Theorem update_callbacks (s s' : MemoryController) :
  update s = Ok s' ->
  callbacks s' = callbacks s ++ writeDoneCalls s ++ returnCalls s
  /\ (length (writeDoneCalls s) <= 1)%nat
  /\ (length (returnCalls s) <= 1)%nat
  /\ Forall (fun c => isReturnReadData c = false) (writeDoneCalls s)
  /\ Forall (fun c => isReturnReadData c = true) (returnCalls s).
Proof.
  intros H. split; [by apply update_calls|].
  unfold writeDoneCalls, returnCalls.
  destruct (outgoingDataPacket s) as [q|];
    [destruct (dataArrives s && WriteDataDone (parentMemorySystem s))|];
    (destruct (returnTransaction s) as [|rt rest];
       [|destruct (ReturnReadData (parentMemorySystem s))]);
    simpl; repeat split; try lia; repeat constructor.
Qed.

Lemma bankOpen_spec (rowv : list BankState) :
  bankOpen rowv = true
  <-> Exists (fun b => currentBankState b = Refreshing
                       \/ currentBankState b = RowActive) rowv.
Proof.
  unfold bankOpen. induction rowv as [|b rowv IH]; simpl.
  - split; [discriminate|]. intros H. inversion H.
  - rewrite orb_true_iff, Exists_cons, IH, orb_true_iff, !bool_decide_eq_true.
    tauto.
Qed.

(** X11 (background energy, exactly).  One [update] adds to the
    background energy of every rank exactly one current, chosen by the
    state the rank is in when the update returns: [IDD3N * NUM_DEVICES]
    if one of its banks is Refreshing or RowActive, otherwise
    [IDD2P * NUM_DEVICES] if the rank is powered down and
    [IDD2N * NUM_DEVICES] if it is not.  Entries past [NUM_RANKS] are not
    touched. *)
Theorem background_energy_exact (s s' : MemoryController) :
  update s = Ok s' ->
  (forall i : nat,
     (i < NUM_RANKS)%nat ->
     exists (v : Z) (rowv : list BankState) (pd : bool),
       backgroundEnergy s !! i = Some v
       /\ bankStates s' !! i = Some rowv
       /\ powerDown s' !! i = Some pd
       /\ backgroundEnergy s' !! i
          = Some (u64 (v +
                       if decide (Exists (fun b =>
                                     currentBankState b = Refreshing
                                     \/ currentBankState b = RowActive) rowv)
                       then u32 (IDD3N * NUM_DEVICES)
                       else if pd then u32 (IDD2P * NUM_DEVICES)
                            else u32 (IDD2N * NUM_DEVICES))))
  /\ (forall i : nat,
        (NUM_RANKS <= i)%nat ->
        backgroundEnergy s' !! i = backgroundEnergy s !! i).
Proof.
  intros H. apply update_stages in H.
  destruct H as (d & e & f & g & h & He & Hf & Hg & Hh & -> & _ & _ & _ & _
                 & Hen & _).
  pose proof (issueCommand_frame _ _ He) as (_ & _ & _ & _ & E & _).
  pose proof (scheduleTransaction_frame _ _ Hf) as (_ & _ & _ & F & _).
  apply calculatePower_more in Hg.
  destruct Hg as (_ & _ & _ & _ & _ & _ & _ & _ & _ & _ & Gout & Gin).
  pose proof (returnPath_frame _ _ Hh) as (_ & _ & R & _).
  apply returnPath_more in Hh. destruct Hh as (R' & _).
  injection R' as Rb Rp _ _. injection R as Rbg _ _ _.
  injection F as Fbg _ _ _. injection Hen as Dbg _ _ _.
  simpl. rewrite Rb, Rp, Rbg.
  assert (Hbg : backgroundEnergy f = backgroundEnergy s) by congruence.
  split.
  - intros i Hi.
    destruct (Gin i ltac:(lia)) as (v & rowv & pd & Hv & Hrow & Hpd & Hnew).
    exists v, rowv, pd. rewrite <- Hbg.
    split; [exact Hv|]. split; [exact Hrow|]. split; [exact Hpd|].
    rewrite Hnew. unfold backgroundCurrent.
    destruct (decide _) as [Hopen|Hclosed].
    + apply bankOpen_spec in Hopen. by rewrite Hopen.
    + destruct (bankOpen rowv) eqn:Ho; [|reflexivity].
      apply bankOpen_spec in Ho. contradiction.
  - intros i Hi. destruct (Gout i ltac:(lia)) as (_ & _ & ->). by rewrite Hbg.
Qed.

Lemma update_returnTransaction s s' :
  update s = Ok s' ->
  returnTransaction s' = tail (returnTransaction s)
  /\ parentMemorySystem s' = parentMemorySystem s
  /\ currentClockCycle s' = currentClockCycle s.
Proof.
  unfold update. intros H.
  apply bind_Ok in H. destruct H as (g & Hg & H).
  apply bind_Ok in H. destruct H as (h & Hh & H). injection H as <-.
  apply beforeReturn_frame in Hg. destruct Hg as (Hview & _).
  apply returnPath_frame in Hh.
  destruct Hh as (_ & _ & _ & _ & Hc & Hp & Hret & _).
  injection Hview as Hrt Hcc Hpp _ _ _. simpl. repeat split; congruence.
Qed.

Lemma cycles_returnTransaction n s s' :
  cycles n s = Ok s' ->
  returnTransaction s' = drop n (returnTransaction s)
  /\ parentMemorySystem s' = parentMemorySystem s
  /\ currentClockCycle s'
     = Nat.iter n (fun c => u64 (c + 1)) (currentClockCycle s).
Proof.
  revert s. induction n as [|n IH]; intros s H; simpl in H.
  - injection H as <-. by rewrite drop_0.
  - apply bind_Ok in H. destruct H as (s1 & H1 & H).
    apply update_returnTransaction in H1. destruct H1 as (Hrt & Hp & Hc).
    apply IH in H. destruct H as (-> & -> & ->). simpl.
    rewrite Hrt, Hp, Hc.
    split; [destruct (returnTransaction s); simpl; [apply drop_nil|done]|].
    split; [done|].
    symmetry. exact (Nat.iter_succ_r n (fun c => u64 (c + 1)) (currentClockCycle s)).
Qed.

(** X12 (from the data bus back to the CPU).  Read data that arrives
    from a rank is queued behind the returns already waiting; each
    update returns one of them, so after as many [update(); step()]
    rounds as there were returns waiting, the next [update] calls
    [ReturnReadData] with the address of that packet and the cycle of
    that update, as its last callback, and leaves the return queue
    empty. *)
Theorem receive_return_round_trip (p : BusPacket)
    (s s1 s2 s3 : MemoryController) :
  receiveFromBus p s = Ok s1 ->
  cycles (length (returnTransaction s)) s1 = Ok s2 ->
  update s2 = Ok s3 ->
  ReturnReadData (parentMemorySystem s) = true ->
  returnTransaction s3 = []
  /\ currentClockCycle s2
     = Nat.iter (length (returnTransaction s)) (fun c => u64 (c + 1))
         (currentClockCycle s)
  /\ last (callbacks s3)
     = Some (ReturnReadDataCall (systemID (parentMemorySystem s))
               (physicalAddress p) (currentClockCycle s2)).
Proof.
  intros Hrecv Hcyc Hupd Hreg.
  unfold receiveFromBus in Hrecv. destruct (decide _); [done|].
  apply bind_Ok in Hrecv. destruct Hrecv as (c & _ & Hrecv). injection Hrecv as <-.
  apply cycles_returnTransaction in Hcyc. simpl in Hcyc.
  destruct Hcyc as (Hrt & Hp & Hc).
  rewrite drop_app_length in Hrt.
  pose proof (update_returnTransaction _ _ Hupd) as (Hrt3 & _).
  apply update_calls in Hupd.
  split; [by rewrite Hrt3, Hrt|]. split; [done|].
  rewrite Hupd. unfold returnCalls. rewrite Hrt, Hp, Hreg. simpl.
  by rewrite !app_assoc, last_snoc.
Qed.

End UpdateTheorems.

(** ** Scheduling, stamping and counting *)

Section Transactions.

Context {cfg : Config} {env : Collaborators}.

Lemma firstAdmissible_first cq pre t post :
  Forall (fun x => roomFor cq x = false) pre ->
  roomFor cq t = true ->
  firstAdmissible cq (pre ++ t :: post) = Some (t, pre ++ post).
Proof.
  unfold roomFor. intros Hpre Ht.
  induction Hpre as [|x pre Hx _ IH]; simpl.
  - by rewrite Ht.
  - by rewrite Hx, IH.
Qed.

Lemma firstAdmissible_none cq q :
  Forall (fun x => roomFor cq x = false) q -> firstAdmissible cq q = None.
Proof.
  unfold roomFor. induction 1 as [|x q Hx _ IH]; simpl; [done|].
  by rewrite Hx, IH.
Qed.

Lemma firstAdmissible_Some cq q t q' :
  firstAdmissible cq q = Some (t, q') ->
  exists pre post,
    q = pre ++ t :: post /\ q' = pre ++ post
    /\ Forall (fun x => roomFor cq x = false) pre
    /\ roomFor cq t = true.
Proof.
  unfold roomFor. revert t q'.
  induction q as [|x q IH]; intros t q' H; simpl in H; [done|].
  destruct (cq_hasRoomFor _ _ _ _) eqn:Hx.
  - injection H as <- <-. exists [], q. by repeat split.
  - destruct (firstAdmissible cq q) as [[t' q'']|]; [|done].
    injection H as <- <-.
    destruct (IH _ _ eq_refl) as (pre & post & -> & -> & Hpre & Ht).
    exists (x :: pre), post. repeat split; try done. by constructor.
Qed.

(** X13 (first fit).  The scan of the transaction queue takes the first
    transaction whose bank queue has room for two commands, whatever is
    ahead of it: the transactions before it stay queued in their order.
    An ACTIVATE (with data 0) and then the read or write command, both
    with the transaction's address and its mapped rank, bank, row and
    column, are enqueued; a read joins the pending reads, a write does
    not.  If the transaction has no bus packet type the simulator stops.
    If no transaction has room, nothing changes. *)
Theorem first_fit_scheduling (s : MemoryController) :
  (forall (pre post : list Transaction) (t : Transaction),
     transactionQueue s = pre ++ t :: post ->
     Forall (fun x => roomFor (commandQueue s) x = false) pre ->
     roomFor (commandQueue s) t = true ->
     match getBusPacketType t with
     | Ok ty =>
         exists s',
           scheduleTransaction s = Ok s'
           /\ transactionQueue s' = pre ++ post
           /\ commandQueue s'
              = cq_enqueue (commandFor ty t)
                  (cq_enqueue (activateFor t) (commandQueue s))
           /\ pendingReadTransactions s'
              = pendingReadTransactions s
                ++ (if decide (transactionType t = DATA_READ) then [t] else [])
     | Abort e => scheduleTransaction s = Abort e
     end)
  /\ (Forall (fun x => roomFor (commandQueue s) x = false) (transactionQueue s) ->
      scheduleTransaction s = Ok s).
Proof.
  split.
  - intros pre post t Hq Hpre Ht. unfold scheduleTransaction.
    rewrite Hq, (firstAdmissible_first _ _ _ _ Hpre Ht).
    destruct (getBusPacketType t) as [ty|e]; simpl; [|done].
    eexists. split; [reflexivity|].
    destruct (decide (transactionType t = DATA_READ)); simpl;
      rewrite ?app_nil_r; done.
  - intros Hnone. unfold scheduleTransaction.
    by rewrite (firstAdmissible_none _ _ Hnone).
Qed.

(** X14 (the command queue through one update).  [update] works on the
    command queue in this order: [needRefresh] if a refresh is due, one
    [pop], the two [enqueue]s of the transaction it schedules, if any,
    and [step].  The transaction is chosen on the queue as the pop left
    it, and leaves the transaction queue; nothing else does. *)
Theorem update_command_queue (s s' : MemoryController) :
  update s = Ok s' ->
  match scheduled s with
  | Some (t, q) =>
      exists ty,
        getBusPacketType t = Ok ty
        /\ transactionQueue s' = q
        /\ commandQueue s'
           = cq_step (cq_enqueue (commandFor ty t)
                        (cq_enqueue (activateFor t) (snd (popped s))))
  | None =>
      transactionQueue s' = transactionQueue s
      /\ commandQueue s' = cq_step (snd (popped s))
  end.
Proof.
  intros H. apply update_stages in H.
  destruct H as (d & e & f & g & h & He & Hf & Hg & Hh & -> & Hbs & Hcq & Hq & _).
  injection Hq as _ _ Hq.
  pose proof (issueCommand_frame _ _ He) as (_ & _ & Etq & _).
  apply issueCommand_more in He. destruct He as (_ & _ & _ & _ & _ & Ecq & _).
  rewrite (update_pop s d Hbs Hcq) in Ecq.
  pose proof (calculatePower_steps _ _ _ _ Hg) as (_ & _ & _ & Gtq & _).
  apply calculatePower_more in Hg. destruct Hg as (Gcq & _).
  injection Gcq as Gcq _ _.
  pose proof (returnPath_frame _ _ Hh) as (_ & _ & _ & Htq & _).
  apply returnPath_more in Hh. destruct Hh as (Hcq' & _).
  injection Hcq' as _ _ Hcq' _.
  simpl. rewrite Hcq', Gcq, Htq, Gtq.
  unfold scheduled. rewrite <- Ecq, <- Hq, <- Etq.
  unfold scheduleTransaction in Hf.
  destruct (firstAdmissible (commandQueue e) (transactionQueue e)) as [[t q]|].
  - destruct (getBusPacketType t) as [ty|]; [|done]. simpl in Hf.
    injection Hf as <-. exists ty.
    by destruct (decide (transactionType t = DATA_READ)).
  - by injection Hf as <-.
Qed.

Lemma stampFirstAccess_spec addr now l :
  stampedFirst (unstamped addr) now l (stampFirstAccess addr now l).
Proof.
  unfold stampedFirst, unstamped. induction l as [|t l IH]; simpl.
  - left. by split.
  - destruct ((address t =? addr) && (timeACTIssued t =? 0)) eqn:Ht.
    + apply andb_true_iff in Ht. destruct Ht as [Ha Hz].
      apply Z.eqb_eq in Ha, Hz.
      right. exists [], t, l. repeat split; done.
    + assert (Hnot : ~ (address t = addr /\ timeACTIssued t = 0)).
      { intros [Ha Hz]. apply Z.eqb_eq in Ha, Hz. by rewrite Ha, Hz in Ht. }
      destruct IH as [[Hall ->] | (pre & x & post & -> & Hpre & Hx & ->)].
      * left. split; [by constructor|done].
      * right. exists (t :: pre), x, post. repeat split; try tauto.
        by constructor.
Qed.

Lemma stampActivate_spec addr now l :
  stampedFirst (matching addr) now l (stampActivate addr now l).
Proof.
  unfold stampedFirst, matching. induction l as [|t l IH]; simpl.
  - left. by split.
  - destruct (address t =? addr) eqn:Ht.
    + apply Z.eqb_eq in Ht. right. exists [], t, l. repeat split; done.
    + apply Z.eqb_neq in Ht.
      destruct IH as [[Hall ->] | (pre & x & post & -> & Hpre & Hx & ->)].
      * left. split; [by constructor|done].
      * right. exists (t :: pre), x, post. repeat split; try done.
        by constructor.
Qed.

Lemma stampedFirst_same P now l l' :
  stampedFirst P now l l' ->
  map address l' = map address l
  /\ map timeAdded l' = map timeAdded l
  /\ map transactionType l' = map transactionType l.
Proof.
  intros [[_ ->] | (pre & t & post & -> & _ & _ & ->)]; [done|].
  rewrite !map_app. simpl. done.
Qed.

Lemma issue_stamps_address p s s' :
  issue p s = Ok s' ->
  map address (pendingReadTransactions s')
  = map address (pendingReadTransactions s).
Proof.
  intros H. apply issue_more in H.
  destruct H as (_ & _ & _ & _ & _ & _ & _ & _ & Hp). rewrite Hp.
  destruct (busPacketType p); try done.
  - exact (proj1 (stampedFirst_same _ _ _ _ (stampFirstAccess_spec _ _ _))).
  - exact (proj1 (stampedFirst_same _ _ _ _ (stampFirstAccess_spec _ _ _))).
  - exact (proj1 (stampedFirst_same _ _ _ _ (stampActivate_spec _ _ _))).
Qed.


End Transactions.

(** ** Counters and statistics *)

Section Counting.

Context {cfg : Config} {env : Collaborators}.




(** X17 (the statistics reset).  [resetStats] folds the per-bank read
    and write counters into the grand totals before it zeroes them, so
    the number of accesses of a bank, counted over all three, is the
    same before and after.  It resets counters and energies only: the
    bank table, the queues, the buses, the refresh counters, the clock,
    the latency histograms and the transaction count are left as they
    are. *)
Theorem resetStats_effect (s : MemoryController) :
  let s' := resetStats s in
  (forall (k : nat) (g r w : Z),
     grandTotalBankAccesses s !! k = Some g ->
     totalReadsPerBank s !! k = Some r ->
     totalWritesPerBank s !! k = Some w ->
     grandTotalBankAccesses s' !! k = Some (u64 (g + u64 (r + w)))
     /\ totalReadsPerBank s' !! k = Some 0
     /\ totalWritesPerBank s' !! k = Some 0
     /\ u64 (u64 (g + u64 (r + w)) + 0 + 0) = u64 (g + r + w))
  /\ commandQueue s' = cq_resetRowBufferStats (commandQueue s)
  /\ (bankStates s', powerDown s', ranks s', currentClockCycle s')
     = (bankStates s, powerDown s, ranks s, currentClockCycle s)
  /\ (transactionQueue s', pendingReadTransactions s', returnTransaction s')
     = (transactionQueue s, pendingReadTransactions s, returnTransaction s)
  /\ (refreshView s', fifoView s', cmdBus s', dataBus s')
     = (refreshView s, fifoView s, cmdBus s, dataBus s)
  /\ (latencies s', accessLatencies s', totalTransactions s', callbacks s')
     = (latencies s, accessLatencies s, totalTransactions s, callbacks s).
Proof.
  intros s'. split; [|by repeat split].
  intros k g r w Hg Hr Hw. subst s'. unfold resetStats, zeroes. simpl.
  change (map ?f ?l) with (f <$> l).
  rewrite !lookup_zip_with, !list_lookup_fmap, Hg, Hr, Hw. simpl.
  repeat (split; [done|]).
  unfold u64. rewrite !Z.add_0_r, Zmod_mod, Zplus_mod_idemp_r.
  f_equal. lia.
Qed.

End Counting.

(** ** The low-power block *)

Section LowPower.

Context {cfg : Config} {env : Collaborators}.



End LowPower.

(** ** Invariants of the reachable states *)

Section Shape.

Context {cfg : Config} {env : Collaborators}.

Ltac outcome_cases :=
  repeat match goal with
    | H : _ ≫= _ = Ok _ |- _ =>
        let a := fresh "s" in
        let Ha := fresh "H" in
        apply bind_Ok in H; destruct H as (a & Ha & H)
    | H : Ok _ = Ok _ |- _ => injection H as H; subst
    | H : Abort _ = Ok _ |- _ => discriminate H
    | H : at_index _ _ = Ok _ |- _ => apply at_index_Ok in H
    | H : update_at _ _ _ = Ok _ |- _ =>
        let x := fresh "x" in
        let Hx := fresh "H" in
        apply update_at_Ok in H; destruct H as (x & Hx & ->)
    | H : context [match ?x with _ => _ end] |- _ => destruct x eqn:?; simpl in H
    | |- context [match ?x with _ => _ end] => destruct x eqn:?; simpl
    end.

Lemma map_length_alter {A} (g : list A -> list A) r (bs : list (list A)) :
  (forall row, length (g row) = length row) ->
  map length (alter g r bs) = map length bs.
Proof.
  intros Hg. change (map length ?l) with (length <$> l).
  apply list_eq. intros k. rewrite !list_lookup_fmap.
  destruct (decide (k = r)) as [->|Hne].
  - rewrite list_lookup_alter_eq. destruct (bs !! r); simpl; [|done].
    by rewrite Hg.
  - by rewrite list_lookup_alter_ne.
Qed.

Lemma map_length_alter_bank f r b bs :
  map length (alter_bank f r b bs) = map length bs.
Proof. apply map_length_alter. intros. apply length_alter. Qed.

Lemma map_length_imap2 {A} (g : nat -> nat -> A -> A) (bs : list (list A)) :
  map length (imap (fun i => imap (g i)) bs) = map length bs.
Proof.
  change (map length ?l) with (length <$> l).
  apply list_eq. intros k. rewrite !list_lookup_fmap, list_lookup_imap.
  destruct (bs !! k); simpl; [|done]. by rewrite length_imap.
Qed.

Lemma map_length_alter_imap {A} (g : nat -> A -> A) r (bs : list (list A)) :
  map length (alter (imap g) r bs) = map length bs.
Proof. apply map_length_alter. intros. apply length_imap. Qed.

Lemma map_length_map_map {A} (f : A -> A) (bs : list (list A)) :
  map length (map (map f) bs) = map length bs.
Proof.
  change (map length ?l) with (length <$> l).
  change (map (map f) bs) with (map f <$> bs).
  apply list_eq. intros k. rewrite !list_lookup_fmap.
  destruct (bs !! k); simpl; [|done]. by rewrite length_map.
Qed.

Lemma applyCommand_shape p s a :
  applyCommand p s = Ok a ->
  shape a = shape s /\ refreshRank a = refreshRank s.
Proof.
  unfold applyCommand, issueRead, issueWrite, issueActivate, issuePrecharge,
    issueRefresh, add_energy, shape.
  intros H.
  destruct (busPacketType p); simpl in H; outcome_cases; simpl in *;
    rewrite ?length_insert, ?map_length_alter_bank, ?map_length_imap2,
      ?map_length_alter_imap, ?map_length_alter_bank;
    try done.
  all: match goal with
       | H : bankStates _ !! _ = Some ?row |- _ =>
           rewrite (map_length_insert _ row) by (done || by rewrite length_map)
       end; done.
Qed.

Lemma updateBankStates_shape s : shape (updateBankStates s) = shape s.
Proof. unfold shape. simpl. by rewrite map_length_map_map. Qed.

Lemma advanceCmdPacket_shape s a :
  advanceCmdPacket s = Ok a -> shape a = shape s.
Proof.
  unfold advanceCmdPacket, shape. intros H.
  outcome_cases; simpl; rewrite ?length_insert; done.
Qed.

Lemma advanceDataPacket_shape s a :
  advanceDataPacket s = Ok a -> shape a = shape s.
Proof.
  unfold advanceDataPacket, writeDataDone, shape. intros H.
  outcome_cases; simpl; rewrite ?length_insert; done.
Qed.

Lemma drainWriteData_shape s a :
  drainWriteData s = Ok a -> shape a = shape s.
Proof.
  unfold drainWriteData, shape. intros H.
  outcome_cases; simpl; rewrite ?length_insert; done.
Qed.

Lemma refreshGate_shape s a :
  refreshGate s = Ok a -> shape a = shape s.
Proof.
  unfold refreshGate, shape. intros H.
  outcome_cases; simpl; rewrite ?length_insert; done.
Qed.

Lemma issueCommand_shape s a :
  issueCommand s = Ok a -> shape a = shape s.
Proof.
  unfold issueCommand. intros H.
  destruct (cq_pop _ _) as [[p|] cq]; [|by injection H as <-].
  apply issue_inv in H. destruct H as (s1 & H1 & _ & ->).
  apply applyCommand_shape in H1. destruct H1 as [H1 _].
  transitivity (shape s1); [done|]. rewrite H1.
  unfold pushWriteData. by destruct (decide _).
Qed.

Lemma scheduleTransaction_shape s a :
  scheduleTransaction s = Ok a -> shape a = shape s.
Proof.
  unfold scheduleTransaction, shape. intros H. outcome_cases; simpl; done.
Qed.

Lemma calculatePower_shape s a :
  calculatePower s = Ok a -> shape a = shape s.
Proof.
  intros H.
  pose proof (calculatePower_steps _ _ _ _ H)
    as (G1 & G2 & _ & _ & _ & G6 & G7 & G8 & G9 & _).
  apply calculatePower_more in H.
  destruct H as (_ & _ & _ & G12 & G13 & _ & G15 & G16 & G17 & _).
  unfold shape. injection G1 as _ _ _ _ _ ->. injection G2 as _ ->.
  injection G12 as -> -> -> ->.
  by rewrite G6, G7, G8, G9, G13, G15, G16, G17.
Qed.

Lemma returnPath_shape s a :
  returnPath s = Ok a -> shape a = shape s.
Proof.
  unfold returnPath, insertHistogram, returnReadData, shape. intros H.
  outcome_cases; simpl; rewrite ?length_insert; done.
Qed.

Lemma closing_shape s : shape (stepCommandQueue (decrementRefresh s)) = shape s.
Proof. unfold shape. simpl. by rewrite length_map. Qed.

Lemma update_shape s s' :
  update s = Ok s' -> shape s' = shape s.
Proof.
  intros (a & b & c & d & e & f & g & h & Ha & Hb & Hc & Hd & He & Hf & Hg & Hh & ->)%update_Ok.
  rewrite closing_shape, (returnPath_shape _ _ Hh), (calculatePower_shape _ _ Hg),
    (scheduleTransaction_shape _ _ Hf), (issueCommand_shape _ _ He),
    (refreshGate_shape _ _ Hd), (drainWriteData_shape _ _ Hc),
    (advanceDataPacket_shape _ _ Hb), (advanceCmdPacket_shape _ _ Ha).
  apply updateBankStates_shape.
Qed.

Lemma constructor_shaped parent cq rks :
  length rks = NUM_RANKS -> (0 < NUM_RANKS)%nat ->
  shaped (MemoryController_new parent cq rks).
Proof.
  intros Hrks Hpos. unfold shaped, shape. simpl.
  rewrite !length_replicate, length_map, length_seq, Hrks. split; [|done].
  repeat f_equal. change (map length ?l) with (length <$> l).
  rewrite fmap_replicate. by rewrite length_replicate.
Qed.

Lemma nextRefreshRank_lt r :
  (r < NUM_RANKS)%nat -> (nextRefreshRank r < NUM_RANKS)%nat.
Proof. unfold nextRefreshRank. intros. destruct (decide _); lia. Qed.

Lemma call_shaped c s s' :
  call c s = Ok s' -> shaped s -> shaped s'.
Proof.
  intros H [Hshape Hrank]. destruct c as [trans| | |bpacket|]; simpl in H.
  - injection H as <-. unfold addTransaction.
    by destruct (WillAcceptTransaction s).
  - split; [by rewrite (update_shape _ _ H)|].
    apply update_refreshView in H.
    assert (Hr : refreshRank s' = fst (gateView (refreshView s)))
      by (by injection H).
    rewrite Hr. unfold gateView, refreshView. simpl.
    destruct (refreshCountdown s !! refreshRank s) as [[| |]|]; simpl; try done.
    by apply nextRefreshRank_lt.
  - by injection H as <-.
  - unfold receiveFromBus in H. destruct (decide _); [done|].
    apply bind_Ok in H. destruct H as (x & Hx & [= <-]).
    apply update_at_Ok in Hx. destruct Hx as (y & _ & ->).
    split; [|done]. rewrite <- Hshape. unfold shape. simpl.
    by rewrite length_insert.
  - injection H as <-. split; [|done].
    unfold shape in *. simpl.
    injection Hshape as Hbs Hpd Hrk Hrc He0 He1 He2 He3 Hr Hw Hl Hg Hx1 Hx2.
    unfold zeroes. rewrite !length_map, !length_zip_with.
    rewrite Hbs, Hpd, Hrk, Hrc, He0, He1, He2, He3, Hr, Hw, Hl, Hg, Hx1, Hx2.
    repeat f_equal; lia.
Qed.

(** X19 (the tables keep their sizes).  In every state reached from the
    constructor by any sequence of calls, the bank table has [NUM_RANKS]
    rows of [NUM_BANKS] banks, the per-rank vectors (power-down flags,
    ranks, refresh countdowns, the four energies, the per-rank counters)
    have [NUM_RANKS] entries, the per-bank counters have
    [NUM_RANKS * NUM_BANKS], and [refreshRank] is below [NUM_RANKS]. *)
Theorem shape_invariant (parent : MemorySystem) (cq : CommandQueue)
    (rks : list (Rank RankBody)) (cs : list Call) (s : MemoryController) :
  length rks = NUM_RANKS ->
  (0 < NUM_RANKS)%nat ->
  run cs (MemoryController_new parent cq rks) = Ok s ->
  shaped s.
Proof.
  intros Hrks Hpos.
  pose proof (constructor_shaped parent cq rks Hrks Hpos) as Hinit.
  revert Hinit. generalize (MemoryController_new parent cq rks).
  induction cs as [|c cs IH]; intros s0 Hinit H; simpl in H.
  - by injection H as <-.
  - apply bind_Ok in H. destruct H as (s1 & H1 & H).
    eapply IH; [|exact H]. by eapply call_shaped.
Qed.

End Shape.

Section Discipline.

Context {cfg : Config} {env : Collaborators}.

Lemma disciplined_eq s a :
  cmdBus a = cmdBus s -> dataBus a = dataBus s -> fifoView a = fifoView s ->
  disciplined s -> disciplined a.
Proof.
  unfold disciplined, cmdBus, dataBus, fifoView.
  intros [= -> _] [= -> _] [= -> ->]. done.
Qed.

Lemma advanceCmdPacket_disciplined s a :
  advanceCmdPacket s = Ok a -> disciplined s -> disciplined a.
Proof.
  intros H (Hc & Hd & Hf & Hl).
  pose proof (advanceCmdPacket_frame _ _ H) as (_ & _ & F & _).
  apply advanceCmdPacket_more in H. destruct H as (_ & D & _ & _ & _ & C & _).
  unfold disciplined, cmdBus, dataBus, fifoView in *.
  injection F as -> ->. injection D as -> _. injection C as -> _.
  repeat split; try done. intros p. destruct (cmdArrives s); [done|apply Hc].
Qed.

Lemma advanceDataPacket_disciplined s a :
  advanceDataPacket s = Ok a -> disciplined s -> disciplined a.
Proof.
  intros H (Hc & Hd & Hf & Hl).
  pose proof (advanceDataPacket_frame _ _ H) as (_ & _ & F & _).
  apply advanceDataPacket_more in H. destruct H as (_ & C & _ & _ & _ & D & _).
  unfold disciplined, cmdBus, dataBus, fifoView in *.
  injection F as -> ->. injection D as -> _. injection C as -> _.
  repeat split; try done. intros p. destruct (dataArrives s); [done|apply Hd].
Qed.

Lemma drainWriteData_disciplined s a :
  drainWriteData s = Ok a -> disciplined s -> disciplined a.
Proof.
  intros H (Hc & Hd & Hf & Hl).
  pose proof (drainWriteData_more _ _ H) as (_ & C & _).
  unfold disciplined, cmdBus in *. injection C as -> _.
  split; [done|]. clear Hc.
  unfold drainWriteData in H.
  destruct (writeDataCountdown s) as [|c cs] eqn:Hcs.
  { injection H as <-. by rewrite Hcs. }
  simpl in H. destruct (u32 (c - 1)) as [|n|n].
  - destruct (outgoingDataPacket s); [done|].
    destruct (writeDataToSend s) as [|p ps]; [done|]. simpl in H.
    apply bind_Ok in H. destruct H as (w & _ & H). injection H as <-. simpl.
    apply Forall_cons in Hf. destruct Hf as [Hp Hps].
    rewrite length_map. simpl in Hl.
    split; [by intros ? [= <-]|]. split; [done|]. lia.
  - injection H as <-. simpl in *. rewrite ?length_map. by repeat split.
  - injection H as <-. simpl in *. rewrite ?length_map. by repeat split.
Qed.

Lemma issueCommand_disciplined s a :
  issueCommand s = Ok a -> disciplined s -> disciplined a.
Proof.
  intros H (Hc & Hd & Hf & Hl).
  pose proof (issueCommand_fifo _ _ H) as F.
  apply issueCommand_more in H. destruct H as (_ & D & _ & _ & _ & _ & H).
  unfold disciplined, dataBus in *. injection D as -> _.
  assert (Hcmd : forall p, outgoingCmdPacket a = Some p -> busPacketType p ≠ DATA).
  { destruct (fst (cq_pop (bankStates s) (commandQueue s))) as [p|].
    - apply issue_more in H. destruct H as (_ & _ & _ & _ & _ & C & _ & Hty & _).
      injection C as -> _. by intros ? [= <-].
    - by subst a. }
  split; [done|]. split; [done|].
  destruct F as [F | (p & _ & _ & -> & ->)].
  - injection F as -> ->. done.
  - split; [apply Forall_app; split; [done|by repeat constructor]|].
    rewrite !length_app. simpl. lia.
Qed.

Lemma update_disciplined s s' :
  update s = Ok s' -> disciplined s -> disciplined s'.
Proof.
  intros (a & b & c & d & e & f & g & h & Ha & Hb & Hc & Hd & He & Hf & Hg & Hh & ->)%update_Ok
    Hs.
  assert (Hu : disciplined (updateBankStates s)) by exact Hs.
  apply advanceCmdPacket_disciplined in Ha; [|done].
  apply advanceDataPacket_disciplined in Hb; [|done].
  apply drainWriteData_disciplined in Hc; [|done].
  assert (Hdd : disciplined d).
  { pose proof (refreshGate_frame _ _ Hd) as (_ & F & _).
    apply refreshGate_more in Hd. destruct Hd as (_ & _ & C & D & _).
    by eapply disciplined_eq. }
  apply issueCommand_disciplined in He; [|done].
  assert (Hdf : disciplined f).
  { pose proof (scheduleTransaction_frame _ _ Hf) as (_ & _ & F & _).
    apply scheduleTransaction_more in Hf. destruct Hf as (_ & C & D & _).
    by eapply disciplined_eq. }
  assert (Hdg : disciplined g).
  { pose proof (calculatePower_steps _ _ _ _ Hg) as (_ & _ & F & _).
    apply calculatePower_more in Hg. destruct Hg as (_ & C & D & _).
    by eapply disciplined_eq. }
  assert (Hdh : disciplined h).
  { pose proof (returnPath_frame _ _ Hh) as (_ & F & _).
    apply returnPath_more in Hh. destruct Hh as (_ & C & D & _).
    by eapply disciplined_eq. }
  exact Hdh.
Qed.

Lemma call_disciplined c s s' :
  call c s = Ok s' -> disciplined s -> disciplined s'.
Proof.
  intros H Hs. destruct c as [trans| | |bpacket|]; simpl in H.
  - injection H as <-. unfold addTransaction.
    by destruct (WillAcceptTransaction s).
  - by eapply update_disciplined.
  - by injection H as <-.
  - unfold receiveFromBus in H. destruct (decide _); [done|].
    apply bind_Ok in H. destruct H as (x & _ & [= <-]). exact Hs.
  - injection H as <-. exact Hs.
Qed.

(** X20 (what travels on which bus).  In every state reached from the
    constructor by any sequence of calls, the packet on the command bus,
    if any, is not a DATA packet, the packet on the data bus and every
    packet waiting in the write FIFO is one, and the FIFO holds as many
    countdowns as packets. *)
Theorem bus_discipline (parent : MemorySystem) (cq : CommandQueue)
    (rks : list (Rank RankBody)) (cs : list Call) (s : MemoryController) :
  run cs (MemoryController_new parent cq rks) = Ok s ->
  disciplined s.
Proof.
  assert (Hinit : disciplined (MemoryController_new parent cq rks))
    by (by repeat split).
  revert Hinit. generalize (MemoryController_new parent cq rks).
  induction cs as [|c cs IH]; intros s0 Hinit H; simpl in H.
  - by injection H as <-.
  - apply bind_Ok in H. destruct H as (s1 & H1 & H).
    eapply IH; [|exact H]. by eapply call_disciplined.
Qed.

End Discipline.

(** ** Refresh, over many updates *)

Section RefreshTiming.

Context {cfg : Config} {env : Collaborators}.

Hypothesis period_fits : 0 < REFRESH_PERIOD_tCK < 2 ^ 32.
Hypothesis stagger_fits :
  0 < REFRESH_STAGGER
  /\ Z.of_nat NUM_RANKS * REFRESH_STAGGER <= REFRESH_PERIOD_tCK.
Hypothesis some_rank : (0 < NUM_RANKS)%nat.

Lemma refresh_inv_range r l j c :
  refresh_inv (r, l) -> l !! j = Some c -> 0 <= c <= REFRESH_PERIOD_tCK.
Proof.
  unfold refresh_inv, staggered. simpl. intros (_ & _ & _ & Hrange & _) Hj.
  rewrite Forall_forall in Hrange. apply Hrange.
  unfold rotated. apply elem_of_app.
  apply list_elem_of_lookup_2 in Hj.
  rewrite <- (take_drop r l) in Hj. apply elem_of_app in Hj. tauto.
Qed.

Lemma tick_lookup r l j c :
  refresh_inv (r, l) -> l !! j = Some c -> 0 < c ->
  snd (tickView (r, l)) !! j = Some (c - 1).
Proof.
  intros Hinv Hj Hc. pose proof (refresh_inv_range _ _ _ _ Hinv Hj) as Hrange.
  unfold tickView. simpl. change (map ?f ?x) with (f <$> x).
  rewrite list_lookup_fmap.
  assert (Hgate : snd (gateView (r, l)) !! j = Some c).
  { unfold gateView. simpl. destruct (l !! r) as [[| |]|] eqn:Hr; simpl; try done.
    rewrite list_lookup_insert_ne; [done|]. intros ->. rewrite Hr in Hj.
    injection Hj as <-. lia. }
  rewrite Hgate. simpl. f_equal. apply u32_small. lia.
Qed.

Lemma tick_fire r l :
  l !! r = Some 0 ->
  tickView (r, l)
  = (nextRefreshRank r,
     map (fun c => u32 (c - 1)) (<[r := REFRESH_PERIOD_tCK]> l)).
Proof. intros Hr. unfold tickView, gateView. simpl. by rewrite Hr. Qed.

Lemma cycles_countdown n s s' j c :
  refresh_inv (refreshView s) ->
  refreshCountdown s !! j = Some c ->
  Z.of_nat n <= c ->
  cycles n s = Ok s' ->
  refreshCountdown s' !! j = Some (c - Z.of_nat n)
  /\ refresh_inv (refreshView s').
Proof.
  revert s c. induction n as [|n IH]; intros s c Hinv Hj Hn H; simpl in H.
  - injection H as <-. split; [|done]. rewrite Hj. f_equal. lia.
  - apply bind_Ok in H. destruct H as (s1 & H1 & H).
    apply update_refreshView in H1.
    assert (Hinv1 : refresh_inv (refreshView (step s1))).
    { change (refreshView (step s1)) with (refreshView s1). rewrite H1.
      by apply tickView_inv. }
    assert (Hj1 : refreshCountdown (step s1) !! j = Some (c - 1)).
    { change (refreshCountdown (step s1)) with (snd (refreshView s1)).
      rewrite H1. apply tick_lookup; [done|done|lia]. }
    assert (Hle : Z.of_nat n <= c - 1) by lia.
    destruct (IH _ _ Hinv1 Hj1 Hle H) as [Hc Hinv'].
    split; [|done]. rewrite Hc. f_equal. lia.
Qed.

Lemma reachable_refresh_inv parent cq rks cs s :
  run cs (MemoryController_new parent cq rks) = Ok s ->
  refresh_inv (refreshView s).
Proof.
  intros H.
  eapply (run_refresh_inv period_fits stagger_fits some_rank); [|exact H].
  apply (constructor_refresh_inv period_fits stagger_fits some_rank).
Qed.

(** X21 (every rank's refresh comes up on time).  Take any state
    reached from the constructor and any rank, and let [c] be the rank's
    refresh countdown.  After [c] rounds of [update(); step()] the
    countdown is zero and the rank is the refresh rank, so the update
    that comes next asks for its refresh: no rank is skipped and no
    countdown wraps around. *)
Theorem refresh_on_time (parent : MemorySystem) (cq : CommandQueue)
    (rks : list (Rank RankBody)) (cs : list Call) (s s' : MemoryController)
    (j : nat) (c : Z) :
  run cs (MemoryController_new parent cq rks) = Ok s ->
  refreshCountdown s !! j = Some c ->
  cycles (Z.to_nat c) s = Ok s' ->
  0 <= c <= REFRESH_PERIOD_tCK
  /\ refreshCountdown s' !! j = Some 0
  /\ refreshRank s' = j
  /\ refreshDue s' = true.
Proof.
  intros Hrun Hj Hcyc.
  pose proof (reachable_refresh_inv _ _ _ _ _ Hrun) as Hinv.
  pose proof (refresh_inv_range _ _ _ _ Hinv Hj) as Hrange.
  assert (Hle : Z.of_nat (Z.to_nat c) <= c) by lia.
  destruct (cycles_countdown _ _ _ _ _ Hinv Hj Hle Hcyc) as [Hzero Hinv'].
  replace (c - Z.of_nat (Z.to_nat c)) with 0 in Hzero by lia.
  assert (Hrank : j = refreshRank s').
  { eapply (refresh_inv_due some_rank); [exact Hinv'|exact Hzero|].
    destruct stagger_fits. lia. }
  split; [done|]. split; [done|]. split; [done|].
  unfold refreshDue. by rewrite <- Hrank, Hzero.
Qed.

(** X22 (the refresh period).  From a reachable state in which the
    refresh of a rank is due, the rank's countdown is
    [REFRESH_PERIOD_tCK - k] after [k] rounds of [update(); step()], for
    every [k] from 1 to the period: its refresh is not due again before
    the period is over, and is due exactly when it is. *)
Theorem refresh_period (parent : MemorySystem) (cq : CommandQueue)
    (rks : list (Rank RankBody)) (cs : list Call) (s sk : MemoryController)
    (k : nat) :
  run cs (MemoryController_new parent cq rks) = Ok s ->
  refreshDue s = true ->
  1 <= Z.of_nat k <= REFRESH_PERIOD_tCK ->
  cycles k s = Ok sk ->
  refreshCountdown sk !! refreshRank s
  = Some (REFRESH_PERIOD_tCK - Z.of_nat k)
  /\ (Z.of_nat k < REFRESH_PERIOD_tCK ->
      ~ (refreshRank sk = refreshRank s /\ refreshDue sk = true))
  /\ (Z.of_nat k = REFRESH_PERIOD_tCK ->
      refreshRank sk = refreshRank s /\ refreshDue sk = true).
Proof.
  intros Hrun Hdue Hk Hcyc.
  pose proof (reachable_refresh_inv _ _ _ _ _ Hrun) as Hinv.
  unfold refreshDue in Hdue.
  destruct (refreshCountdown s !! refreshRank s) as [c|] eqn:Hc; [|done].
  apply Z.eqb_eq in Hdue. subst c.
  destruct k as [|k]; [lia|]. simpl in Hcyc.
  apply bind_Ok in Hcyc. destruct Hcyc as (s1 & H1 & Hcyc).
  apply update_refreshView in H1.
  assert (Hinv1 : refresh_inv (refreshView (step s1))).
  { change (refreshView (step s1)) with (refreshView s1). rewrite H1.
    by apply tickView_inv. }
  assert (Hlen : (refreshRank s < length (refreshCountdown s))%nat)
    by (by eapply lookup_lt_Some).
  assert (Hfirst : refreshCountdown (step s1) !! refreshRank s
                   = Some (REFRESH_PERIOD_tCK - 1)).
  { change (refreshCountdown (step s1)) with (snd (refreshView s1)).
    rewrite H1. unfold refreshView. rewrite (tick_fire _ _ Hc). simpl.
    change (map ?f ?x) with (f <$> x).
    rewrite list_lookup_fmap, list_lookup_insert_eq by done. simpl.
    f_equal. apply u32_small. lia. }
  assert (Hle : Z.of_nat k <= REFRESH_PERIOD_tCK - 1) by lia.
  destruct (cycles_countdown _ _ _ _ _ Hinv1 Hfirst Hle Hcyc) as [Hcount Hinvk].
  assert (Hcount' : refreshCountdown sk !! refreshRank s
                    = Some (REFRESH_PERIOD_tCK - Z.of_nat (S k))).
  { rewrite Hcount. f_equal. lia. }
  split; [done|]. split.
  - intros Hlt [Hrank Hd]. unfold refreshDue in Hd.
    rewrite Hrank, Hcount' in Hd. apply Z.eqb_eq in Hd. lia.
  - intros Heq. rewrite Heq, Z.sub_diag in Hcount'.
    assert (Hrank : refreshRank s = refreshRank sk).
    { eapply (refresh_inv_due some_rank); [exact Hinvk|exact Hcount'|].
      destruct stagger_fits. lia. }
    split; [done|]. unfold refreshDue. by rewrite <- Hrank, Hcount'.
Qed.

End RefreshTiming.

(** ** No access outside the tables *)

Section InBounds.

Context {cfg : Config} {env : Collaborators}.

(** The contract of the collaborators: the command queue hands out only
    packets that name a bank of the system, as long as it is given only
    such packets; the address mapping yields a bank of the system; a
    transaction without a bus packet type is an error of its own. *)
Variable Q : CommandQueue -> Prop.
Hypothesis Q_needRefresh :
  forall r cq, (r < NUM_RANKS)%nat -> Q cq -> Q (cq_needRefresh r cq).
Hypothesis Q_pop :
  forall bs cq, Q cq ->
    Q (snd (cq_pop bs cq)) /\ forall p, fst (cq_pop bs cq) = Some p -> inRange p.
Hypothesis Q_enqueue : forall p cq, inRange p -> Q cq -> Q (cq_enqueue p cq).
Hypothesis Q_step : forall cq, Q cq -> Q (cq_step cq).
Hypothesis mapping_inRange :
  forall a, (addrRank (addressMapping a) < NUM_RANKS)%nat
            /\ (addrBank (addressMapping a) < NUM_BANKS)%nat.
Hypothesis type_error : forall t, getBusPacketType t ≠ Abort OutOfBounds.
Hypothesis some_bank : (0 < NUM_BANKS)%nat.

Lemma within_bind {A B} (P : A -> Prop) (R : B -> Prop) (m : Outcome A)
    (f : A -> Outcome B) :
  within P m -> (forall a, P a -> within R (f a)) -> within R (m ≫= f).
Proof. destruct m as [a|e]; simpl; auto. Qed.

Lemma shaped_eq s a :
  shape a = shape s -> refreshRank a = refreshRank s -> shaped s -> shaped a.
Proof. unfold shaped. by intros -> ->. Qed.

Lemma wired_eq s a :
  cmdBus a = cmdBus s -> dataBus a = dataBus s ->
  writeDataToSend a = writeDataToSend s ->
  wired s -> wired a.
Proof. unfold wired, cmdBus, dataBus. intros [= -> _] [= -> _] ->. done. Qed.

Lemma shaped_row s r :
  shaped s -> (r < NUM_RANKS)%nat ->
  exists row, bankStates s !! r = Some row /\ length row = NUM_BANKS.
Proof.
  intros [Hshape _] Hr. unfold shape in Hshape.
  injection Hshape as Hbs _ _ _ _ _ _ _ _ _ _ _ _ _.
  assert (Hl : (length <$> bankStates s) !! r = Some NUM_BANKS).
  { change (length <$> bankStates s) with (map length (bankStates s)).
    rewrite Hbs. by apply lookup_replicate_2. }
  rewrite list_lookup_fmap in Hl.
  destruct (bankStates s !! r) as [row|]; [|done].
  exists row. split; [done|]. by injection Hl.
Qed.

Lemma shaped_bank s p :
  shaped s -> inRange p ->
  exists x, lookup_bank (rank p) (bank p) (bankStates s) = Some x.
Proof.
  intros Hs [Hr Hb]. destruct (shaped_row s _ Hs Hr) as (row & Hrow & Hlen).
  unfold lookup_bank. rewrite Hrow. simpl.
  apply lookup_lt_is_Some_2. lia.
Qed.

Lemma SEQUENTIAL_lt r b :
  (r < NUM_RANKS)%nat -> (b < NUM_BANKS)%nat ->
  (SEQUENTIAL r b < NUM_RANKS * NUM_BANKS)%nat.
Proof. unfold SEQUENTIAL. nia. Qed.

Ltac shape_facts H :=
  let Hshape := fresh "Hshape" in
  let Hrank := fresh "Hrank" in
  destruct H as [Hshape Hrank]; unfold shape in Hshape;
  injection Hshape as Lbs Lpd Lrk Lrc Lbg Lbu Lae Lre Lrb Lwb Lel Lgt Lrr Lwr.

Lemma updateBankStates_sound s :
  sound Q s -> sound Q (updateBankStates s).
Proof.
  intros (Hsh & Hw & Hd & HQ).
  split; [|split; [|split]]; [|exact Hw|exact Hd|exact HQ].
  split; [rewrite updateBankStates_shape; apply Hsh|apply Hsh].
Qed.

Lemma advanceCmdPacket_sound s :
  sound Q s -> within (sound Q) (advanceCmdPacket s).
Proof.
  intros (Hsh & Hw & Hd & HQ).
  destruct (advanceCmdPacket s) as [a|e] eqn:H; simpl.
  - pose proof (advanceCmdPacket_frame _ _ H) as (_ & R & F & _).
    pose proof (advanceCmdPacket_more _ _ H) as (B & D & _ & _ & _ & C & _).
    injection R as Rr _. injection F as _ Ff. injection B as _ _ _ Bq.
    split; [|split; [|split]].
    + eapply shaped_eq; [by apply advanceCmdPacket_shape|done|done].
    + destruct Hw as (Hwc & Hwd & Hwf). unfold wired, cmdBus, dataBus in *.
      injection C as -> _. injection D as -> _. rewrite Ff.
      split; [intros p; destruct (cmdArrives s); [done|apply Hwc]|done].
    + by eapply advanceCmdPacket_disciplined.
    + by rewrite Bq.
  - intros ->. unfold advanceCmdPacket in H.
    destruct (outgoingCmdPacket s) as [p|] eqn:Hp; [|done]. simpl in H.
    destruct (_ =? 0); [|done]. unfold update_at in H. simpl in H.
    destruct (ranks s !! rank p) eqn:Hr; [done|]. apply lookup_ge_None in Hr.
    destruct Hw as (Hwc & _). destruct (Hwc p Hp) as [Hrk _].
    shape_facts Hsh. lia.
Qed.

Lemma advanceDataPacket_sound s :
  sound Q s -> within (sound Q) (advanceDataPacket s).
Proof.
  intros (Hsh & Hw & Hd & HQ).
  destruct (advanceDataPacket s) as [a|e] eqn:H; simpl.
  - pose proof (advanceDataPacket_frame _ _ H) as (_ & R & F & _).
    pose proof (advanceDataPacket_more _ _ H) as (B & C & _ & _ & _ & D & _).
    injection R as Rr _. injection F as _ Ff. injection B as _ _ _ Bq.
    split; [|split; [|split]].
    + eapply shaped_eq; [by apply advanceDataPacket_shape|done|done].
    + destruct Hw as (Hwc & Hwd & Hwf). unfold wired, cmdBus, dataBus in *.
      injection C as -> _. injection D as -> _. rewrite Ff.
      split; [done|].
      split; [intros p; destruct (dataArrives s); [done|apply Hwd]|done].
    + by eapply advanceDataPacket_disciplined.
    + by rewrite Bq.
  - intros ->. unfold advanceDataPacket in H.
    destruct (outgoingDataPacket s) as [p|] eqn:Hp; [|done]. simpl in H.
    destruct (_ =? 0); [|done]. unfold update_at, writeDataDone in H.
    assert (Hr : is_Some (ranks s !! rank p)).
    { apply lookup_lt_is_Some_2. destruct Hw as (_ & Hwd & _).
      destruct (Hwd p Hp) as [Hrk _]. shape_facts Hsh. lia. }
    destruct Hr as [r Hr]. simpl in H.
    destruct (WriteDataDone (parentMemorySystem s)); simpl in H;
      rewrite Hr in H; done.
Qed.

Lemma drainWriteData_sound s :
  sound Q s -> within (sound Q) (drainWriteData s).
Proof.
  intros (Hsh & Hw & Hd & HQ).
  destruct (drainWriteData s) as [a|e] eqn:H; simpl.
  - pose proof (drainWriteData_frame _ _ H) as (_ & R & _).
    pose proof (drainWriteData_more _ _ H) as (B & C & _).
    injection R as Rr _. injection B as _ _ _ Bq.
    split; [|split; [|split]].
    + eapply shaped_eq; [by apply drainWriteData_shape|done|done].
    + destruct Hw as (Hwc & Hwd & Hwf). unfold wired, cmdBus in *.
      injection C as -> _. split; [done|]. clear Hwc.
      unfold drainWriteData in H.
      destruct (writeDataCountdown s) as [|c cs]; [by injection H as <-|].
      simpl in H. destruct (u32 (c - 1)) as [|n|n].
      * destruct (outgoingDataPacket s); [done|].
        destruct (writeDataToSend s) as [|p ps]; [done|]. simpl in H.
        apply bind_Ok in H. destruct H as (w & _ & H). injection H as <-. simpl.
        apply Forall_cons in Hwf. destruct Hwf as [Hp Hps].
        split; [by intros ? [= <-]|done].
      * by injection H as <-.
      * by injection H as <-.
    + by eapply drainWriteData_disciplined.
    + by rewrite Bq.
  - intros ->. unfold drainWriteData in H.
    destruct Hd as (_ & _ & _ & Hlen). destruct Hw as (_ & _ & Hwf).
    destruct (writeDataCountdown s) as [|c cs]; [done|].
    simpl in H. destruct (u32 (c - 1)) as [|n|n]; [|done|done].
    destruct (outgoingDataPacket s); [done|].
    destruct (writeDataToSend s) as [|p ps]; [done|]. simpl in H.
    apply Forall_cons in Hwf. destruct Hwf as [[Hr Hb] _].
    unfold update_at in H.
    destruct (totalWritesPerBank s !! SEQUENTIAL (rank p) (bank p)) eqn:Hx; [done|].
    apply lookup_ge_None in Hx. pose proof (SEQUENTIAL_lt _ _ Hr Hb).
    shape_facts Hsh. lia.
Qed.

Lemma refreshGate_sound s :
  sound Q s -> within (sound Q) (refreshGate s).
Proof.
  intros (Hsh & Hw & Hd & HQ).
  destruct (refreshGate s) as [a|e] eqn:H; simpl.
  - pose proof (refreshGate_frame _ _ H) as (_ & F & _).
    pose proof (refreshGate_view _ _ H) as V.
    pose proof (refreshGate_more _ _ H) as (_ & Bq & C & D & _).
    injection F as _ Ff.
    split; [|split; [|split]].
    + split; [rewrite (refreshGate_shape _ _ H); apply Hsh|].
      assert (Hr : refreshRank a = fst (gateView (refreshView s)))
        by (change (refreshRank a) with (fst (refreshView a)); by rewrite V).
      rewrite Hr. unfold gateView, refreshView. simpl.
      destruct Hsh as [_ Hrank].
      destruct (refreshCountdown s !! refreshRank s) as [[| |]|]; simpl; try done.
      unfold nextRefreshRank. destruct (decide _); lia.
    + by eapply wired_eq.
    + eapply disciplined_eq; try done.
      pose proof (refreshGate_frame _ _ H) as (_ & F' & _). done.
    + rewrite Bq. unfold gateQueue. destruct (refreshDue s); [|done].
      apply Q_needRefresh; [apply Hsh|done].
  - intros ->. unfold refreshGate, at_index, update_at in H.
    destruct Hsh as [Hshape Hrank]. unfold shape in Hshape.
    injection Hshape as Lbs Lpd Lrk Lrc Lbg Lbu Lae Lre Lrb Lwb Lel Lgt Lrr Lwr.
    destruct (lookup_lt_is_Some_2 (refreshCountdown s) (refreshRank s)
                ltac:(lia)) as [c Hc].
    destruct (lookup_lt_is_Some_2 (ranks s) (refreshRank s) ltac:(lia)) as [r Hr].
    destruct (lookup_lt_is_Some_2 (powerDown s) (refreshRank s) ltac:(lia))
      as [pd Hpd].
    rewrite Hc in H. simpl in H. destruct (c =? 0); simpl in H.
    + rewrite Hr in H. done.
    + rewrite Hpd in H. simpl in H.
      destruct (pd && (c <=? tXP)); simpl in H; [|done].
      rewrite Hr in H. done.
Qed.

Lemma applyCommand_total p s :
  shaped s -> inRange p -> busPacketType p ≠ DATA ->
  exists a, applyCommand p s = Ok a.
Proof.
  intros Hsh Hp Hty.
  destruct (shaped_bank s p Hsh Hp) as (b & Hb).
  destruct (shaped_row s (rank p) Hsh (proj1 Hp)) as (row & Hrow & _).
  destruct Hp as [Hr _]. shape_facts Hsh.
  destruct (lookup_lt_is_Some_2 (burstEnergy s) (rank p) ltac:(lia)) as [eb Heb].
  destruct (lookup_lt_is_Some_2 (actpreEnergy s) (rank p) ltac:(lia)) as [ea Hea].
  destruct (lookup_lt_is_Some_2 (refreshEnergy s) (rank p) ltac:(lia)) as [er Her].
  apply bank_at_Ok in Hb.
  unfold applyCommand, issueRead, issueWrite, issueActivate, issuePrecharge,
    issueRefresh, add_energy, update_at.
  destruct (busPacketType p) eqn:Hp; try done;
    simpl; rewrite ?Hb; simpl;
    try destruct (isSmartMRAM); simpl;
    try destruct (bool_decide (lastCommand b = ACTIVATE)); simpl;
    rewrite ?Hea, ?Heb, ?Her, ?Hrow; simpl; rewrite ?Hb, ?Heb; simpl;
    eexists; reflexivity.
Qed.

Lemma pushWriteData_shaped p s : shaped s -> shaped (pushWriteData p s).
Proof. unfold pushWriteData. by destruct (decide _). Qed.

Lemma issueCommand_sound s :
  sound Q s -> within (sound Q) (issueCommand s).
Proof.
  intros (Hsh & Hw & Hd & HQ).
  destruct (Q_pop (bankStates s) (commandQueue s) HQ) as [HQ' Hin].
  destruct (issueCommand s) as [a|e] eqn:H; simpl.
  - pose proof (issueCommand_frame _ _ H) as (_ & R & _).
    pose proof (issueCommand_fifo _ _ H) as F.
    pose proof (issueCommand_more _ _ H) as (_ & D & _ & _ & _ & Bq & Hpop).
    injection R as Rr _.
    split; [|split; [|split]].
    + eapply shaped_eq; [by apply issueCommand_shape|done|done].
    + destruct Hw as (Hwc & Hwd & Hwf). unfold wired, dataBus in *.
      injection D as -> _.
      destruct (fst (cq_pop (bankStates s) (commandQueue s))) as [p|] eqn:Hp.
      * specialize (Hin p eq_refl).
        apply issue_more in Hpop.
        destruct Hpop as (_ & _ & _ & _ & _ & C & _).
        injection C as -> _.
        split; [by intros ? [= <-]|]. split; [done|].
        destruct F as [F | (p' & _ & [= <-] & _ & ->)].
        -- injection F as _ ->. done.
        -- apply Forall_app. split; [done|]. apply Forall_singleton. exact Hin.
      * subst a. simpl. done.
    + by eapply issueCommand_disciplined.
    + by rewrite Bq.
  - intros ->. unfold issueCommand in H.
    destruct (cq_pop (bankStates s) (commandQueue s)) as [[p|] cq]; [|done].
    specialize (Hin p eq_refl). simpl in *.
    destruct (decide (busPacketType p = DATA)) as [Hty|Hty].
    + unfold issue, applyCommand, pushWriteData in H. rewrite Hty in H.
      simpl in H. done.
    + destruct (applyCommand_total p (pushWriteData p (set_commandQueue cq s)))
        as (a & Ha); [|done|done|].
      * apply pushWriteData_shaped. exact Hsh.
      * unfold issue in H. rewrite Ha in H. simpl in H.
        by destruct (outgoingCmdPacket a).
Qed.

Lemma scheduleTransaction_sound s :
  sound Q s -> within (sound Q) (scheduleTransaction s).
Proof.
  intros (Hsh & Hw & Hd & HQ).
  destruct (scheduleTransaction s) as [a|e] eqn:H; simpl.
  - pose proof (scheduleTransaction_frame _ _ H) as (_ & R & F & _).
    pose proof (scheduleTransaction_more _ _ H) as (_ & C & D & _).
    injection R as Rr _.
    split; [|split; [|split]].
    + eapply shaped_eq; [by apply scheduleTransaction_shape|done|done].
    + eapply wired_eq; try done. by injection F.
    + by eapply disciplined_eq.
    + unfold scheduleTransaction in H.
      destruct (firstAdmissible _ _) as [[t q]|]; [|by injection H as <-].
      destruct (getBusPacketType t) as [ty|]; [|done]. simpl in H.
      injection H as <-. simpl.
      destruct (decide (transactionType t = DATA_READ)); simpl;
        (apply Q_enqueue; [apply mapping_inRange|]);
        (apply Q_enqueue; [apply mapping_inRange|done]).
  - intros ->. unfold scheduleTransaction in H.
    destruct (firstAdmissible _ _) as [[t q]|]; [|done].
    destruct (getBusPacketType t) as [ty|e] eqn:Hty; [done|].
    simpl in H. injection H as ->. by apply (type_error t).
Qed.

(** What the power loop needs of the tables. *)
Lemma powerRank_total i s :
  (i < NUM_RANKS)%nat ->
  map length (bankStates s) = replicate NUM_RANKS NUM_BANKS ->
  length (powerDown s) = NUM_RANKS ->
  length (ranks s) = NUM_RANKS ->
  length (backgroundEnergy s) = NUM_RANKS ->
  exists a, powerRank (Ok s) i = Ok a.
Proof.
  intros Hi Lbs Lpd Lrk Lbg.
  assert (Hrow : exists row, bankStates s !! i = Some row /\ row ≠ []).
  { assert (Hl : (length <$> bankStates s) !! i = Some NUM_BANKS).
    { change (length <$> bankStates s) with (map length (bankStates s)).
      rewrite Lbs. by apply lookup_replicate_2. }
    rewrite list_lookup_fmap in Hl.
    destruct (bankStates s !! i) as [row|]; [|done].
    exists row. split; [done|]. injection Hl as Hl. intros ->. simpl in Hl. lia. }
  destruct Hrow as (row & Hrow & Hne).
  destruct (lookup_lt_is_Some_2 (powerDown s) i ltac:(lia)) as [pd Hpd].
  destruct (lookup_lt_is_Some_2 (ranks s) i ltac:(lia)) as [r Hr].
  destruct (lookup_lt_is_Some_2 (backgroundEnergy s) i ltac:(lia)) as [v Hv].
  unfold powerRank. simpl.
  destruct USE_LOW_POWER.
  - rewrite (lowPower_total i s row r pd Hrow Hr Hpd Hne). simpl.
    pose proof (powerTransition_frame i row r pd s Hrow) as F. simpl in F.
    destruct F as (F1 & _ & _ & _ & _ & _ & F7 & F8 & _).
    injection F1 as _ _ F1 _.
    assert (Hrow' : is_Some (bankStates (powerTransition i row r pd s) !! i)).
    { apply lookup_lt_is_Some_2.
      rewrite <- (length_map length), F7, length_map.
      by eapply lookup_lt_Some. }
    assert (Hpd' : is_Some (powerDown (powerTransition i row r pd s) !! i)).
    { apply lookup_lt_is_Some_2. rewrite F8. lia. }
    destruct Hrow' as [row' Hrow']. destruct Hpd' as [pd' Hpd'].
    unfold at_index, add_energy, update_at.
    rewrite Hrow', Hpd'. simpl. rewrite F1, Hv. simpl. by eexists.
  - simpl. unfold at_index, add_energy, update_at.
    rewrite Hrow, Hpd. simpl. rewrite Hv. simpl. by eexists.
Qed.

Lemma calculatePower_total n k s :
  (k + n <= NUM_RANKS)%nat ->
  map length (bankStates s) = replicate NUM_RANKS NUM_BANKS ->
  length (powerDown s) = NUM_RANKS ->
  length (ranks s) = NUM_RANKS ->
  length (backgroundEnergy s) = NUM_RANKS ->
  exists a, foldl powerRank (Ok s) (seq k n) = Ok a.
Proof.
  revert k s. induction n as [|n IH]; intros k s Hk Lbs Lpd Lrk Lbg.
  - by eexists.
  - change (exists a, foldl powerRank (powerRank (Ok s) k) (seq (S k) n) = Ok a).
    destruct (powerRank_total k s ltac:(lia) Lbs Lpd Lrk Lbg) as (s1 & H1).
    rewrite H1.
    pose proof (powerRank_frame _ _ _ H1) as (_ & _ & _ & _ & _ & _ & _ & _
                                              & v & x & _ & _ & Hbg).
    apply powerRank_more in H1.
    destruct H1 as (_ & _ & _ & _ & _ & _ & P7 & P8 & P9 & _).
    apply IH; [lia|congruence|congruence|congruence|].
    by rewrite Hbg, length_insert.
Qed.

Lemma calculatePower_sound s :
  sound Q s -> within (sound Q) (calculatePower s).
Proof.
  intros (Hsh & Hw & Hd & HQ).
  destruct (calculatePower s) as [a|e] eqn:H; simpl.
  - pose proof (calculatePower_steps _ _ _ _ H) as (_ & R & F & _).
    pose proof (calculatePower_more _ _ _ _ H) as (Bq & C & D & _).
    injection R as Rr _. injection Bq as Bq _ _.
    split; [|split; [|split]].
    + eapply shaped_eq; [by apply calculatePower_shape|done|done].
    + eapply wired_eq; try done. by injection F.
    + by eapply disciplined_eq.
    + by rewrite Bq.
  - intros ->. unfold calculatePower in H. shape_facts Hsh.
    destruct (calculatePower_total NUM_RANKS 0 s ltac:(lia) Lbs Lpd Lrk Lbg)
      as (a & Ha).
    rewrite Ha in H. done.
Qed.

Lemma returnPath_sound s :
  sound Q s -> within (sound Q) (returnPath s).
Proof.
  intros (Hsh & Hw & Hd & HQ).
  destruct (returnPath s) as [a|e] eqn:H; simpl.
  - pose proof (returnPath_frame _ _ H) as (R & F & _).
    pose proof (returnPath_more _ _ H) as (Bq & C & D & _).
    injection R as Rr _. injection Bq as _ _ Bq _.
    split; [|split; [|split]].
    + eapply shaped_eq; [by apply returnPath_shape|done|done].
    + eapply wired_eq; try done. by injection F.
    + by eapply disciplined_eq.
    + by rewrite Bq.
  - intros ->. unfold returnPath, insertHistogram, update_at in H.
    destruct (returnTransaction s) as [|rt rest]; [done|].
    destruct (findPending _ _) as [[t others]|]; [|done]. simpl in H.
    destruct (mapping_inRange (address rt)) as [Hr Hb].
    pose proof (SEQUENTIAL_lt _ _ Hr Hb) as Hlt.
    shape_facts Hsh.
    destruct (lookup_lt_is_Some_2 (totalEpochLatency s)
                (SEQUENTIAL (addrRank (addressMapping (address rt)))
                   (addrBank (addressMapping (address rt)))) ltac:(lia))
      as [v Hv].
    rewrite Hv in H. done.
Qed.

Lemma closing_sound s :
  sound Q s -> sound Q (stepCommandQueue (decrementRefresh s)).
Proof.
  intros (Hsh & Hw & Hd & HQ). split; [|split; [|split]].
  - split; [rewrite closing_shape; apply Hsh|apply Hsh].
  - exact Hw.
  - exact Hd.
  - simpl. by apply Q_step.
Qed.

Lemma beforeReturn_sound s : sound Q s -> within (sound Q) (beforeReturn s).
Proof.
  intros Hs. unfold beforeReturn.
  apply (within_bind (sound Q));
    [apply advanceCmdPacket_sound; by apply updateBankStates_sound|].
  intros a Ha. apply (within_bind (sound Q)); [by apply advanceDataPacket_sound|].
  intros b Hb. apply (within_bind (sound Q)); [by apply drainWriteData_sound|].
  intros c Hc. apply (within_bind (sound Q)); [by apply refreshGate_sound|].
  intros d Hd. apply (within_bind (sound Q)); [by apply issueCommand_sound|].
  intros e He. apply (within_bind (sound Q)); [by apply scheduleTransaction_sound|].
  intros f Hf. by apply calculatePower_sound.
Qed.

Lemma update_sound s : sound Q s -> within (sound Q) (update s).
Proof.
  intros Hs. unfold update.
  apply (within_bind (sound Q)); [by apply beforeReturn_sound|].
  intros g Hg. apply (within_bind (sound Q)); [by apply returnPath_sound|].
  intros h Hh. simpl. by apply closing_sound.
Qed.

Lemma step_sound s : sound Q s -> sound Q (step s).
Proof. by intros (Hsh & Hw & Hd & HQ). Qed.

(** X23 (no access outside the tables).  Take a controller whose tables
    have the sizes the constructor gives them and whose packets name
    banks of the system, and collaborators that keep their contract.
    Then however many rounds of [update(); step()] are run, no vector is
    ever indexed out of range: the run either goes through, in a state
    of the same kind, or stops on one of the simulator's own errors (a
    bus collision, a bad packet or transaction type, a return that
    matches no pending read). *)
Theorem cycles_in_bounds (n : nat) (s : MemoryController) :
  sound Q s -> within (sound Q) (cycles n s).
Proof.
  revert s. induction n as [|n IH]; intros s Hs; simpl; [done|].
  apply (within_bind (sound Q)); [by apply update_sound|].
  intros a Ha. apply IH. by apply step_sound.
Qed.

End InBounds.

(** ** Pending reads and the latency bins *)

Section Pending.

Context {cfg : Config} {env : Collaborators}.

Lemma findPending_length addr l t l' :
  findPending addr l = Some (t, l') -> length l = S (length l').
Proof.
  revert t l'. induction l as [|x l IH]; intros t l' H; simpl in H; [done|].
  destruct (address x =? addr).
  - by injection H as <- <-.
  - destruct (findPending addr l) as [[m l'']|]; [|done].
    injection H as <- <-. simpl. f_equal. eauto.
Qed.

(** X24 (the life of a pending read).  Within one [update], the list of
    pending reads is first stamped by the popped command, which keeps
    its addresses and order; then the read scheduled in this update, if
    it is one, is appended; then the return path, if a return is queued,
    takes out the first read with the address of that return, which may
    be the one just appended.  So the list grows by the scheduled read
    and shrinks by the returned one, and by nothing else. *)
Theorem pending_reads_balance (s s' : MemoryController) :
  update s = Ok s' ->
  exists mid : list Transaction,
    map address mid
    = map address (pendingReadTransactions s)
      ++ match scheduled s with
         | Some (t, _) =>
             if decide (transactionType t = DATA_READ) then [address t] else []
         | None => []
         end
    /\ match returnTransaction s with
       | [] => pendingReadTransactions s' = mid
       | rt :: _ =>
           exists t,
             findPending (address rt) mid = Some (t, pendingReadTransactions s')
             /\ length mid = S (length (pendingReadTransactions s'))
       end.
Proof.
  intros H. apply update_stages in H.
  destruct H as (d & e & f & g & h & He & Hf & Hg & Hh & -> & Hbs & Hcq & Hq & Hrv
                 & _).
  injection Hq as _ Hpd Htq.
  pose proof (issueCommand_frame _ _ He) as (Erv & _ & Etq & _).
  pose proof (issueCommand_more _ _ He) as (_ & _ & _ & _ & _ & Ecq & Hpop).
  rewrite (update_pop s d Hbs Hcq) in Ecq, Hpop.
  pose proof (scheduleTransaction_frame _ _ Hf) as (Frv & _).
  pose proof (calculatePower_steps _ _ _ _ Hg) as (Grv & _).
  apply calculatePower_more in Hg. destruct Hg as (Gp & _).
  injection Gp as _ Gp _.
  exists (pendingReadTransactions g). split.
  - rewrite Gp.
    assert (Hpe : map address (pendingReadTransactions e)
                  = map address (pendingReadTransactions s)).
    { rewrite <- Hpd. destruct (fst (popped s)) as [p|].
      - apply issue_stamps_address in Hpop. exact Hpop.
      - by subst e. }
    unfold scheduled. rewrite <- Ecq, <- Htq, <- Etq, <- Hpe.
    unfold scheduleTransaction in Hf.
    destruct (firstAdmissible (commandQueue e) (transactionQueue e)) as [[t q]|].
    + destruct (getBusPacketType t) as [ty|]; [|done]. simpl in Hf.
      injection Hf as <-.
      destruct (decide (transactionType t = DATA_READ)); simpl.
      * by rewrite map_app.
      * by rewrite app_nil_r.
    + injection Hf as <-. by rewrite app_nil_r.
  - assert (Hrt : returnTransaction g = returnTransaction s).
    { assert (R : returnView g = returnView s) by congruence.
      by injection R as -> _ _ _ _ _. }
    unfold returnPath in Hh. rewrite Hrt in Hh.
    destruct (returnTransaction s) as [|rt rest]; [by injection Hh as <-|].
    destruct (findPending (address rt) _) as [[t others]|] eqn:Hfind; [|done].
    simpl in Hfind. simpl in Hh.
    apply bind_Ok in Hh. destruct Hh as (s1 & H1 & Hh).
    unfold insertHistogram in H1.
    apply bind_Ok in H1. destruct H1 as (l & _ & H1). injection H1 as <-.
    injection Hh as <-. simpl.
    exists t. split; [reflexivity|]. by eapply findPending_length.
Qed.

(** X25 (the latency bins).  A latency is filed under the largest
    multiple of [HISTOGRAM_BIN_SIZE] that is not above it: the bin of an
    [unsigned] value [v] is a multiple of the bin size with
    [bin <= v < bin + HISTOGRAM_BIN_SIZE]. *)
Theorem bin_floor (v : Z) :
  0 < HISTOGRAM_BIN_SIZE ->
  0 <= v < 2 ^ 32 ->
  bin v mod HISTOGRAM_BIN_SIZE = 0
  /\ bin v <= v < bin v + HISTOGRAM_BIN_SIZE.
Proof.
  intros Hsize Hv. unfold bin.
  assert (Hnz : HISTOGRAM_BIN_SIZE ≠ 0) by lia.
  pose proof (Z.div_mod v HISTOGRAM_BIN_SIZE Hnz) as Hdm.
  pose proof (Z.mod_pos_bound v HISTOGRAM_BIN_SIZE Hsize) as Hm.
  assert (Hq : 0 <= v / HISTOGRAM_BIN_SIZE) by (apply Z.div_pos; lia).
  rewrite u32_small by nia.
  split; [apply Z.mod_mul; lia|nia].
Qed.

End Pending.
(** ** The guard of an auto-precharging bank, cycle by cycle *)

Section AutoPrechargeGuard.

Context {cfg : Config} {env : Collaborators}.

Hypothesis low_power_off : USE_LOW_POWER = false.
Hypothesis read_delay : 0 <= READ_AUTOPRE_DELAY < 2 ^ 32.
Hypothesis write_delay : 0 <= WRITE_AUTOPRE_DELAY < 2 ^ 32.
Hypothesis read_covers : READ_TO_PRE_DELAY + tRP <= READ_AUTOPRE_DELAY.
Hypothesis write_covers : WRITE_TO_PRE_DELAY + tRP <= WRITE_AUTOPRE_DELAY.
Hypothesis fresh_bank : stateChangeCountdown BankState_init = 0.








End AutoPrechargeGuard.

Section PrechargeByTechnology.

Context {cfg : Config} {env : Collaborators}.


End PrechargeByTechnology.

(** ** The further properties at concrete inputs *)

Lemma read_guards_example :
  holds (@issue (ddr3 false) scripted (cmd READ 0 0 7) (opened false))
    (fun s' =>
       (exists b', lookup_bank 0 1 (bankStates s') = Some b'
                   /\ nextRead b' = 4 /\ nextWrite b' = 6)
       /\ lookup_bank 1 0 (bankStates s')
          = lookup_bank 1 0 (bankStates (opened false))).
Proof.
  assert (Hobs : observe (@issue (ddr3 false) scripted (cmd READ 0 0 7)
                            (opened false)) (fun _ => tt) = Some tt)
    by (vm_compute; reflexivity).
  unfold holds.
  destruct (@issue (ddr3 false) scripted (cmd READ 0 0 7) (opened false))
    as [s'|e] eqn:Hs'; [|discriminate Hobs].
  split.
  - destruct (@read_guards (ddr3 false) scripted (cmd READ 0 0 7)
                (opened false) s' 0%nat 1%nat
                (Build_BankState Idle 0 0 0 0 0 0 READ 0))
      as (b' & Hb' & Hsame & _).
    + left. reflexivity.
    + exact Hs'.
    + reflexivity.
    + intros H. discriminate H.
    + exists b'. split; [exact Hb'|]. apply Hsame. reflexivity.
  - destruct (@read_guards (ddr3 false) scripted (cmd READ 0 0 7)
                (opened false) s' 1%nat 0%nat
                (Build_BankState Idle 0 0 0 0 0 0 READ 0))
      as (b' & Hb' & _ & _ & Hidle).
    + left. reflexivity.
    + exact Hs'.
    + reflexivity.
    + intros H. discriminate H.
    + rewrite Hb'. rewrite Hidle; [reflexivity| |].
      * vm_compute. lia.
      * vm_compute. discriminate.
Defined.

Lemma write_guards_example :
  holds (@issue (ddr3 false) scripted (cmd WRITE 0 0 7) (opened false))
    (fun s' =>
       exists b', lookup_bank 0 1 (bankStates s') = Some b'
                  /\ nextWrite b' = 4 /\ nextRead b' = 18)
  /\ holds (@issue (ddr3 false) scripted (cmd WRITE_P 0 0 7) (opened false))
       (fun s' =>
          (exists b', lookup_bank 0 1 (bankStates s') = Some b'
                      /\ nextWrite b' = 4 /\ nextRead b' = 18)
          /\ (exists b', lookup_bank 0 0 (bankStates s') = Some b'
                         /\ nextActivate b' = 33
                         /\ nextWrite b' = 33 /\ nextRead b' = 33)).
Proof.
  split.
  - assert (Hobs : observe (@issue (ddr3 false) scripted (cmd WRITE 0 0 7)
                              (opened false)) (fun _ => tt) = Some tt)
      by (vm_compute; reflexivity).
    unfold holds.
    destruct (@issue (ddr3 false) scripted (cmd WRITE 0 0 7) (opened false))
      as [s'|e] eqn:Hs'; [|discriminate Hobs].
    destruct (@write_guards (ddr3 false) scripted (cmd WRITE 0 0 7)
                (opened false) s' 0%nat 1%nat
                (Build_BankState Idle 0 0 0 0 0 0 READ 0))
      as (b' & Hb' & Hsame & _).
    + left. reflexivity.
    + exact Hs'.
    + reflexivity.
    + exists b'. split; [exact Hb'|]. apply Hsame; [reflexivity|].
      intros (Hty & _). discriminate Hty.
  - assert (Hobs : observe (@issue (ddr3 false) scripted (cmd WRITE_P 0 0 7)
                              (opened false)) (fun _ => tt) = Some tt)
      by (vm_compute; reflexivity).
    unfold holds.
    destruct (@issue (ddr3 false) scripted (cmd WRITE_P 0 0 7) (opened false))
      as [s'|e] eqn:Hs'; [|discriminate Hobs].
    split.
    + destruct (@write_guards (ddr3 false) scripted (cmd WRITE_P 0 0 7)
                  (opened false) s' 0%nat 1%nat
                  (Build_BankState Idle 0 0 0 0 0 0 READ 0))
        as (b' & Hb' & Hsame & _).
      * right. reflexivity.
      * exact Hs'.
      * reflexivity.
      * exists b'. split; [exact Hb'|]. apply Hsame; [reflexivity|].
        intros (_ & _ & Hj). discriminate Hj.
    + destruct (@write_guards (ddr3 false) scripted (cmd WRITE_P 0 0 7)
                  (opened false) s' 0%nat 0%nat
                  (Build_BankState RowActive 7 0 0 0 0 0 ACTIVATE 0))
        as (b' & Hb' & _ & _ & _ & Hown).
      * right. reflexivity.
      * exact Hs'.
      * reflexivity.
      * destruct Hown as (Hact & Hwr & Hrd); [by repeat split|].
        exists b'. split; [exact Hb'|]. split; [exact Hact|].
        split; [rewrite Hwr; exact Hact|rewrite Hrd; exact Hact].
Defined.

Lemma autoprecharge_example :
  holds (@issue (ddr3 false) scripted (cmd READ_P 0 0 7) (opened false))
    (fun s' =>
       exists b',
         lookup_bank 0 0 (bankStates s') = Some b'
         /\ currentBankState b' = RowActive
         /\ nextActivate b' = 15
         /\ nextRead b' = 15
         /\ currentBankState (Nat.iter 4 (@bankCountdown (ddr3 false)) b')
            = RowActive
         /\ currentBankState (Nat.iter 5 (@bankCountdown (ddr3 false)) b')
            = Precharging
         /\ currentBankState
              (Nat.iter 10 (@bankCountdown (ddr3 false))
                 (Nat.iter 5 (@bankCountdown (ddr3 false)) b')) = Idle)
  /\ holds (@issue (profile false false 0 5200) scripted (cmd READ_P 0 0 7)
              (freshOn (profile false false 0 5200) noCallbacks []))
       (fun s' =>
          exists b',
            lookup_bank 0 0 (bankStates s') = Some b'
            /\ currentBankState
                 (Nat.iter 5 (@bankCountdown (profile false false 0 5200)) b')
               = Precharging
            /\ Nat.iter 1000 (@bankCountdown (profile false false 0 5200))
                 (Nat.iter 5 (@bankCountdown (profile false false 0 5200)) b')
               = Nat.iter 5 (@bankCountdown (profile false false 0 5200)) b').
Proof.
  split.
  - assert (Hobs : observe (@issue (ddr3 false) scripted (cmd READ_P 0 0 7)
                              (opened false)) (fun _ => tt) = Some tt)
      by (vm_compute; reflexivity).
    unfold holds.
    destruct (@issue (ddr3 false) scripted (cmd READ_P 0 0 7) (opened false))
      as [s'|e] eqn:Hs'; [|discriminate Hobs].
    destruct (@autoprecharge_lifecycle (ddr3 false) scripted (cmd READ_P 0 0 7)
                (opened false) s'
                (Build_BankState RowActive 7 0 0 0 0 0 ACTIVATE 0))
      as (b' & Hb' & Hst & _ & Hact & Hrd & _ & Hlife).
    + left. reflexivity.
    + exact Hs'.
    + reflexivity.
    + destruct (Hlife eq_refl) as (Hrun & _ & _ & _ & Hconv).
      destruct (Hconv eq_refl) as (Hpre & _ & Hidle & _).
      exists b'. split; [exact Hb'|]. split; [exact Hst|].
      split; [exact Hact|]. split; [rewrite Hrd; exact Hact|].
      split; [exact (proj1 (Hrun 4%nat eq_refl))|].
      split; [exact Hpre|]. apply Hidle. reflexivity.
  - assert (Hobs : observe (@issue (profile false false 0 5200) scripted
                              (cmd READ_P 0 0 7)
                              (freshOn (profile false false 0 5200) noCallbacks []))
                     (fun _ => tt) = Some tt)
      by (vm_compute; reflexivity).
    unfold holds.
    destruct (@issue (profile false false 0 5200) scripted (cmd READ_P 0 0 7)
                (freshOn (profile false false 0 5200) noCallbacks []))
      as [s'|e] eqn:Hs'; [|discriminate Hobs].
    destruct (@autoprecharge_lifecycle (profile false false 0 5200) scripted
                (cmd READ_P 0 0 7)
                (freshOn (profile false false 0 5200) noCallbacks []) s'
                (Build_BankState Idle 0 0 0 0 0 0 READ 0))
      as (b' & Hb' & _ & _ & _ & _ & _ & Hlife).
    + left. reflexivity.
    + exact Hs'.
    + reflexivity.
    + destruct (Hlife eq_refl) as (_ & _ & _ & _ & Hconv).
      destruct (Hconv eq_refl) as (Hpre & _ & _ & Hstay).
      exists b'. split; [exact Hb'|]. split; [exact Hpre|].
      exact (Hstay eq_refl 1000%nat).
Defined.

Lemma refresh_command_example :
  holds (@issue (ddr3 false) scripted (Build_BusPacket REFRESH 0 0 0 0 0 0)
           (fresh false noCallbacks []))
    (fun s' =>
       refreshEnergy s' = [145520; 0]
       /\ (exists b',
             lookup_bank 0 3 (bankStates s') = Some b'
             /\ currentBankState b' = Refreshing
             /\ nextActivate b' = 107
             /\ currentBankState (Nat.iter 107 (@bankCountdown (ddr3 false)) b')
                = Idle)
       /\ lookup_bank 1 3 (bankStates s')
          = Some (Build_BankState Idle 0 0 0 0 0 0 READ 0)).
Proof.
  assert (Hobs : observe (@issue (ddr3 false) scripted
                            (Build_BusPacket REFRESH 0 0 0 0 0 0)
                            (fresh false noCallbacks [])) (fun _ => tt) = Some tt)
    by (vm_compute; reflexivity).
  unfold holds.
  destruct (@issue (ddr3 false) scripted (Build_BusPacket REFRESH 0 0 0 0 0 0)
              (fresh false noCallbacks [])) as [s'|e] eqn:Hs';
    [|discriminate Hobs].
  destruct (@refresh_command (ddr3 false) scripted
              (Build_BusPacket REFRESH 0 0 0 0 0 0)
              (fresh false noCallbacks []) s' eq_refl Hs')
    as ((e & He & Hen) & Hbanks).
  split; [|split].
  - rewrite Hen. injection He as <-. reflexivity.
  - destruct (Hbanks 0%nat 3%nat (Build_BankState Idle 0 0 0 0 0 0 READ 0) eq_refl)
      as (b' & Hb' & _ & Hown).
    destruct (Hown eq_refl) as (H1 & _ & _ & H4 & _ & H6).
    exists b'. split; [exact Hb'|]. split; [exact H1|]. split; [exact H4|].
    exact (proj2 (H6 eq_refl)).
  - destruct (Hbanks 1%nat 3%nat (Build_BankState Idle 0 0 0 0 0 0 READ 0) eq_refl)
      as (b' & Hb' & Hother & _).
    rewrite Hb', Hother; [reflexivity|]. vm_compute. lia.
Defined.

Lemma command_locality_example :
  holds (@issue (ddr3 false) scripted (cmd ACTIVATE 0 1 3) (opened false))
    (fun s' =>
       exists b',
         lookup_bank 0 0 (bankStates s') = Some b'
         /\ machine b' = (RowActive, 7, ACTIVATE, 0)).
Proof.
  assert (Hobs : observe (@issue (ddr3 false) scripted (cmd ACTIVATE 0 1 3)
                            (opened false)) (fun _ => tt) = Some tt)
    by (vm_compute; reflexivity).
  unfold holds.
  destruct (@issue (ddr3 false) scripted (cmd ACTIVATE 0 1 3) (opened false))
    as [s'|e] eqn:Hs'; [|discriminate Hobs].
  destruct (@command_locality (ddr3 false) scripted (cmd ACTIVATE 0 1 3)
              (opened false) s' 0%nat 0%nat
              (Build_BankState RowActive 7 0 0 0 0 0 ACTIVATE 0) Hs' eq_refl)
    as (b' & Hb' & Hm & _).
  - right. split; [vm_compute; lia|discriminate].
  - exists b'. split; [exact Hb'|exact Hm].
Defined.

Lemma precharge_needs_tRP_example :
  holds (@issue (profile false false 0 5200) scripted (cmd PRECHARGE 0 0 7)
           (freshOn (profile false false 0 5200) noCallbacks []))
    (fun s' =>
       exists b',
         lookup_bank 0 0 (bankStates s') = Some b'
         /\ currentBankState
              (Nat.iter 1000 (@bankCountdown (profile false false 0 5200)) b')
            = Precharging).
Proof.
  assert (Hobs : observe (@issue (profile false false 0 5200) scripted
                            (cmd PRECHARGE 0 0 7)
                            (freshOn (profile false false 0 5200) noCallbacks []))
                   (fun s' => lookup_bank 0 0 (bankStates s'))
                 = Some (Some (Build_BankState Precharging 0 0 0 0 0 0 PRECHARGE 0)))
    by (vm_compute; reflexivity).
  unfold holds.
  destruct (@issue (profile false false 0 5200) scripted (cmd PRECHARGE 0 0 7)
              (freshOn (profile false false 0 5200) noCallbacks []))
    as [s'|e] eqn:Hs'; [|discriminate Hobs].
  injection Hobs as Hb'.
  destruct (@precharge_needs_tRP (profile false false 0 5200) scripted
              (cmd PRECHARGE 0 0 7)
              (freshOn (profile false false 0 5200) noCallbacks []) s'
              (Build_BankState Precharging 0 0 0 0 0 0 PRECHARGE 0) 1000
              eq_refl eq_refl eq_refl Hs' Hb') as (Hfix & Hst).
  eexists. split; [exact Hb'|]. rewrite Hfix. exact Hst.
Defined.

Lemma issue_outcome_example :
  @issue (ddr3 false) scripted (dataPacket (cmd WRITE 0 0 7)) (opened false)
  = Abort BadPoppedCommand
  /\ exists s',
       @issue (ddr3 false) scripted (cmd ACTIVATE 0 1 3) (opened false) = Ok s'
       /\ outgoingCmdPacket s' = Some (cmd ACTIVATE 0 1 3)
       /\ cmdCyclesLeft s' = 1.
Proof.
  split.
  - apply (proj1 (@issue_outcome (ddr3 false) scripted
                    (dataPacket (cmd WRITE 0 0 7)) (opened false))).
    reflexivity.
  - apply (proj2 (@issue_outcome (ddr3 false) scripted (cmd ACTIVATE 0 1 3)
                    (opened false))).
    + discriminate.
    + by eexists.
    + by eexists.
    + by eexists.
    + by eexists.
Defined.

Lemma update_bank_example :
  holds (@update (ddr3 false) scripted
           (fresh false noCallbacks [(0%nat, cmd ACTIVATE 0 0 7)]))
    (fun s' =>
       machine <$> lookup_bank 0 0 (bankStates s')
       = Some (RowActive, 7, ACTIVATE, 0)
       /\ nextActivate <$> lookup_bank 0 1 (bankStates s') = Some 4).
Proof.
  assert (Hobs : observe (@update (ddr3 false) scripted
                            (fresh false noCallbacks
                               [(0%nat, cmd ACTIVATE 0 0 7)]))
                   (fun _ => tt) = Some tt)
    by (vm_compute; reflexivity).
  unfold holds.
  destruct (@update (ddr3 false) scripted
              (fresh false noCallbacks [(0%nat, cmd ACTIVATE 0 0 7)]))
    as [s'|e] eqn:Hs'; [|discriminate Hobs].
  split.
  - rewrite (@update_bank (ddr3 false) scripted _ s' 0%nat 0%nat eq_refl Hs').
    vm_compute. reflexivity.
  - rewrite (@update_bank (ddr3 false) scripted _ s' 0%nat 1%nat eq_refl Hs').
    vm_compute. reflexivity.
Defined.

Lemma command_bus_example :
  holds (@update (ddr3 false) scripted
           (fresh false noCallbacks [(0%nat, cmd ACTIVATE 0 0 7)]))
    (fun s' =>
       outgoingCmdPacket s' = Some (cmd ACTIVATE 0 0 7)
       /\ cmdCyclesLeft s' = 1).
Proof.
  assert (Hobs : observe (@update (ddr3 false) scripted
                            (fresh false noCallbacks
                               [(0%nat, cmd ACTIVATE 0 0 7)]))
                   (fun _ => tt) = Some tt)
    by (vm_compute; reflexivity).
  unfold holds.
  destruct (@update (ddr3 false) scripted
              (fresh false noCallbacks [(0%nat, cmd ACTIVATE 0 0 7)]))
    as [s'|e] eqn:Hs'; [|discriminate Hobs].
  destruct (@command_bus_step (ddr3 false) scripted _ s' Hs') as (_ & Hpop & _).
  destruct (Hpop (cmd ACTIVATE 0 0 7) eq_refl) as (_ & Hout & Hleft & _).
  split; [exact Hout|exact Hleft].
Defined.

Lemma update_callbacks_example :
  holds (@update (ddr3 false) scripted returning)
    (fun s' => callbacks s' = [ReturnReadDataCall 0 8192 40]).
Proof.
  assert (Hobs : observe (@update (ddr3 false) scripted returning)
                   (fun _ => tt) = Some tt)
    by (vm_compute; reflexivity).
  unfold holds.
  destruct (@update (ddr3 false) scripted returning) as [s'|e] eqn:Hs';
    [|discriminate Hobs].
  rewrite (proj1 (@update_callbacks (ddr3 false) scripted returning s' Hs')).
  reflexivity.
Defined.

Lemma background_energy_example :
  holds (@update (ddr3 false) scripted
           (fresh false noCallbacks [(0%nat, cmd ACTIVATE 0 0 7)]))
    (fun s' => backgroundEnergy s' !! 0%nat = Some 360
               /\ backgroundEnergy s' !! 1%nat = Some 336)
  /\ holds (@update (ddr3 false) scripted
              (fresh false noCallbacks
                 [(0%nat, Build_BusPacket REFRESH 0 0 0 0 0 0)]))
       (fun s' =>
          map currentBankState <$> bankStates s' !! 0%nat
          = Some [Refreshing; Refreshing; Refreshing; Refreshing]
          /\ backgroundEnergy s' !! 0%nat = Some 360)
  /\ holds (@update (profile false true 10 5200) scripted
              (freshOn (profile false true 10 5200) noCallbacks []))
       (fun s' =>
          powerDown s' !! 1%nat = Some true
          /\ backgroundEnergy s' !! 1%nat = Some 96).
Proof.
  split; [|split].
  - assert (Hobs : observe (@update (ddr3 false) scripted
                              (fresh false noCallbacks
                                 [(0%nat, cmd ACTIVATE 0 0 7)]))
                     (fun s' => (map (map currentBankState) (bankStates s'),
                                 powerDown s'))
                   = Some ([[RowActive; Idle; Idle; Idle]; [Idle; Idle; Idle; Idle]],
                           [false; false]))
      by (vm_compute; reflexivity).
    unfold holds.
    destruct (@update (ddr3 false) scripted
                (fresh false noCallbacks [(0%nat, cmd ACTIVATE 0 0 7)]))
      as [s'|e] eqn:Hs'; [|discriminate Hobs].
    unfold observe in Hobs. apply (inj Some) in Hobs. injection Hobs as Hst Hpd.
    destruct (@background_energy_exact (ddr3 false) scripted _ s' Hs') as (Hin & _).
    split.
    + destruct (Hin 0%nat ltac:(vm_compute; lia))
        as (v & rowv & pd & Hv & Hrow & Hp & ->).
      injection Hv as <-.
      pose proof (f_equal (fun l => l !! 0%nat) Hst) as Hm. simpl in Hm.
      change (map ?f ?l) with (f <$> l) in Hm.
      rewrite list_lookup_fmap, Hrow in Hm. injection Hm as Hm.
      destruct rowv as [|b0 rowv]; [discriminate Hm|]. injection Hm as H0 _.
      destruct (decide _) as [_|Hn]; [reflexivity|].
      exfalso. apply Hn. apply Exists_cons_hd. by right.
    + destruct (Hin 1%nat ltac:(vm_compute; lia))
        as (v & rowv & pd & Hv & Hrow & Hp & ->).
      injection Hv as <-. rewrite Hpd in Hp. injection Hp as <-.
      pose proof (f_equal (fun l => l !! 1%nat) Hst) as Hm. simpl in Hm.
      change (map ?f ?l) with (f <$> l) in Hm.
      rewrite list_lookup_fmap, Hrow in Hm. injection Hm as Hm.
      destruct (decide _) as [Hy|_]; [|reflexivity].
      exfalso. apply Exists_exists in Hy. destruct Hy as (b & Hb & Hopen).
      assert (Hin' : currentBankState b ∈ [Idle; Idle; Idle; Idle]).
      { rewrite <- Hm. change (map ?f ?l) with (f <$> l).
        by apply list_elem_of_fmap_2. }
      rewrite !elem_of_cons, elem_of_nil in Hin'.
      destruct Hopen as [Ho|Ho]; rewrite Ho in Hin';
        repeat (destruct Hin' as [Hin'|Hin']; [discriminate Hin'|]); done.
  - assert (Hobs : observe (@update (ddr3 false) scripted
                              (fresh false noCallbacks
                                 [(0%nat, Build_BusPacket REFRESH 0 0 0 0 0 0)]))
                     (fun s' => map (map currentBankState) (bankStates s'))
                   = Some [[Refreshing; Refreshing; Refreshing; Refreshing];
                           [Idle; Idle; Idle; Idle]])
      by (vm_compute; reflexivity).
    unfold holds.
    destruct (@update (ddr3 false) scripted
                (fresh false noCallbacks
                   [(0%nat, Build_BusPacket REFRESH 0 0 0 0 0 0)]))
      as [s'|e] eqn:Hs'; [|discriminate Hobs].
    unfold observe in Hobs. apply (inj Some) in Hobs.
    destruct (@background_energy_exact (ddr3 false) scripted _ s' Hs') as (Hin & _).
    destruct (Hin 0%nat ltac:(vm_compute; lia))
      as (v & rowv & pd & Hv & Hrow & Hp & ->).
    injection Hv as <-.
    pose proof (f_equal (fun l => l !! 0%nat) Hobs) as Hm. simpl in Hm.
    change (map ?f ?l) with (f <$> l) in Hm.
    rewrite list_lookup_fmap, Hrow in Hm. injection Hm as Hm.
    rewrite Hrow. simpl. split; [by rewrite Hm|].
    destruct rowv as [|b0 rowv]; [discriminate Hm|]. injection Hm as H0 _.
    destruct (decide _) as [_|Hn]; [reflexivity|].
    exfalso. apply Hn. apply Exists_cons_hd. by left.
  - assert (Hobs : observe (@update (profile false true 10 5200) scripted
                              (freshOn (profile false true 10 5200) noCallbacks []))
                     (fun s' => (map (map currentBankState) (bankStates s'),
                                 powerDown s'))
                   = Some ([[PowerDown; PowerDown; PowerDown; PowerDown];
                            [PowerDown; PowerDown; PowerDown; PowerDown]],
                           [true; true]))
      by (vm_compute; reflexivity).
    unfold holds.
    destruct (@update (profile false true 10 5200) scripted
                (freshOn (profile false true 10 5200) noCallbacks []))
      as [s'|e] eqn:Hs'; [|discriminate Hobs].
    unfold observe in Hobs. apply (inj Some) in Hobs. injection Hobs as Hst Hpd.
    destruct (@background_energy_exact (profile false true 10 5200) scripted _ s'
                Hs') as (Hin & _).
    destruct (Hin 1%nat ltac:(vm_compute; lia))
      as (v & rowv & pd & Hv & Hrow & Hp & ->).
    injection Hv as <-. rewrite Hp. rewrite Hpd in Hp. injection Hp as <-.
    split; [reflexivity|].
    pose proof (f_equal (fun l => l !! 1%nat) Hst) as Hm. simpl in Hm.
    change (map ?f ?l) with (f <$> l) in Hm.
    rewrite list_lookup_fmap, Hrow in Hm. injection Hm as Hm.
    destruct (decide _) as [Hy|_]; [|reflexivity].
    exfalso. apply Exists_exists in Hy. destruct Hy as (b & Hb & Hopen).
    assert (Hin' : currentBankState b ∈ [PowerDown; PowerDown; PowerDown; PowerDown]).
    { rewrite <- Hm. change (map ?f ?l) with (f <$> l).
      by apply list_elem_of_fmap_2. }
    rewrite !elem_of_cons, elem_of_nil in Hin'.
    destruct Hopen as [Ho|Ho]; rewrite Ho in Hin';
      repeat (destruct Hin' as [Hin'|Hin']; [discriminate Hin'|]); done.
Defined.

Lemma round_trip_example :
  length (returnTransaction awaitingSecond) = 1%nat
  /\ holds (s1 ← @receiveFromBus (ddr3 false) scripted readData awaitingSecond;
            s2 ← @cycles (ddr3 false) scripted 1 s1;
            @update (ddr3 false) scripted s2)
       (fun s3 =>
          returnTransaction s3 = []
          /\ last (callbacks s3) = Some (ReturnReadDataCall 0 16384 41)).
Proof.
  split; [reflexivity|].
  assert (Hobs :
    observe (@receiveFromBus (ddr3 false) scripted readData awaitingSecond)
      (fun s1 =>
         observe (@cycles (ddr3 false) scripted 1 s1)
           (fun s2 => observe (@update (ddr3 false) scripted s2) (fun _ => tt)))
    = Some (Some (Some tt)))
    by (vm_compute; reflexivity).
  unfold holds.
  destruct (@receiveFromBus (ddr3 false) scripted readData awaitingSecond)
    as [s1|e] eqn:Hs1; [|discriminate Hobs].
  unfold observe at 1 in Hobs. apply (inj Some) in Hobs.
  change (Ok s1 ≫= _) with
    (s2 ← @cycles (ddr3 false) scripted 1 s1; @update (ddr3 false) scripted s2).
  destruct (@cycles (ddr3 false) scripted 1 s1) as [s2|e] eqn:Hs2;
    [|discriminate Hobs].
  unfold observe at 1 in Hobs. apply (inj Some) in Hobs.
  change (Ok s2 ≫= _) with (@update (ddr3 false) scripted s2).
  destruct (@update (ddr3 false) scripted s2) as [s3|e] eqn:Hs3;
    [|discriminate Hobs].
  destruct (@receive_return_round_trip (ddr3 false) scripted readData
              awaitingSecond s1 s2 s3 Hs1 Hs2 Hs3 eq_refl)
    as (Hrt & Hclock & Hlast).
  split; [exact Hrt|]. rewrite Hlast, Hclock. reflexivity.
Defined.

Lemma first_fit_example :
  exists s',
    @scheduleTransaction scripted queued = Ok s'
    /\ transactionQueue s' = [Build_Transaction DATA_WRITE 1024 5 0 0]
    /\ pendingReadTransactions s' = [Build_Transaction DATA_READ 8192 0 0 0].
Proof.
  pose proof (proj1 (@first_fit_scheduling scripted queued)
                [] [Build_Transaction DATA_WRITE 1024 5 0 0]
                (Build_Transaction DATA_READ 8192 0 0 0)
                eq_refl (Forall_nil_2 _) eq_refl) as H.
  simpl in H. destruct H as (s' & Hs' & Hq & _ & Hp).
  exists s'. split; [exact Hs'|]. split; [exact Hq|exact Hp].
Defined.

Lemma update_command_queue_example :
  holds (@update (ddr3 false) scripted queued)
    (fun s' =>
       transactionQueue s' = [Build_Transaction DATA_WRITE 1024 5 0 0]
       /\ snd (commandQueue s')
          = [(0%nat, Build_BusPacket ACTIVATE 8192 0 1 0 0 0);
             (0%nat, Build_BusPacket READ 8192 0 1 0 0 0)]).
Proof.
  assert (Hobs : observe (@update (ddr3 false) scripted queued)
                   (fun _ => tt) = Some tt)
    by (vm_compute; reflexivity).
  unfold holds.
  destruct (@update (ddr3 false) scripted queued) as [s'|e] eqn:Hs';
    [|discriminate Hobs].
  pose proof (@update_command_queue (ddr3 false) scripted queued s' Hs') as H.
  change (@scheduled (ddr3 false) scripted queued)
    with (Some (Build_Transaction DATA_READ 8192 0 0 0,
                [Build_Transaction DATA_WRITE 1024 5 0 0])) in H.
  destruct H as (ty & Hty & Hq & Hcq).
  injection Hty as <-. split; [exact Hq|]. rewrite Hcq. reflexivity.
Defined.



Lemma resetStats_example :
  let s := set_totalReadsPerBank [3; 0; 0; 0; 0; 0; 0; 0]
             (set_totalWritesPerBank [2; 0; 0; 0; 0; 0; 0; 0]
                (set_grandTotalBankAccesses [10; 0; 0; 0; 0; 0; 0; 0]
                   (fresh false noCallbacks []))) in
  grandTotalBankAccesses (@resetStats scripted s) !! 0%nat = Some 15
  /\ totalReadsPerBank (@resetStats scripted s) !! 0%nat = Some 0
  /\ totalWritesPerBank (@resetStats scripted s) !! 0%nat = Some 0.
Proof.
  intros s.
  destruct (proj1 (@resetStats_effect scripted s) 0%nat 10 3 2 eq_refl eq_refl eq_refl)
    as (Hg & Hr & Hw & _).
  split; [exact Hg|]. split; [exact Hr|exact Hw].
Defined.


Lemma shape_example :
  holds (@run (ddr3 false) scripted
           [CallUpdate; CallStep; CallPrintStats; CallUpdate]
           (@MemoryController_new (ddr3 false) scripted noCallbacks
              (0%nat, [(0%nat, cmd ACTIVATE 0 0 7)]) idleRanks))
    (@shaped (ddr3 false) scripted).
Proof.
  assert (Hobs : observe (@run (ddr3 false) scripted
                            [CallUpdate; CallStep; CallPrintStats; CallUpdate]
                            (@MemoryController_new (ddr3 false) scripted
                               noCallbacks (0%nat, [(0%nat, cmd ACTIVATE 0 0 7)])
                               idleRanks))
                   (fun _ => tt) = Some tt)
    by (vm_compute; reflexivity).
  assert (Hranks : (0 < @NUM_RANKS (ddr3 false))%nat) by (vm_compute; lia).
  unfold holds.
  destruct (@run (ddr3 false) scripted _ _) as [s|e] eqn:Hs; [|discriminate Hobs].
  exact (@shape_invariant (ddr3 false) scripted noCallbacks
           (0%nat, [(0%nat, cmd ACTIVATE 0 0 7)]) idleRanks
           [CallUpdate; CallStep; CallPrintStats; CallUpdate] s eq_refl Hranks Hs).
Defined.

Lemma bus_discipline_example :
  holds (@run (ddr3 false) scripted [CallUpdate; CallStep; CallUpdate]
           (@MemoryController_new (ddr3 false) scripted noCallbacks
              (0%nat, [(0%nat, cmd WRITE 0 0 7)]) idleRanks))
    (fun s =>
       @disciplined scripted s
       /\ writeDataToSend s = [dataPacket (cmd WRITE 0 0 7)]).
Proof.
  assert (Hobs : observe (@run (ddr3 false) scripted
                            [CallUpdate; CallStep; CallUpdate]
                            (@MemoryController_new (ddr3 false) scripted
                               noCallbacks (0%nat, [(0%nat, cmd WRITE 0 0 7)])
                               idleRanks))
                   writeDataToSend = Some [dataPacket (cmd WRITE 0 0 7)])
    by (vm_compute; reflexivity).
  unfold holds.
  destruct (@run (ddr3 false) scripted _ _) as [s|e] eqn:Hs; [|discriminate Hobs].
  split.
  - exact (@bus_discipline (ddr3 false) scripted noCallbacks
             (0%nat, [(0%nat, cmd WRITE 0 0 7)]) idleRanks
             [CallUpdate; CallStep; CallUpdate] s Hs).
  - injection Hobs as Hobs. exact Hobs.
Defined.

Lemma refresh_on_time_example :
  holds (@cycles (ddr3 false) scripted 2600
           (@MemoryController_new (ddr3 false) scripted noCallbacks
              (0%nat, []) idleRanks))
    (fun s' =>
       refreshCountdown s' !! 0%nat = Some 0
       /\ refreshRank s' = 0%nat
       /\ @refreshDue scripted s' = true).
Proof.
  assert (H1 : 0 < @REFRESH_PERIOD_tCK (ddr3 false) < 2 ^ 32)
    by (vm_compute; split; reflexivity).
  assert (H2 : 0 < @REFRESH_STAGGER (ddr3 false)
               /\ Z.of_nat (@NUM_RANKS (ddr3 false)) * @REFRESH_STAGGER (ddr3 false)
                  <= @REFRESH_PERIOD_tCK (ddr3 false))
    by (vm_compute; split; [reflexivity|discriminate]).
  assert (H3 : (0 < @NUM_RANKS (ddr3 false))%nat) by (vm_compute; lia).
  pose proof (@refresh_on_time (ddr3 false) scripted H1 H2 H3 noCallbacks
                (0%nat, []) idleRanks []
                (@MemoryController_new (ddr3 false) scripted noCallbacks
                   (0%nat, []) idleRanks)) as Hthm.
  clear H1 H2 H3.
  assert (Hobs : observe (@cycles (ddr3 false) scripted 2600
                            (@MemoryController_new (ddr3 false) scripted
                               noCallbacks (0%nat, []) idleRanks))
                   (fun _ => tt) = Some tt)
    by (vm_compute; reflexivity).
  unfold holds.
  destruct (@cycles (ddr3 false) scripted 2600 _) as [s'|e] eqn:Hs';
    [|discriminate Hobs].
  exact (proj2 (Hthm s' 0%nat 2600 eq_refl eq_refl Hs')).
Defined.

Lemma refresh_period_example :
  holds (@run (profile false false 10 40) scripted
           (concat (replicate 20 [CallUpdate; CallStep]))
           (@MemoryController_new (profile false false 10 40) scripted
              noCallbacks (0%nat, []) idleRanks))
    (fun s =>
       @refreshDue scripted s = true
       /\ holds (@cycles (profile false false 10 40) scripted 40 s)
            (fun sk =>
               refreshCountdown sk !! refreshRank s = Some 0
               /\ refreshRank sk = refreshRank s
               /\ @refreshDue scripted sk = true)).
Proof.
  assert (H1 : 0 < @REFRESH_PERIOD_tCK (profile false false 10 40) < 2 ^ 32)
    by (vm_compute; split; reflexivity).
  assert (H2 : 0 < @REFRESH_STAGGER (profile false false 10 40)
               /\ Z.of_nat (@NUM_RANKS (profile false false 10 40))
                  * @REFRESH_STAGGER (profile false false 10 40)
                  <= @REFRESH_PERIOD_tCK (profile false false 10 40))
    by (vm_compute; split; [reflexivity|discriminate]).
  assert (H3 : (0 < @NUM_RANKS (profile false false 10 40))%nat)
    by (vm_compute; lia).
  assert (H4 : 1 <= Z.of_nat 40
               <= @REFRESH_PERIOD_tCK (profile false false 10 40))
    by (vm_compute; split; discriminate).
  pose proof (@refresh_period (profile false false 10 40) scripted H1 H2 H3
                noCallbacks (0%nat, []) idleRanks
                (concat (replicate 20 [CallUpdate; CallStep]))) as Hthm.
  clear H1 H2 H3.
  assert (HobsA : observe (@run (profile false false 10 40) scripted
                             (concat (replicate 20 [CallUpdate; CallStep]))
                             (@MemoryController_new (profile false false 10 40)
                                scripted noCallbacks (0%nat, []) idleRanks))
                    (@refreshDue scripted) = Some true)
    by (vm_compute; reflexivity).
  assert (HobsB : observe (@run (profile false false 10 40) scripted
                             (concat (replicate 20 [CallUpdate; CallStep]))
                             (@MemoryController_new (profile false false 10 40)
                                scripted noCallbacks (0%nat, []) idleRanks))
                    (fun s =>
                       observe (@cycles (profile false false 10 40) scripted 40 s)
                         (fun _ => tt))
                  = Some (Some tt))
    by (vm_compute; reflexivity).
  unfold holds at 1.
  destruct (@run (profile false false 10 40) scripted _ _) as [s|e] eqn:Hs;
    [|discriminate HobsA].
  unfold observe at 1 in HobsA. apply (inj Some) in HobsA.
  unfold observe at 1 in HobsB. apply (inj Some) in HobsB.
  split; [exact HobsA|].
  unfold holds.
  destruct (@cycles (profile false false 10 40) scripted 40 s) as [sk|e] eqn:Hsk;
    [|discriminate HobsB].
  destruct (Hthm s sk 40%nat eq_refl HobsA H4 Hsk) as (Hcount & _ & Hlast).
  destruct (Hlast eq_refl) as [Hr Hd].
  split; [exact Hcount|]. split; [exact Hr|exact Hd].
Defined.

Lemma in_bounds_example :
  @cycles (ddr3 false) scripted 50
    (@MemoryController_new (ddr3 false) scripted noCallbacks
       (0%nat, [(0%nat, cmd ACTIVATE 0 0 7); (3%nat, cmd WRITE 0 0 7)]) idleRanks)
  ≠ Abort OutOfBounds.
Proof.
  assert (Hsound : @sound (ddr3 false) scripted scriptedRange
            (@MemoryController_new (ddr3 false) scripted noCallbacks
               (0%nat, [(0%nat, cmd ACTIVATE 0 0 7); (3%nat, cmd WRITE 0 0 7)])
               idleRanks)).
  { split; [|split; [|split]].
    - split; [reflexivity|vm_compute; lia].
    - by repeat split.
    - by repeat split.
    - unfold scriptedRange. simpl.
      repeat constructor; simpl; vm_compute; lia. }
  assert (H1 : forall (r : nat) (cq : @CommandQueue scripted),
            (r < @NUM_RANKS (ddr3 false))%nat -> scriptedRange cq ->
            scriptedRange (@cq_needRefresh scripted r cq)).
  { intros r cq Hr Hq. unfold scriptedRange in *. simpl.
    apply Forall_app. split; [exact Hq|].
    apply Forall_singleton. split; [exact Hr|vm_compute; lia]. }
  assert (H2 : forall (bs : list (list BankState)) (cq : @CommandQueue scripted),
            scriptedRange cq ->
            scriptedRange (snd (@cq_pop scripted bs cq))
            /\ forall p, fst (@cq_pop scripted bs cq) = Some p ->
                         @inRange (ddr3 false) p).
  { intros bs cq Hq. unfold scriptedRange in *. simpl.
    destruct (snd cq) as [|[t p] q'] eqn:Hcq; simpl.
    - split; [by rewrite Hcq|done].
    - apply Forall_cons in Hq. destruct Hq as [Hp Hq'].
      destruct (decide (t <= fst cq)%nat); simpl.
      + split; [exact Hq'|]. by intros ? [= <-].
      + split; [|done]. rewrite Hcq. by constructor. }
  assert (H3 : forall (p : BusPacket) (cq : @CommandQueue scripted),
            @inRange (ddr3 false) p -> scriptedRange cq ->
            scriptedRange (@cq_enqueue scripted p cq)).
  { intros p cq Hp Hq. unfold scriptedRange in *. simpl.
    apply Forall_app. split; [exact Hq|]. by apply Forall_singleton. }
  assert (H4 : forall cq : @CommandQueue scripted,
            scriptedRange cq -> scriptedRange (@cq_step scripted cq)).
  { intros cq Hq. exact Hq. }
  assert (H5 : forall a : Z,
            (addrRank (@addressMapping scripted a) < @NUM_RANKS (ddr3 false))%nat
            /\ (addrBank (@addressMapping scripted a) < @NUM_BANKS (ddr3 false))%nat).
  { intros a. simpl.
    assert (0 <= (a / 4096) mod 2 < 2) by (apply Z.mod_pos_bound; lia).
    assert (0 <= (a / 1024) mod 4 < 4) by (apply Z.mod_pos_bound; lia).
    change (@NUM_RANKS (ddr3 false)) with 2%nat.
    change (@NUM_BANKS (ddr3 false)) with 4%nat. lia. }
  assert (H6 : forall t : Transaction,
            @getBusPacketType scripted t ≠ Abort OutOfBounds).
  { intros t. simpl. by destruct (transactionType t). }
  assert (H7 : (0 < @NUM_BANKS (ddr3 false))%nat) by (vm_compute; lia).
  pose proof (@cycles_in_bounds (ddr3 false) scripted scriptedRange
                H1 H2 H3 H4 H5 H6 H7 50%nat _ Hsound) as H.
  clear H1 H2 H3 H4 H5 H6 H7 Hsound.
  intros Hab. rewrite Hab in H. exact (H eq_refl).
Defined.

Lemma pending_balance_example :
  holds (@update (ddr3 false) scripted queued)
    (fun s' => map address (pendingReadTransactions s') = [8192]).
Proof.
  assert (Hobs : observe (@update (ddr3 false) scripted queued)
                   (fun _ => tt) = Some tt)
    by (vm_compute; reflexivity).
  unfold holds.
  destruct (@update (ddr3 false) scripted queued) as [s'|e] eqn:Hs';
    [|discriminate Hobs].
  destruct (@pending_reads_balance (ddr3 false) scripted queued s' Hs')
    as (mid & Hmid & Hret).
  simpl in Hret. rewrite Hret. rewrite Hmid. reflexivity.
Defined.

Lemma bin_floor_example :
  @bin (ddr3 false) 37 = 30
  /\ @bin (ddr3 false) 37 <= 37 < @bin (ddr3 false) 37 + 10.
Proof.
  split; [reflexivity|].
  apply (@bin_floor (ddr3 false) 37); vm_compute; split; (reflexivity || discriminate).
Defined.

